(** * InsuranceFormFiller: the data generator and the widget state resolver

    A shallow embedding of [src/data-generator.js] (class [DataGenerator]),
    of the sample table of [src/field-mapping.js] and of the checkbox part
    of the form filler ([getCheckboxOnValues], [isYesNoCheckbox],
    [isMultiWidgetCheckbox], [setMultiWidgetCheckboxValue] and the checkbox
    branch of [fillForm]), followed by the properties of the specification
    that concern them.  Further parts embed [formatDate] and
    [getCalculatedValue] of the generator, the text branch of [fillForm],
    [batchFill] of [src/batch-fill.js] and the providers and callbacks of
    [src/ai-integration.js], with properties read off the code.

    Conventions of the embedding
    - a JavaScript string is a [string]; its UTF-16 code units are the
      character codes (the run ids and field names of the program are ASCII);
    - a [Date] is its time value, the number of milliseconds since the epoch,
      a [Z]; an ISO string produced by [toISOString] is represented by the
      time value it prints (the printing is injective);
    - local time is UTC shifted by the offset of the host's time zone in
      force at the instant, as ECMAScript's [LocalTime] and [UTC] define
      it: a zone gives the offset at every instant and for every local
      time value, so that daylight saving changes are covered;
    - a JavaScript number that holds an amount of money is an element of a
      numeric type with the operations the program uses, with two
      instances: IEEE 754 binary64, which is what runs, and exact rational
      numbers; integers (indices, day counts, seeds) are [Z];
    - [faker], the clock, the AI backend and pdf-lib's [check]/[uncheck] are
      outside the repository: they are parameters. *)

From Stdlib Require Import ZArith QArith Qround Qabs Lqa Lia List String Ascii Bool.
From Stdlib Require Import Floats.SpecFloat.
From stdpp Require Import base gmap strings list pretty.
Import ListNotations.

Close Scope Q_scope.
Local Open Scope string_scope.
Local Open Scope Z_scope.

(** ** hashString: the seed of a run *)

Module Hash.

(** ECMAScript [ToInt32]: reduction modulo 2^32 into [-2^31, 2^31). *)
Definition ToInt32 (z : Z) : Z :=
  let m := z mod 2 ^ 32 in
  if 2 ^ 31 <=? m then m - 2 ^ 32 else m.

(** [a << k] on 32-bit integers. *)
Definition shl32 (a k : Z) : Z := ToInt32 (Z.shiftl (ToInt32 a) k).

(** [a & b] on 32-bit integers. *)
Definition and32 (a b : Z) : Z := ToInt32 (Z.land (ToInt32 a) (ToInt32 b)).

(** The code units of a string, as [charCodeAt] returns them. *)
Definition charCodes (s : string) : list Z :=
  List.map (fun a => Z.of_N (N_of_ascii a)) (list_ascii_of_string s).

(** One turn of the loop of [hashString]:
    [hash = ((hash << 5) - hash) + char; hash = hash & hash]. *)
Definition hash_step (hash char : Z) : Z :=
  let hash := (shl32 hash 5 - hash) + char in
  and32 hash hash.

Definition hashCodes (cs : list Z) : Z := Z.abs (fold_left hash_step cs 0).

Definition hashString (str : string) : Z := hashCodes (charCodes str).

End Hash.

(** ** Dates: the day arithmetic of ECMAScript *)

Module JSDate.

Definition msPerDay : Z := 86400000.

Definition Day (t : Z) : Z := t / msPerDay.
Definition TimeWithinDay (t : Z) : Z := t mod msPerDay.
Definition MakeDate (day time : Z) : Z := day * msPerDay + time.

(** Number of days from the epoch to the civil date [y]-[m]-[d], months
    counted from 1.  The day [d] is not required to exist in the month:
    the count is linear in [d], as [MakeDay] demands. *)
Definition days_from_civil (y m d : Z) : Z :=
  let y := if m <=? 2 then y - 1 else y in
  let era := y / 400 in
  let yoe := y - era * 400 in
  let mp := if 2 <? m then m - 3 else m + 9 in
  let doy := (153 * mp + 2) / 5 + d - 1 in
  let doe := yoe * 365 + yoe / 4 - yoe / 100 + doy in
  era * 146097 + doe - 719468.

(** Days before the first of March of year [y], up to a constant: the
    closed form of the day count over years. *)
Definition yearDays (y : Z) : Z := 365 * y + y / 4 - y / 100 + y / 400.

(** The civil date of a day number: year, month (from 1), day of month. *)
Definition civil_from_days (z : Z) : Z * Z * Z :=
  let z := z + 719468 in
  let era := z / 146097 in
  let doe := z - era * 146097 in
  let yoe := (doe - doe / 1460 + doe / 36524 - doe / 146096) / 365 in
  let y := yoe + era * 400 in
  let doy := doe - (365 * yoe + yoe / 4 - yoe / 100) in
  let mp := (5 * doy + 2) / 153 in
  let d := doy - (153 * mp + 2) / 5 + 1 in
  let m := if mp <? 10 then mp + 3 else mp - 9 in
  (if m <=? 2 then y + 1 else y, m, d).

Definition YearFromTime (t : Z) : Z := fst (fst (civil_from_days (Day t))).
(** Months are counted from 0 by [MonthFromTime], as in ECMAScript. *)
Definition MonthFromTime (t : Z) : Z := snd (fst (civil_from_days (Day t))) - 1.
Definition DateFromTime (t : Z) : Z := snd (civil_from_days (Day t)).

(** ECMAScript [MakeDay]: the day number of the first of the month
    [year + month / 12], [month mod 12], plus [date - 1]. *)
Definition MakeDay (year month date : Z) : Z :=
  let ym := year + month / 12 in
  let mn := month mod 12 in
  days_from_civil ym (mn + 1) 1 + date - 1.

(** The time zone of the host, as ECMAScript's [LocalTZA(t, isUTC)]:
    [offsetAt t] is the offset of local time from UTC, in milliseconds,
    in force at the instant [t] ([isUTC] true); [offsetOf l] is the
    offset by which the local time value [l] is read ([isUTC] false),
    which decides how a local time that occurs twice or not at all
    around a change of offset is taken. *)
Record Zone : Type := { offsetAt : Z -> Z; offsetOf : Z -> Z }.

(** A zone whose offset never changes. *)
Definition fixedZone (offset : Z) : Zone :=
  {| offsetAt := fun _ => offset; offsetOf := fun _ => offset |}.

(** A zone whose offset changes once, at the instant [transition], from
    [before] to [after].  A local time that the change repeats or skips
    is read with the offset before the change, as ECMAScript lays down. *)
Definition transitionZone (transition before after : Z) : Zone :=
  {| offsetAt := fun t => if t <? transition then before else after;
     offsetOf := fun l =>
       if l <? transition + Z.max before after then before else after |}.

(** All offsets of the zone lie between [lo] and [hi]. *)
Definition offsetsWithin (tz : Zone) (lo hi : Z) : Prop :=
  forall t, lo <= offsetAt tz t <= hi /\ lo <= offsetOf tz t <= hi.

Section Zone.
Variable tz : Zone.

Definition LocalTime (t : Z) : Z := t + offsetAt tz t.
Definition UTC (t : Z) : Z := t - offsetOf tz t.

Definition getFullYear (t : Z) : Z := YearFromTime (LocalTime t).
Definition getMonth (t : Z) : Z := MonthFromTime (LocalTime t).
Definition getDate (t : Z) : Z := DateFromTime (LocalTime t).

Definition setDate (t dt : Z) : Z :=
  let l := LocalTime t in
  UTC (MakeDate (MakeDay (YearFromTime l) (MonthFromTime l) dt) (TimeWithinDay l)).

Definition setMonth (t month : Z) : Z :=
  let l := LocalTime t in
  UTC (MakeDate (MakeDay (YearFromTime l) month (DateFromTime l)) (TimeWithinDay l)).

Definition setFullYear (t year : Z) : Z :=
  let l := LocalTime t in
  UTC (MakeDate (MakeDay year (MonthFromTime l) (DateFromTime l)) (TimeWithinDay l)).
End Zone.

Definition getUTCFullYear (t : Z) : Z := YearFromTime t.
Definition setUTCFullYear (t year : Z) : Z :=
  MakeDate (MakeDay year (MonthFromTime t) (DateFromTime t)) (TimeWithinDay t).

End JSDate.

(** [toLocaleDateString('en-US')]: month/day/year in local time, without
    padding. *)
Definition toLocaleDateString (tz : JSDate.Zone) (t : Z) : string :=
  pretty (JSDate.getMonth tz t + 1) +:+ "/" +:+ pretty (JSDate.getDate tz t)
  +:+ "/" +:+ pretty (JSDate.getFullYear tz t).

(** ** Numbers and values *)

(** The operations on JavaScript numbers that the wage ledger uses.  At
    run time they are the IEEE 754 double operations and [Math.round]. *)
Class JSNumber (num : Type) := {
  n_ofZ : Z -> num;
  n_add : num -> num -> num;
  n_mul : num -> num -> num;
  n_div : num -> num -> num;
  Math_round : num -> num
}.

(** Exact rational arithmetic; [Math.round] rounds half up. *)
#[export] Instance Q_JSNumber : JSNumber Q := {|
  n_ofZ := inject_Z;
  n_add := Qplus;
  n_mul := Qmult;
  n_div := Qdiv;
  Math_round q := inject_Z (Qfloor (q + (1 # 2))%Q)
|}.

(** IEEE 754 binary64, the numbers of the language at run time, as
    [SpecFloat] specifies them (precision 53, maximal exponent 1024):
    an operation returns its exact result rounded to the nearest double,
    ties to even. *)
Module Double.

Definition prec : Z := 53.
Definition emax : Z := 1024.

(** The double nearest to an integer; exact up to 2^53 in magnitude. *)
Definition ofZ (z : Z) : spec_float := binary_normalize prec emax z 0 false.

(** [Math.round(x)]: [x] when it is an integer, a zero or not finite,
    else the integer nearest to [x], a tie going to the larger one; a
    result of zero keeps the sign of [x].  The fraction is dropped
    exactly: [floor(x + 1/2)] over the integers. *)
Definition round (x : spec_float) : spec_float :=
  match x with
  | S754_finite s m e =>
      if 0 <=? e then x
      else
        let n := ((if s then Z.neg m else Z.pos m) * 2 + 2 ^ (- e)) / 2 ^ (1 - e) in
        if n =? 0 then S754_zero s else ofZ n
  | _ => x
  end.

(** An amount given in cents, as a division by 100 makes it. *)
Definition cents (z : Z) : spec_float := SFdiv prec emax (ofZ z) (ofZ 100).

(** The rational number that a finite double is. *)
Definition toQ (x : spec_float) : Q :=
  match x with
  | S754_finite s m e =>
      let z := if s then Z.neg m else Z.pos m in
      if 0 <=? e then inject_Z (z * 2 ^ e) else Qmake z (2 ^ Z.to_pos (- e))
  | _ => 0%Q
  end.

End Double.

#[export] Instance Double_JSNumber : JSNumber spec_float := {|
  n_ofZ := Double.ofZ;
  n_add := SFadd Double.prec Double.emax;
  n_mul := SFmul Double.prec Double.emax;
  n_div := SFdiv Double.prec Double.emax;
  Math_round := Double.round
|}.

(** The property values of the object literals of the mapping catalog, such
    as [{ min: 4, max: 5 }] and [{ length: 1, casing: 'upper' }]. *)
Inductive JSLit : Type :=
| LBool (b : bool)
| LNum (z : Z)
| LStr (s : string).

(** The values that cross the interfaces of the resolver. *)
Inductive JSVal : Type :=
| VUndefined
| VNull
| VBool (b : bool)
| VNum (z : Z)
| VStr (s : string)
| VObj (props : list (string * JSLit)).

(** Truthiness, as [if (v)], [v ? a : b] and [v || w] test it. *)
Definition truthy (v : JSVal) : bool :=
  match v with
  | VUndefined | VNull => false
  | VBool b => b
  | VNum z => negb (z =? 0)
  | VStr s => negb (String.eqb s "")
  | VObj _ => true
  end.

Definition toUpperChar (a : ascii) : ascii :=
  let n := nat_of_ascii a in
  if (Nat.leb 97 n && Nat.leb n 122)%bool then ascii_of_nat (n - 32) else a.

Fixpoint toUpperCase (s : string) : string :=
  match s with
  | EmptyString => EmptyString
  | String a s' => String (toUpperChar a) (toUpperCase s')
  end.

(** [s.slice(1)]. *)
Definition slice1 (s : string) : string :=
  match s with
  | EmptyString => EmptyString
  | String _ s' => s'
  end.

(** [s.split('.')]. *)
Fixpoint split_dot_go (s cur : string) : list string :=
  match s with
  | EmptyString => [cur]
  | String a s' =>
      if Ascii.eqb a "."%char then cur :: split_dot_go s' EmptyString
      else split_dot_go s' (cur +:+ String a EmptyString)
  end.

Definition split_dot (s : string) : list string := split_dot_go s EmptyString.

(** ** The faker facade *)

(** A member of the [faker] object reached by a dotted path: nothing, a
    value that is not a function, or a method.  A method reads and advances
    the generator state; [None] is a thrown exception. *)
Inductive FakerMember (G : Type) : Type :=
| NoMember
| Member (v : JSVal)
| Method (f : list JSVal -> G -> option JSVal * G).
Arguments NoMember {G}.
Arguments Member {G} v.
Arguments Method {G} f.

(** The seedable generator and the draws the program makes with it.  Every
    draw is a function of the generator state and returns the next state.
    The date draws take the reference date that faker reads from the clock
    when none is given. *)
Record Faker (num : Type) : Type := {
  G : Type;
  seed : Z -> G;
  number_int : Z -> Z -> G -> Z * G;
  number_float : Z -> Z -> Z -> G -> num * G;
  datatype_boolean : option Q -> G -> bool * G;
  date_birthdate_age : Z -> Z -> Z -> G -> Z * G;
  date_recent : Z -> Z -> G -> Z * G;
  helpers_arrayElement_index : Z -> G -> Z * G;
  string_alpha : Z -> bool -> G -> string * G;
  string_numeric : Z -> G -> string * G;
  string_alphanumeric : Z -> G -> string * G;
  person_firstName : G -> string * G;
  person_lastName : G -> string * G;
  person_fullName : G -> string * G;
  person_jobTitle : G -> string * G;
  company_name : G -> string * G;
  company_buzzNoun : G -> string * G;
  phone_number : string -> G -> string * G;
  internet_email : option (string * string) -> G -> string * G;
  location_streetAddress : bool -> G -> string * G;
  location_city : G -> string * G;
  location_zipCode : string -> G -> string * G;
  member : list string -> FakerMember G
}.
Arguments G {num} f.
Arguments seed {num} f _.
Arguments number_int {num} f _ _ _.
Arguments number_float {num} f _ _ _ _.
Arguments datatype_boolean {num} f _ _.
Arguments date_birthdate_age {num} f _ _ _ _.
Arguments date_recent {num} f _ _ _.
Arguments helpers_arrayElement_index {num} f _ _.
Arguments string_alpha {num} f _ _ _.
Arguments string_numeric {num} f _ _.
Arguments string_alphanumeric {num} f _ _.
Arguments person_firstName {num} f _.
Arguments person_lastName {num} f _.
Arguments person_fullName {num} f _.
Arguments person_jobTitle {num} f _.
Arguments company_name {num} f _.
Arguments company_buzzNoun {num} f _.
Arguments phone_number {num} f _ _.
Arguments internet_email {num} f _ _.
Arguments location_streetAddress {num} f _ _.
Arguments location_city {num} f _.
Arguments location_zipCode {num} f _ _.
Arguments member {num} f _.

(** What the program relies on from faker: integers within the requested
    bounds, a birth date within the requested ages of the reference date
    (mode 'age': between [max + 1] and [min] years back), an element index
    within the array, and a company name that is not empty. *)
Record FakerSpec {num : Type} (F : Faker num) : Prop := {
  number_int_range : forall min max g,
    min <= max -> min <= fst (number_int F min max g) <= max;
  date_birthdate_age_range : forall min max ref g,
    min <= max ->
    JSDate.setUTCFullYear ref (JSDate.getUTCFullYear ref - max - 1)
      <= fst (date_birthdate_age F min max ref g)
      <= JSDate.setUTCFullYear ref (JSDate.getUTCFullYear ref - min);
  helpers_arrayElement_index_range : forall n g,
    0 < n -> 0 <= fst (helpers_arrayElement_index F n g) < n;
  company_name_nonempty : forall g, fst (company_name F g) <> ""
}.

(** [faker.helpers.arrayElement(array)]: the element at the drawn index;
    [dflt] stands for [undefined], which an index within the array never
    yields. *)
Definition helpers_arrayElement {num A} (F : Faker num) (dflt : A) (array : list A)
    (g : G F) : A * G F :=
  let (i, g') := helpers_arrayElement_index F (Z.of_nat (List.length array)) g in
  (List.nth (Z.to_nat i) array dflt, g').

(** The readings of the clock that one build makes, in program order:
    [now] ([new Date()] on entry), the reference date of
    [faker.date.birthdate], the [new Date()] of [generatedAt] and the
    reference date of [faker.date.recent]; and the time zone of the
    host. *)
Record Clock : Type := {
  tz : JSDate.Zone;
  now : Z;
  birthdateRef : Z;
  generatedAtTime : Z;
  recentRef : Z
}.

(** ** The sample descriptions of field-mapping.js *)

Record SampleDescription : Type := { line1 : string; line2 : string }.

Definition SampleDisabilityDescriptions : list SampleDescription := [
  {| line1 := "Lower back strain with herniated disc L4-L5. Pain radiates down left leg.";
     line2 := "Occurred while lifting boxes at home on 12/15/2025. Currently unable to sit or stand for extended periods." |};
  {| line1 := "Right knee injury - torn meniscus requiring surgical repair.";
     line2 := "Slipped on ice in parking lot on 01/02/2026. Surgery scheduled, recovery expected 6-8 weeks." |};
  {| line1 := "Post-surgical recovery following appendectomy due to acute appendicitis.";
     line2 := "Emergency surgery performed on 12/28/2025. Restricted from lifting over 10 lbs during recovery." |};
  {| line1 := "Severe migraine disorder with visual aura and photophobia.";
     line2 := "Condition worsened significantly in early January 2026. Unable to work due to frequency and severity of episodes." |};
  {| line1 := "Fractured right wrist (distal radius) from fall.";
     line2 := "Fell on stairs at home on 01/05/2026. Cast applied, unable to perform job duties requiring manual dexterity." |}
].

(** [SampleDisabilityDescriptions[i]]; out of range the access yields
    [undefined], and reading [line1] of it throws: the entry is [None]. *)
Definition sampleAt (i : Z) : option SampleDescription :=
  if i <? 0 then None else List.nth_error SampleDisabilityDescriptions (Z.to_nat i).

(** ** The dataset *)

Record Ssn : Type := { part1 : string; part2 : string; part3 : string; full : string }.

Record Claimant : Type := {
  firstName : string;
  lastName : string;
  middleInitial : string;
  fullName : string;
  address : string;
  city : string;
  state : string;
  zip : string;
  phone : string;
  email : string;
  ssn : Ssn;
  dateOfBirth : Z;
  occupation : string
}.

Record Dates : Type := {
  disabilityStart : Z;
  lastDayWorked : Z;
  employmentStart : Z;
  signatureDate : Z
}.

Record Fein : Type := { fein_part1 : string; fein_part2 : string }.

Record Employer : Type := {
  employer_name : string;
  employer_address : string;
  employer_city : string;
  employer_state : string;
  employer_zip : string;
  employer_phone : string;
  fein : Fein;
  contactName : string;
  contactTitle : string;
  contactEmail : string;
  contactPhone : string;
  policyNumber : string
}.

Record WeekRecord (num : Type) : Type := {
  weekNumber : Z;
  weekEndDate : Z;
  daysWorked : Z;
  grossAmount : num
}.
Arguments weekNumber {num} w.
Arguments weekEndDate {num} w.
Arguments daysWorked {num} w.
Arguments grossAmount {num} w.

Record Wages (num : Type) : Type := {
  weeklyWages : list (WeekRecord num);
  averageWeeklyWage : num;
  baseWeeklyWage : num
}.
Arguments weeklyWages {num} w.
Arguments averageWeeklyWage {num} w.
Arguments baseWeeklyWage {num} w.

Record Union : Type := { union_name : string }.

Record Disability : Type := { description1 : string; description2 : string }.

Record PriorBenefits : Type := {
  claimedFrom : string;
  claimedPeriodStart : option Z;
  claimedPeriodEnd : option Z;
  priorDisabilityPaidBy : string;
  priorDisabilityStart : option Z;
  priorDisabilityEnd : option Z;
  priorPFLPaidBy : string;
  priorPFLStart : option Z;
  priorPFLEnd : option Z
}.

Record ConditionalData : Type := {
  returnToWorkDate : option Z;
  workedForWagesDates : string;
  unemploymentExplanation : string;
  unemploymentPeriods : string;
  wagesContinuedType : string;
  priorDisabilityDates : string;
  priorPFLDates : string
}.

Record CheckboxStates : Type := {
  gender : bool;
  didWorkOnDisabilityDay : bool;
  hasRecovered : bool;
  workedForWages : bool;
  unionMember : bool;
  receivingWages : bool;
  unemploymentBenefits : bool;
  paidFamilyLeave : bool;
  workersComp : bool;
  noFaultAccident : bool;
  thirdPartyInjury : bool;
  longTermDisability : bool;
  priorDisability : bool;
  priorPFL : bool;
  employerProvidedRights : bool;
  wagesContinued : bool;
  reimbursementRequested : bool;
  stillEmployed : bool;
  priorLeave : bool;
  directDeposit : bool;
  employeeContributes : bool;
  checkingAccount : bool;
  noEOBs : bool
}.

(** The dataset of one run.  [aiContent] is absent until [getAIValue]
    creates it; it maps a content category to the text generated for it. *)
Record Dataset (num : Type) : Type := {
  runId : string;
  generatedAt : Z;
  data_seed : Z;
  claimant : Claimant;
  dates : Dates;
  employer : Employer;
  wages : Wages num;
  data_union : option Union;
  disability : Disability;
  priorBenefits : PriorBenefits;
  conditionalData : ConditionalData;
  checkboxes : CheckboxStates;
  aiContent : option (gmap string string)
}.
Arguments runId {num} d.
Arguments generatedAt {num} d.
Arguments data_seed {num} d.
Arguments claimant {num} d.
Arguments dates {num} d.
Arguments employer {num} d.
Arguments wages {num} d.
Arguments data_union {num} d.
Arguments disability {num} d.
Arguments priorBenefits {num} d.
Arguments conditionalData {num} d.
Arguments checkboxes {num} d.
Arguments aiContent {num} d.

(** [this.data.checkboxes[key]]: the stored state of that name, if any. *)
Definition checkboxState (cb : CheckboxStates) (key : string) : option bool :=
  if String.eqb key "gender" then Some (gender cb)
  else if String.eqb key "didWorkOnDisabilityDay" then Some (didWorkOnDisabilityDay cb)
  else if String.eqb key "hasRecovered" then Some (hasRecovered cb)
  else if String.eqb key "workedForWages" then Some (workedForWages cb)
  else if String.eqb key "unionMember" then Some (unionMember cb)
  else if String.eqb key "receivingWages" then Some (receivingWages cb)
  else if String.eqb key "unemploymentBenefits" then Some (unemploymentBenefits cb)
  else if String.eqb key "paidFamilyLeave" then Some (paidFamilyLeave cb)
  else if String.eqb key "workersComp" then Some (workersComp cb)
  else if String.eqb key "noFaultAccident" then Some (noFaultAccident cb)
  else if String.eqb key "thirdPartyInjury" then Some (thirdPartyInjury cb)
  else if String.eqb key "longTermDisability" then Some (longTermDisability cb)
  else if String.eqb key "priorDisability" then Some (priorDisability cb)
  else if String.eqb key "priorPFL" then Some (priorPFL cb)
  else if String.eqb key "employerProvidedRights" then Some (employerProvidedRights cb)
  else if String.eqb key "wagesContinued" then Some (wagesContinued cb)
  else if String.eqb key "reimbursementRequested" then Some (reimbursementRequested cb)
  else if String.eqb key "stillEmployed" then Some (stillEmployed cb)
  else if String.eqb key "priorLeave" then Some (priorLeave cb)
  else if String.eqb key "directDeposit" then Some (directDeposit cb)
  else if String.eqb key "employeeContributes" then Some (employeeContributes cb)
  else if String.eqb key "checkingAccount" then Some (checkingAccount cb)
  else if String.eqb key "noEOBs" then Some (noEOBs cb)
  else None.

(** ** generateBaseData *)

(** A computation that draws from the generator: it reads the generator
    state and returns its result with the next state. *)
Definition Draw (S A : Type) : Type := S -> A * S.

Definition ret {S A} (a : A) : Draw S A := fun g => (a, g).

Definition bind {S A B} (m : Draw S A) (k : A -> Draw S B) : Draw S B :=
  fun g => let (a, g') := m g in k a g'.

Notation "x <- m ;; k" := (bind m (fun x => k))
  (at level 100, m at next level, right associativity).

Section Builder.
Context {num : Type} `{JSNumber num}.
Variable F : Faker num.

(** The body of the loop [for (let i = 1; i <= 8; i++)], run for the
    week numbers of [weeks] in turn; [weeklyWages] is the array so far. *)
Fixpoint weeklyWagesLoop (zone : JSDate.Zone) (lastDayWorked : Z) (baseWeeklyWage : num)
    (weeks : list Z) (weeklyWages : list (WeekRecord num))
    : Draw (G F) (list (WeekRecord num)) :=
  match weeks with
  | [] => ret weeklyWages
  | i :: weeks' =>
      let weekEndDate :=
        JSDate.setDate zone lastDayWorked
          (JSDate.getDate zone lastDayWorked - 7 * (i - 1)) in
      daysWorked <- number_int F 4 5 ;;
      delta <- number_float F (-100) 100 2 ;;
      let wage := n_add baseWeeklyWage delta in
      weeklyWagesLoop zone lastDayWorked baseWeeklyWage weeks'
        (weeklyWages ++ [{| weekNumber := i;
                            weekEndDate := weekEndDate;
                            daysWorked := daysWorked;
                            grossAmount :=
                              n_div (Math_round (n_mul wage (n_ofZ 100))) (n_ofZ 100) |}])
  end.

(** [weeklyWages.reduce((sum, w) => sum + w.grossAmount, 0)]. *)
Definition sumGross (weeklyWages : list (WeekRecord num)) : num :=
  fold_left (fun sum w => n_add sum (grossAmount w)) weeklyWages (n_ofZ 0).

(** The object literal [checkboxStates]: one draw per state, in source
    order, each with its probability. *)
Definition drawCheckboxStates : Draw (G F) CheckboxStates :=
  gender <- datatype_boolean F None ;;
  didWorkOnDisabilityDay <- datatype_boolean F (Some (3 # 10)%Q) ;;
  hasRecovered <- datatype_boolean F (Some (2 # 10)%Q) ;;
  workedForWages <- datatype_boolean F (Some (1 # 10)%Q) ;;
  unionMember <- datatype_boolean F (Some (15 # 100)%Q) ;;
  receivingWages <- datatype_boolean F (Some (3 # 10)%Q) ;;
  unemploymentBenefits <- datatype_boolean F (Some (1 # 10)%Q) ;;
  paidFamilyLeave <- datatype_boolean F (Some (1 # 10)%Q) ;;
  workersComp <- datatype_boolean F (Some (5 # 100)%Q) ;;
  noFaultAccident <- datatype_boolean F (Some (8 # 100)%Q) ;;
  thirdPartyInjury <- datatype_boolean F (Some (5 # 100)%Q) ;;
  longTermDisability <- datatype_boolean F (Some (5 # 100)%Q) ;;
  priorDisability <- datatype_boolean F (Some (15 # 100)%Q) ;;
  priorPFL <- datatype_boolean F (Some (1 # 10)%Q) ;;
  employerProvidedRights <- datatype_boolean F (Some (9 # 10)%Q) ;;
  wagesContinued <- datatype_boolean F (Some (3 # 10)%Q) ;;
  reimbursementRequested <- datatype_boolean F (Some (2 # 10)%Q) ;;
  stillEmployed <- datatype_boolean F (Some (85 # 100)%Q) ;;
  priorLeave <- datatype_boolean F (Some (1 # 10)%Q) ;;
  directDeposit <- datatype_boolean F (Some (7 # 10)%Q) ;;
  employeeContributes <- datatype_boolean F (Some (6 # 10)%Q) ;;
  checkingAccount <- datatype_boolean F (Some (8 # 10)%Q) ;;
  noEOBs <- datatype_boolean F (Some (3 # 10)%Q) ;;
  ret {| gender := gender;
         didWorkOnDisabilityDay := didWorkOnDisabilityDay;
         hasRecovered := hasRecovered;
         workedForWages := workedForWages;
         unionMember := unionMember;
         receivingWages := receivingWages;
         unemploymentBenefits := unemploymentBenefits;
         paidFamilyLeave := paidFamilyLeave;
         workersComp := workersComp;
         noFaultAccident := noFaultAccident;
         thirdPartyInjury := thirdPartyInjury;
         longTermDisability := longTermDisability;
         priorDisability := priorDisability;
         priorPFL := priorPFL;
         employerProvidedRights := employerProvidedRights;
         wagesContinued := wagesContinued;
         reimbursementRequested := reimbursementRequested;
         stillEmployed := stillEmployed;
         priorLeave := priorLeave;
         directDeposit := directDeposit;
         employeeContributes := employeeContributes;
         checkingAccount := checkingAccount;
         noEOBs := noEOBs |}.

(** [generateBaseData()], for the generator of run [this_runId] with seed
    [this_seed], at the clock readings [clk].  The draws are made in the
    order in which JavaScript evaluates the statements and the properties
    of the returned object literal.  The result is [None] where the
    source throws: when the sample entry read at the drawn index does
    not exist. *)
Definition generateBaseData (this_runId : string) (this_seed : Z) (clk : Clock)
    : Draw (G F) (option (Dataset num)) :=
  let zone := tz clk in
  let now := now clk in
  (* Calculate key dates *)
  back <- number_int F 7 21 ;;
  let disabilityStartDate := JSDate.setDate zone now (JSDate.getDate zone now - back) in
  let lastDayWorked :=
    JSDate.setDate zone disabilityStartDate (JSDate.getDate zone disabilityStartDate - 1) in
  years <- number_int F 1 10 ;;
  let employmentStartDate :=
    JSDate.setFullYear zone lastDayWorked (JSDate.getFullYear zone lastDayWorked - years) in
  dateOfBirth <- date_birthdate_age F 25 60 (birthdateRef clk) ;;
  (* Base weekly wage for calculations *)
  baseWeeklyWage <- number_float F 800 2500 2 ;;
  (* Generate weekly wage data for 8 weeks *)
  weeklyWages <- weeklyWagesLoop zone lastDayWorked baseWeeklyWage
                   [1; 2; 3; 4; 5; 6; 7; 8] [] ;;
  let averageWeeklyWage := n_div (sumGross weeklyWages) (n_ofZ 8) in
  (* Select a disability description *)
  disabilityIndex <-
    number_int F 0 (Z.of_nat (List.length SampleDisabilityDescriptions) - 1) ;;
  let disabilityDescription := sampleAt disabilityIndex in
  (* Generate claimant info *)
  firstName <- person_firstName F ;;
  lastName <- person_lastName F ;;
  middleInitial <- string_alpha F 1 true ;;
  (* Generate employer info *)
  employerName <- company_name F ;;
  employerContactName <- person_fullName F ;;
  employerContactTitle <- person_jobTitle F ;;
  employerPhone <- phone_number F "(###) ###-####" ;;
  employerEmail <- internet_email F None ;;
  (* Generate SSN parts *)
  ssn1 <- string_numeric F 3 ;;
  ssn2 <- string_numeric F 2 ;;
  ssn3 <- string_numeric F 4 ;;
  (* Checkbox states *)
  checkboxStates <- drawCheckboxStates ;;
  (* Generate prior benefit dates if applicable *)
  monthsBack <- number_int F 6 10 ;;
  let priorBenefitStart :=
    JSDate.setMonth zone disabilityStartDate
      (JSDate.getMonth zone disabilityStartDate - monthsBack) in
  daysOn <- number_int F 14 60 ;;
  let priorBenefitEnd :=
    JSDate.setDate zone priorBenefitStart (JSDate.getDate zone priorBenefitStart + daysOn) in
  (* The returned object literal *)
  let generatedAt := generatedAtTime clk in
  claimantAddress <- location_streetAddress F false ;;
  claimantCity <- location_city F ;;
  claimantZip <- location_zipCode F "#####" ;;
  claimantPhone <- phone_number F "###-###-####" ;;
  claimantEmail <- internet_email F (Some (firstName, lastName)) ;;
  claimantOccupation <- person_jobTitle F ;;
  employerAddress <- location_streetAddress F true ;;
  employerCity <- location_city F ;;
  employerZip <- location_zipCode F "#####" ;;
  feinPart1 <- string_numeric F 2 ;;
  feinPart2 <- string_numeric F 7 ;;
  policy <- string_alphanumeric F 8 ;;
  union <-
    (if unionMember checkboxStates then
       local <- number_int F 1 999 ;;
       noun <- company_buzzNoun F ;;
       ret (Some {| union_name :=
                      "Local " +:+ pretty local +:+ " - " +:+ noun +:+ " Workers Union" |})
     else ret None) ;;
  workedDates <-
    (if workedForWages checkboxStates then
       recent <- date_recent F 7 (recentRef clk) ;;
       ret (toLocaleDateString zone recent)
     else ret "") ;;
  continuedType <-
    (if wagesContinued checkboxStates then
       helpers_arrayElement F "" ["PTO"; "Sick time"; "Salary continuation"]
     else ret "") ;;
  let period :=
    toLocaleDateString zone priorBenefitStart +:+ " - "
    +:+ toLocaleDateString zone priorBenefitEnd in
  ret (
    match disabilityDescription with
    | None => None
    | Some description =>
      Some {|
        runId := this_runId;
        generatedAt := generatedAt;
        data_seed := this_seed;
        claimant := {|
          firstName := firstName;
          lastName := lastName;
          middleInitial := middleInitial;
          fullName := firstName +:+ " " +:+ middleInitial +:+ ". " +:+ lastName;
          address := claimantAddress;
          city := claimantCity;
          state := "NY";
          zip := claimantZip;
          phone := claimantPhone;
          email := claimantEmail;
          ssn := {| part1 := ssn1; part2 := ssn2; part3 := ssn3;
                    full := ssn1 +:+ "-" +:+ ssn2 +:+ "-" +:+ ssn3 |};
          dateOfBirth := dateOfBirth;
          occupation := claimantOccupation |};
        dates := {|
          disabilityStart := disabilityStartDate;
          lastDayWorked := lastDayWorked;
          employmentStart := employmentStartDate;
          signatureDate := now |};
        employer := {|
          employer_name := employerName;
          employer_address := employerAddress;
          employer_city := employerCity;
          employer_state := "NY";
          employer_zip := employerZip;
          employer_phone := employerPhone;
          fein := {| fein_part1 := feinPart1; fein_part2 := feinPart2 |};
          contactName := employerContactName;
          contactTitle := employerContactTitle;
          contactEmail := employerEmail;
          contactPhone := employerPhone;
          policyNumber := toUpperCase policy |};
        wages := {|
          weeklyWages := weeklyWages;
          averageWeeklyWage :=
            n_div (Math_round (n_mul averageWeeklyWage (n_ofZ 100))) (n_ofZ 100);
          baseWeeklyWage := baseWeeklyWage |};
        data_union := union;
        disability := {|
          description1 := line1 description;
          description2 := line2 description |};
        priorBenefits := {|
          claimedFrom := if receivingWages checkboxStates then employerName else "";
          claimedPeriodStart :=
            if receivingWages checkboxStates then Some priorBenefitStart else None;
          claimedPeriodEnd :=
            if receivingWages checkboxStates then Some priorBenefitEnd else None;
          priorDisabilityPaidBy :=
            if priorDisability checkboxStates then "ShelterPoint Life" else "";
          priorDisabilityStart :=
            if priorDisability checkboxStates then Some priorBenefitStart else None;
          priorDisabilityEnd :=
            if priorDisability checkboxStates then Some priorBenefitEnd else None;
          priorPFLPaidBy := if priorPFL checkboxStates then "ShelterPoint Life" else "";
          priorPFLStart := if priorPFL checkboxStates then Some priorBenefitStart else None;
          priorPFLEnd := if priorPFL checkboxStates then Some priorBenefitEnd else None |};
        conditionalData := {|
          returnToWorkDate := if hasRecovered checkboxStates then Some now else None;
          workedForWagesDates := workedDates;
          unemploymentExplanation :=
            if negb (unemploymentBenefits checkboxStates)
            then "Did not apply for unemployment benefits as disability began while employed."
            else "";
          unemploymentPeriods :=
            if unemploymentBenefits checkboxStates then period else "";
          wagesContinuedType := continuedType;
          priorDisabilityDates := if priorLeave checkboxStates then period else "";
          priorPFLDates := if priorPFL checkboxStates then period else "" |};
        checkboxes := checkboxStates;
        aiContent := None |}
    end).
End Builder.

(** ** The class DataGenerator *)

(** What [checkboxMap] holds for a field name: the name of a stored state,
    a constant, or a function of the stored states. *)
Inductive CheckboxKey : Type :=
| KeyState (name : string)
| KeyConst (b : bool)
| KeyFn (f : CheckboxStates -> bool).

Definition checkboxMap : list (string * CheckboxKey) := [
  ("17 - Gender", KeyState "gender");
  ("25 - Did you work that day?", KeyState "didWorkOnDisabilityDay");
  ("27 - Have you recovered from this disability?", KeyState "hasRecovered");
  ("32 - Have you since worked for wages or profit?", KeyState "workedForWages");
  ("73 - Union Member?", KeyState "unionMember");
  ("76 - Were you claiming or receiving unemployment prior to this disability?",
   KeyState "unemploymentBenefits");
  ("2 - A." +:+ String "009"%char "Are you receiving wages, salary or separation pay?",
   KeyState "receivingWages");
  ("3 - Unemployment Benefits?", KeyState "unemploymentBenefits");
  ("4 - Paid Family Leave?", KeyState "paidFamilyLeave");
  ("5 - Workers Compensation?", KeyState "workersComp");
  ("6 - No fault motor vehicle accident?", KeyState "noFaultAccident");
  ("7 - personal injury involving third party?", KeyState "thirdPartyInjury");
  ("8 - Long-term disability benefits under the Federal Social Security Act for this disability?",
   KeyState "longTermDisability");
  ("17 - have you received disability benefits for other periods of disability?",
   KeyState "priorDisability");
  ("25 -  In the year (52 weeks) before your disability began, have you received Paid Family Leave?",
   KeyState "priorPFL");
  ("11 - Is the employee a member of a union?", KeyState "unionMember");
  ("18 - Were wages continued during disability?", KeyState "wagesContinued");
  ("20 - If yes, is reimbursement requested by employer?", KeyState "reimbursementRequested");
  ("21 - Is the employee's disability work-related?", KeyConst false);
  ("47 - In the preceding 52 weeks has the employee taken leave for:", KeyState "priorLeave");
  ("50 - Is employee still in your employment?", KeyState "stillEmployed");
  ("10 - Payment", KeyState "directDeposit");
  ("18 - Does employee contribute?", KeyState "employeeContributes");
  ("4 Checking account", KeyState "checkingAccount");
  ("4 Savings account", KeyFn (fun checkboxes => negb (checkingAccount checkboxes)));
  ("EOBs", KeyState "noEOBs");
  ("14 - Employees Role", KeyConst true)
].

(** [checkboxMap[fieldName]], for field names that are not members of
    [Object.prototype]; [None] is [undefined]. *)
Fixpoint lookupKey (m : list (string * CheckboxKey)) (fieldName : string)
    : option CheckboxKey :=
  match m with
  | [] => None
  | (k, v) :: m' => if String.eqb k fieldName then Some v else lookupKey m' fieldName
  end.

Section Generator.
Context {num : Type} `{JSNumber num}.
Variable F : Faker num.
(** The state of the AI backend behind the callback. *)
Variable B : Type.

(** [aiCallback(prompt, category, data)], awaited: the text it resolves
    to and the next state of the backend. *)
Definition AICallback : Type := string -> string -> Dataset num -> B -> string * B.

(** What a run can read and change outside its own object: the state of
    the module-level faker instance, the data directory (the dataset
    stored as [<runId>.json], by run id), the backend, and the trace of
    the invocations of the backend (prompt and category), which the model
    keeps to count them.  A stored file is represented by the dataset it
    prints: a dataset holds strings, finite numbers, booleans, null,
    arrays and plain objects, which [JSON.parse] reads back as
    [JSON.stringify] wrote them. *)
Record World : Type := {
  faker_state : G F;
  files : gmap string (Dataset num);
  backend_state : B;
  backend_calls : list (string * string)
}.

Record Options : Type := {
  opt_useAI : bool;
  opt_aiCallback : option AICallback
}.

Record DataGenerator : Type := {
  this_runId : string;
  this_seed : Z;
  useAI : bool;
  aiCallback : option AICallback;
  data : Dataset num
}.

Definition set_data (this : DataGenerator) (d : Dataset num) : DataGenerator :=
  {| this_runId := this_runId this; this_seed := this_seed this;
     useAI := useAI this; aiCallback := aiCallback this; data := d |}.

Definition set_faker_state (w : World) (g : G F) : World :=
  {| faker_state := g; files := files w;
     backend_state := backend_state w; backend_calls := backend_calls w |}.

(** [saveData()]: writes [this.data] to the file of the run. *)
Definition saveData (this : DataGenerator) (w : World) : World :=
  {| faker_state := faker_state w;
     files := <[this_runId this := data this]> (files w);
     backend_state := backend_state w; backend_calls := backend_calls w |}.

(** [new DataGenerator(runId, options)] at the clock readings [clk]:
    loads the stored dataset of the run when there is one; otherwise
    seeds faker, builds the dataset and stores it.  [None] when the
    build throws. *)
Definition new_DataGenerator (runId : string) (options : Options) (clk : Clock)
    (w : World) : option (DataGenerator * World) :=
  let seed_ := Hash.hashString runId in
  let this d := {| this_runId := runId; this_seed := seed_;
                   useAI := opt_useAI options;
                   aiCallback := opt_aiCallback options; data := d |} in
  match files w !! runId with
  | Some d => Some (this d, w)
  | None =>
      let (built, g) := generateBaseData F runId seed_ clk (seed F seed_) in
      match built with
      | None => None
      | Some d => Some (this d, saveData (this d) (set_faker_state w g))
      end
  end.

Definition getData (this : DataGenerator) : Dataset num := data this.

(** A member that fails the test [if (!fn)]. *)
Definition falsyMember (fn : FakerMember (G F)) : bool :=
  match fn with
  | NoMember => true
  | Member v => negb (truthy v)
  | Method _ => false
  end.

(** The loop [for (const part of parts) { fn = fn[part]; ... }] of
    [getFakerValue], from the member reached by [path]: the member
    reached at the end, or [None] when a part is missing. *)
Fixpoint walkParts (path parts : list string) : option (FakerMember (G F)) :=
  match parts with
  | [] => Some (member F path)
  | part :: parts' =>
      let fn := member F (path ++ [part]) in
      if falsyMember fn then None else walkParts (path ++ [part]) parts'
  end.

(** [getFakerValue(method, args)]. *)
Definition getFakerValue (this : DataGenerator) (method : string) (args : list JSVal)
    (w : World) : JSVal * World :=
  let g := seed F (this_seed this) in
  match walkParts [] (split_dot method) with
  | None => (VStr "", set_faker_state w g)
  | Some (Method fn) =>
      let (r, g') := fn args g in
      match r with
      | Some v => (v, set_faker_state w g')
      | None => (VStr "", set_faker_state w g')
      end
  | Some (Member v) => (v, set_faker_state w g)
  | Some NoMember => (VUndefined, set_faker_state w g)
  end.

(** The calls [generator.getFakerValue(mapping.method, mapping.args || [])]
    that the loop of [fillForm] makes for the faker-mapped fields it
    meets, in the order of the form: the values, and the world after the
    last call. *)
Fixpoint resolveFakerFields (this : DataGenerator) (mappings : list (string * list JSVal))
    (w : World) : list JSVal * World :=
  match mappings with
  | [] => ([], w)
  | (method, args) :: mappings' =>
      let (v, w1) := getFakerValue this method args w in
      let (vs, w2) := resolveFakerFields this mappings' w1 in
      (v :: vs, w2)
  end.

(** [this.data.aiContent[category]] passes the test [if (...)]: the
    category has a text and the text is not empty.  (For a category that
    is not the name of a member of [Object.prototype]; the categories of
    the catalog are "disability_description" and
    "disability_description_continued".) *)
Definition cachedContent (content : gmap string string) (category : string)
    : option string :=
  match content !! category with
  | Some text => if String.eqb text "" then None else Some text
  | None => None
  end.

Definition set_aiContent (d : Dataset num) (content : gmap string string)
    : Dataset num :=
  {| runId := runId d; generatedAt := generatedAt d; data_seed := data_seed d;
     claimant := claimant d; dates := dates d; employer := employer d;
     wages := wages d; data_union := data_union d; disability := disability d;
     priorBenefits := priorBenefits d; conditionalData := conditionalData d;
     checkboxes := checkboxes d; aiContent := Some content |}.

(** [await getAIValue(fieldName, prompt, category)]: the text, the
    generator object after the call and the world after the call. *)
Definition getAIValue (this : DataGenerator) (fieldName prompt category : string)
    (w : World) : string * DataGenerator * World :=
  match useAI this, aiCallback this with
  | true, Some callback =>
      (* if (!this.data.aiContent) this.data.aiContent = {} *)
      let content := default ∅ (aiContent (data this)) in
      let this1 := set_data this (set_aiContent (data this) content) in
      match cachedContent content category with
      | Some text => (text, this1, w)
      | None =>
          let (text, b) := callback prompt category (data this1) (backend_state w) in
          let this2 := set_data this1 (set_aiContent (data this1) (<[category := text]> content)) in
          let w1 := {| faker_state := faker_state w; files := files w;
                       backend_state := b;
                       backend_calls := backend_calls w ++ [(prompt, category)] |} in
          (text, this2, saveData this2 w1)
      end
  | _, _ =>
      if String.eqb category "disability_description"
      then (description1 (disability (data this)), this, w)
      else if String.eqb category "disability_description_continued"
      then (description2 (disability (data this)), this, w)
      else ("", this, w)
  end.

(** [getCheckboxValue(fieldName, probability)]; the probability is
    absent when the mapping declares none. *)
Definition getCheckboxValue (this : DataGenerator) (fieldName : string)
    (probability : option Q) (w : World) : bool * World :=
  match lookupKey checkboxMap fieldName with
  | None =>
      let g := seed F (this_seed this + Hash.hashString fieldName) in
      let (b, g') := datatype_boolean F probability g in
      (b, set_faker_state w g')
  | Some (KeyConst b) => (b, w)
  | Some (KeyFn key) => (key (checkboxes (data this)), w)
  | Some (KeyState key) =>
      (default false (checkboxState (checkboxes (data this)) key), w)
  end.
End Generator.
Arguments faker_state {num F B} _.
Arguments files {num F B} _.
Arguments backend_state {num F B} _.
Arguments backend_calls {num F B} _.
Arguments this_runId {num B} _.
Arguments this_seed {num B} _.
Arguments useAI {num B} _.
Arguments aiCallback {num B} _.
Arguments data {num B} _.
Arguments opt_useAI {num B} _.
Arguments opt_aiCallback {num B} _.
Arguments getData {num B} _.

(** ** The widget state resolver of the form filler *)

(** A widget of a checkbox field: the keys of its normal appearance
    dictionary ([None] when it has no [AP] or no [N] entry) and its
    appearance state [AS].  A PDF name is kept without its slash. *)
Record Widget : Type := { AP_N : option (list string); AS : option string }.

(** A checkbox field: its value [V] and its widgets. *)
Record CheckBox : Type := { V : option string; widgets : list Widget }.

Record OnValue : Type := { widget : nat; value : string }.

(** The entries that [getCheckboxOnValues] pushes for widget [i]. *)
Definition widgetOnValues (i : nat) (w : Widget) : list OnValue :=
  match AP_N w with
  | None => []
  | Some keys =>
      List.flat_map
        (fun k =>
           let keyStr := "/" +:+ k in
           if negb (String.eqb keyStr "/Off")
           then [{| widget := i; value := slice1 keyStr |}]
           else [])
        keys
  end.

Definition getCheckboxOnValues (checkBox : CheckBox) : list OnValue :=
  List.concat (imap widgetOnValues (widgets checkBox)).

Definition isYesNoCheckbox (onValues : list OnValue) : bool :=
  let hasYes := List.existsb (fun v => String.eqb (value v) "Yes") onValues in
  let hasNo := List.existsb (fun v => String.eqb (value v) "No") onValues in
  hasYes && hasNo.

Definition isMultiWidgetCheckbox (onValues : list OnValue) : bool :=
  (1 <? List.length onValues)%nat.

(** The appearance state that [setMultiWidgetCheckboxValue] gives widget
    [i]: the target when the first on-value reported for the widget is the
    target, [Off] otherwise. *)
Definition widgetState (targetValue : string) (onValues : list OnValue) (i : nat)
    : string :=
  let widgetOnValue := List.find (fun v => Nat.eqb (widget v) i) onValues in
  match widgetOnValue with
  | Some v => if String.eqb (value v) targetValue then targetValue else "Off"
  | None => "Off"
  end.

Definition setMultiWidgetCheckboxValue (checkBox : CheckBox) (targetValue : string)
    (onValues : list OnValue) : CheckBox :=
  {| V := Some targetValue;
     widgets :=
       imap (fun i w => {| AP_N := AP_N w;
                           AS := Some (widgetState targetValue onValues i) |})
            (widgets checkBox) |}.

Inductive MappingType : Type :=
| TFaker | TCalculated | TAi | TStatic | TCheckbox | TCheckboxMulti.

(** An entry of [filledFields], without the field name. *)
Record Filled : Type := { filled_value : string; filled_type : string }.

(** The outcome of applying a value to a checkbox field: the field after
    it and the entry reported, or an exception (which [fillForm] catches
    and records). *)
Inductive Applied : Type :=
| Done (checkBox : CheckBox) (entry : option Filled)
| Thrown.

Section ApplyCheckbox.
(** [checkBox.check()] and [checkBox.uncheck()] of pdf-lib. *)
Variables check uncheck : CheckBox -> CheckBox.

(** The branch [fieldType === 'PDFCheckBox'] of [fillForm], for a mapping
    of type [mappingType] and the resolved [value]. *)
Definition applyCheckbox (mappingType : MappingType) (value : JSVal)
    (checkBox : CheckBox) : Applied :=
  let onValues := getCheckboxOnValues checkBox in
  match mappingType with
  | TCheckboxMulti =>
      let targetValue := value in
      if truthy targetValue then
        match targetValue with
        | VStr target =>
            Done (setMultiWidgetCheckboxValue checkBox target onValues)
                 (Some {| filled_value := target; filled_type := "checkbox-multi" |})
        | _ => Thrown
        end
      else Done checkBox None
  | _ =>
      if isYesNoCheckbox onValues then
        let targetValue := if truthy value then "Yes" else "No" in
        Done (setMultiWidgetCheckboxValue checkBox targetValue onValues)
             (Some {| filled_value := targetValue; filled_type := "checkbox-yesno" |})
      else if isMultiWidgetCheckbox onValues then
        match value, onValues with
        | VBool true, {| widget := _; value := targetValue |} :: _ =>
            Done (setMultiWidgetCheckboxValue checkBox targetValue onValues)
                 (Some {| filled_value := targetValue; filled_type := "checkbox-multi" |})
        | VStr s, _ =>
            Done (setMultiWidgetCheckboxValue checkBox s onValues)
                 (Some {| filled_value := s; filled_type := "checkbox-multi" |})
        | _, _ =>
            Done (uncheck checkBox)
                 (Some {| filled_value := "unchecked"; filled_type := "checkbox" |})
        end
      else
        match value with
        | VBool true =>
            Done (check checkBox)
                 (Some {| filled_value := "checked"; filled_type := "checkbox" |})
        | _ =>
            Done (uncheck checkBox)
                 (Some {| filled_value := if truthy value then "checked" else "unchecked";
                          filled_type := "checkbox" |})
        end
  end.
End ApplyCheckbox.

(** ** A small instance of the facade

    A linear congruential generator with fixed name tables, over exact
    rational numbers.  It meets [FakerSpec]; the examples and the concrete
    runs below are computed with it. *)

Module Toy.

Definition next (g : Z) : Z := (g * 1103515245 + 12345) mod 2 ^ 31.

Definition digit (g : Z) : ascii := ascii_of_nat (48 + Z.to_nat (g mod 10)).

(** Replaces each [#] of a format by a digit. *)
Fixpoint fill (g : Z) (fmt : string) : string :=
  match fmt with
  | EmptyString => EmptyString
  | String a fmt' =>
      String (if Ascii.eqb a "#"%char then digit g else a) (fill (next g) fmt')
  end.

Fixpoint chars (n : nat) (g : Z) (base span : Z) : string :=
  match n with
  | O => EmptyString
  | S n' =>
      String (ascii_of_nat (Z.to_nat (base + g mod span))) (chars n' (next g) base span)
  end.

Definition pathIs (path : list string) (name : string) : bool :=
  String.eqb (String.concat "." path) name.

Definition members (path : list string) : FakerMember Z :=
  if pathIs path "person" || pathIs path "number" || pathIs path "string"
     || pathIs path "location" then Member (VObj [])
  else if pathIs path "person.lastName" then
    Method (fun _ g => (Some (VStr "Lovelace"), next g))
  else if pathIs path "person.firstName" then
    Method (fun _ g => (Some (VStr "Ada"), next g))
  else if pathIs path "location.zipCode" then
    Method (fun args g =>
              match args with
              | [VStr fmt] => (Some (VStr (fill g fmt)), next g)
              | _ => (Some (VStr (fill g "#####")), next g)
              end)
  else if pathIs path "string.numeric" then
    Method (fun args g =>
              match args with
              | [VNum n] => (Some (VStr (chars (Z.to_nat n) g 48 10)), next g)
              | _ => (Some (VStr (chars 1 g 48 10)), next g)
              end)
  else if pathIs path "number.int" then
    Method (fun args g =>
              match args with
              | [VObj [("min", LNum lo); ("max", LNum hi)]] =>
                  if hi <? lo then (None, g)
                  else (Some (VNum (lo + g mod (hi - lo + 1))), next g)
              | _ => (Some (VNum g), next g)
              end)
  else NoMember.

Definition faker : Faker Q := {|
  G := Z;
  seed n := n mod 2 ^ 31;
  number_int min max g := (min + g mod (max - min + 1), next g);
  number_float min max fractionDigits g :=
    ((inject_Z min + (g mod ((max - min) * 100 + 1) # 100))%Q, next g);
  datatype_boolean probability g := (g mod 3 =? 0, next g);
  date_birthdate_age min max ref g :=
    (JSDate.setUTCFullYear ref
       (JSDate.getUTCFullYear ref - min - 1 - g mod (max - min + 1)), next g);
  date_recent days ref g := (ref - g mod (days * JSDate.msPerDay), next g);
  helpers_arrayElement_index n g := (g mod n, next g);
  string_alpha length upper g :=
    (chars (Z.to_nat length) g (if upper then 65 else 97) 26, next g);
  string_numeric length g := (chars (Z.to_nat length) g 48 10, next g);
  string_alphanumeric length g := (chars (Z.to_nat length) g 97 26, next g);
  person_firstName g := ("Ada", next g);
  person_lastName g := ("Lovelace", next g);
  person_fullName g := ("Grace Hopper", next g);
  person_jobTitle g := ("Engineer", next g);
  company_name g := ("Acme Inc", next g);
  company_buzzNoun g := ("synergy", next g);
  phone_number format g := (fill g format, next g);
  internet_email names g :=
    (match names with
     | Some (first, last) => first +:+ "." +:+ last +:+ "@example.com"
     | None => "user@example.com"
     end, next g);
  location_streetAddress useFullAddress g :=
    (if useFullAddress then "1 Main Street Apt. 2" else "1 Main Street", next g);
  location_city g := ("Albany", next g);
  location_zipCode format g := (fill g format, next g);
  member := members
|}.

(** A backend that fails on its first invocation, so that the callback
    made by [createAICallback] resolves to the empty string, and answers
    afterwards.  Its state counts the invocations. *)
Definition failingOnce : AICallback (num := Q) nat :=
  fun prompt category data b =>
    (if Nat.eqb b 0 then "" else "Chronic lower back pain with muscle spasms.", S b).

(** A backend that always answers. *)
Definition answering : AICallback (num := Q) nat :=
  fun prompt category data b => ("Chronic lower back pain with muscle spasms.", S b).

(** 2026-11-02T12:00:00Z, read four times within the same millisecond, in
    a zone without offset. *)
Definition clock : Clock :=
  {| tz := JSDate.fixedZone 0; now := 1793620800000; birthdateRef := 1793620800000;
     generatedAtTime := 1793620800000; recentRef := 1793620800000 |}.

(** The same instant one day later. *)
Definition clock' : Clock :=
  {| tz := JSDate.fixedZone 0; now := 1793707200000; birthdateRef := 1793707200000;
     generatedAtTime := 1793707200000; recentRef := 1793707200000 |}.

(** A world with an empty data directory. *)
Definition world : World faker nat :=
  {| faker_state := (0 : G faker); files := ∅; backend_state := O;
     backend_calls := [] |}.

Definition options (cb : AICallback (num := Q) nat) : Options nat :=
  {| opt_useAI := true; opt_aiCallback := Some cb |}.

Definition noAI : Options (num := Q) nat :=
  {| opt_useAI := false; opt_aiCallback := None |}.

(** The dataset built for a run id at the clock readings [clk]. *)
Definition build (runId : string) (clk : Clock) : option (Dataset Q) :=
  fst (generateBaseData faker runId (Hash.hashString runId) clk
         (seed faker (Hash.hashString runId))).

(** The dataset held by a generator made for the run, with AI disabled,
    over the empty data directory of [world]. *)
Definition generate (runId : string) (clk : Clock) : option (Dataset Q) :=
  option_map (fun made => data (fst made))
    (new_DataGenerator faker nat runId noAI clk world).

(** A generator is made for the run in [world], with AI enabled and the
    callback [cb], and [getAIValue] is awaited twice for [category]: the
    two texts and the trace of the backend afterwards. *)
Definition askTwice (cb : AICallback (num := Q) nat) (runId fieldName prompt category : string)
    : option (string * string * list (string * string)) :=
  match new_DataGenerator faker nat runId (options cb) clock world with
  | None => None
  | Some (this, w) =>
      let '(first, this1, w1) := getAIValue faker nat this fieldName prompt category w in
      let '(second, this2, w2) := getAIValue faker nat this1 fieldName prompt category w1 in
      Some (first, second, backend_calls w2)
  end.

(** The first AI field of the mapping catalog and its prompt. *)
Definition descriptionField : string :=
  "20 -  Describe your disability if injury also state how when and where it occurred 1".

Definition descriptionPrompt : string :=
  "Generate a brief medical disability description (1-2 sentences) for a non-work-related condition like back pain, knee injury, or recovery from surgery. Be specific but concise.".

(** A Yes/No field with one widget per state, none active. *)
Definition yesNoField : CheckBox :=
  {| V := None;
     widgets := [ {| AP_N := Some ["Yes"; "Off"]; AS := Some "Off" |};
                  {| AP_N := Some ["No"; "Off"]; AS := Some "Off" |} ] |}.

End Toy.

(** ** formatDate and getCalculatedValue *)

Fixpoint zeros (n : nat) : string :=
  match n with
  | O => EmptyString
  | S n' => String "0"%char (zeros n')
  end.

(** [s.padStart(targetLength, '0')]. *)
Definition padStart (targetLength : nat) (s : string) : string :=
  zeros (targetLength - String.length s) +:+ s.

Module Formatted.
(** The object that [formatDate] returns; [year] is a number. *)
Record t : Type := { month : string; day : string; year : Z; full : string }.
End Formatted.

(** [formatDate(isoDate)], in the time zone [zone] of the host: the
    date as MM/DD/YYYY. *)
Definition formatDate (zone : JSDate.Zone) (isoDate : Z) : Formatted.t :=
  let d := isoDate in
  let month := padStart 2 (pretty (JSDate.getMonth zone d + 1)) in
  let day := padStart 2 (pretty (JSDate.getDate zone d)) in
  let year := JSDate.getFullYear zone d in
  {| Formatted.month := month; Formatted.day := day; Formatted.year := year;
     Formatted.full := month +:+ "/" +:+ day +:+ "/" +:+ pretty year |}.

(** The pattern [/\(?(\d{3})\)?[\s.-]?(\d{3})[\s.-]?(\d{4})/] of the phone
    rules, matched as [String.prototype.match] does: at the leftmost
    position where it matches, each optional character taken when
    present and given up only if the rest fails. *)
Module PhonePattern.

Definition isDigit (a : ascii) : bool :=
  let n := nat_of_ascii a in (Nat.leb 48 n && Nat.leb n 57)%bool.

(** The class [[\s.-]]: white space (of the code units below 256), a dot
    or a hyphen. *)
Definition isSeparator (a : ascii) : bool :=
  let n := nat_of_ascii a in
  (Nat.leb 9 n && Nat.leb n 13 || Nat.eqb n 32 || Nat.eqb n 160
   || Nat.eqb n 46 || Nat.eqb n 45)%bool.

(** [\d{n}] at the head of [s]: the digits and the rest. *)
Fixpoint digits (n : nat) (s : string) : option (string * string) :=
  match n with
  | O => Some (EmptyString, s)
  | S n' =>
      match s with
      | String a s' =>
          if isDigit a then
            match digits n' s' with
            | Some (ds, rest) => Some (String a ds, rest)
            | None => None
            end
          else None
      | EmptyString => None
      end
  end.

(** The ways to match an optional character at the head of [s], in the
    order in which they are tried: taken, then given up. *)
Definition optional (p : ascii -> bool) (s : string) : list string :=
  match s with
  | String a s' => if p a then [s'; s] else [s]
  | EmptyString => [s]
  end.

(** The first alternative that succeeds. *)
Fixpoint firstOf {A} (f : string -> option A) (alternatives : list string) : option A :=
  match alternatives with
  | [] => None
  | s :: rest =>
      match f s with
      | Some r => Some r
      | None => firstOf f rest
      end
  end.

(** The pattern at the head of [s]: the three groups. *)
Definition matchHere (s : string) : option (string * string * string) :=
  firstOf (fun s1 =>
    match digits 3 s1 with
    | None => None
    | Some (g1, r1) =>
        firstOf (fun s2 =>
          firstOf (fun s3 =>
            match digits 3 s3 with
            | None => None
            | Some (g2, r2) =>
                firstOf (fun s4 =>
                  match digits 4 s4 with
                  | None => None
                  | Some (g3, _) => Some (g1, g2, g3)
                  end)
                  (optional isSeparator r2)
            end)
            (optional isSeparator s2))
          (optional (Ascii.eqb ")"%char) r1)
    end)
    (optional (Ascii.eqb "("%char) s).

(** [phone.match(pattern)]: the groups of the leftmost match. *)
Fixpoint search (s : string) : option (string * string * string) :=
  match matchHere s with
  | Some groups => Some groups
  | None =>
      match s with
      | String _ s' => search s'
      | EmptyString => None
      end
  end.

End PhonePattern.

Section Calculated.
Context {num : Type} `{JSNumber num}.
Variable F : Faker num.
Variable B : Type.
(** [x.toFixed(2)] on the numbers of the ledger. *)
Variable toFixed2 : num -> string.

(** [this.data.wages.weeklyWages.find(w => w.weekNumber === weekNum)]. *)
Definition findWeek (d : Dataset num) (weekNum : JSVal) : option (WeekRecord num) :=
  List.find
    (fun w => match weekNum with
              | VNum n => weekNumber w =? n
              | _ => false
              end)
    (weeklyWages (wages d)).

(** A rule of the catalog: from its argument ([undefined] when it is
    called without) to the value, in the world. *)
Definition Generator : Type := JSVal -> World F B -> JSVal * World F B.

Definition pureRule (v : JSVal) : Generator := fun _ w => (v, w).

(** A part of a date that may be absent: the part of the formatted date,
    or the empty string. *)
Definition datePart (zone : JSDate.Zone) (part : Formatted.t -> JSVal) (date : option Z) : JSVal :=
  match date with
  | Some iso => part (formatDate zone iso)
  | None => VStr ""
  end.

Definition monthOf (f : Formatted.t) : JSVal := VStr (Formatted.month f).
Definition dayOf (f : Formatted.t) : JSVal := VStr (Formatted.day f).
Definition yearOf (f : Formatted.t) : JSVal := VNum (Formatted.year f).
Definition fullOf (f : Formatted.t) : JSVal := VStr (Formatted.full f).

(** The object [generators] of [getCalculatedValue], for the generator
    [this] at the clock reading [clockNow] in the time zone [zone]:
    the rule of a name, if there is one (for names that are not members
    of [Object.prototype]). *)
Definition generators (this : DataGenerator B) (zone : JSDate.Zone) (clockNow : Z)
    (generator : string)
    : option Generator :=
  let d := data this in
  let named name := String.eqb generator name in
  let date iso := formatDate zone iso in
  let recovered part : Generator :=
    pureRule (if hasRecovered (checkboxes d) then part (date clockNow) else VStr "") in
  let week (found : WeekRecord num -> JSVal) : Generator :=
    fun weekNum w =>
      (match findWeek d weekNum with
       | Some week => found week
       | None => VStr ""
       end, w) in
  let phoneMatch := PhonePattern.search (contactPhone (employer d)) in
  let pb := priorBenefits d in
  let cd := conditionalData d in
  (* Date of Birth *)
  if named "dobMonth" then Some (pureRule (monthOf (date (dateOfBirth (claimant d)))))
  else if named "dobDay" then Some (pureRule (dayOf (date (dateOfBirth (claimant d)))))
  else if named "dobYear" then Some (pureRule (yearOf (date (dateOfBirth (claimant d)))))
  (* Disability Start Date *)
  else if named "disabilityStartMonth"
  then Some (pureRule (monthOf (date (disabilityStart (dates d)))))
  else if named "disabilityStartDay"
  then Some (pureRule (dayOf (date (disabilityStart (dates d)))))
  else if named "disabilityStartYear"
  then Some (pureRule (yearOf (date (disabilityStart (dates d)))))
  (* Return to work (if recovered) *)
  else if named "returnToWorkMonth" then Some (recovered monthOf)
  else if named "returnToWorkDay" then Some (recovered dayOf)
  else if named "returnToWorkYear" then Some (recovered yearOf)
  (* Worked dates *)
  else if named "workedDates" then Some (pureRule (VStr ""))
  (* Employment dates *)
  else if named "employmentStartDate"
  then Some (pureRule (fullOf (date (employmentStart (dates d)))))
  else if named "lastDayWorked"
  then Some (pureRule (fullOf (date (lastDayWorked (dates d)))))
  else if named "lastDayWorkedFormatted"
  then Some (pureRule (fullOf (date (lastDayWorked (dates d)))))
  else if named "hireDate"
  then Some (pureRule (fullOf (date (employmentStart (dates d)))))
  (* Week end dates *)
  else if named "weekEndDate" then Some (week (fun w => fullOf (date (weekEndDate w))))
  else if named "weekEndDateFormatted"
  then Some (week (fun w => fullOf (date (weekEndDate w))))
  (* Days worked per week *)
  else if named "daysWorkedWeek" then Some (week (fun w => VStr (pretty (daysWorked w))))
  (* Weekly wages *)
  else if named "weeklyWage" then Some (week (fun w => VStr (toFixed2 (grossAmount w))))
  else if named "weeklyWageFormatted"
  then Some (week (fun w => VStr (toFixed2 (grossAmount w))))
  (* Average weekly wage *)
  else if named "averageWeeklyWage"
  then Some (pureRule (VStr (toFixed2 (averageWeeklyWage (wages d)))))
  else if named "averageWeeklyWageFormatted"
  then Some (pureRule (VStr (toFixed2 (averageWeeklyWage (wages d)))))
  (* Union *)
  else if named "unionName"
  then Some (pureRule (VStr (match data_union d with
                             | Some u => union_name u
                             | None => ""
                             end)))
  else if named "unionMemberCheckbox"
  then Some (pureRule (VBool (unionMember (checkboxes d))))
  (* Signature dates *)
  else if named "signatureDate"
  then Some (pureRule (fullOf (date (signatureDate (dates d)))))
  else if named "employerSignatureDate"
  then Some (pureRule (fullOf (date (signatureDate (dates d)))))
  else if named "supplementSignatureDate"
  then Some (pureRule (fullOf (date (signatureDate (dates d)))))
  else if named "directDepositSignatureDate"
  then Some (pureRule (fullOf (date (signatureDate (dates d)))))
  (* Employer info *)
  else if named "employerBusinessName" then Some (pureRule (VStr (employer_name (employer d))))
  else if named "employerAddress" then Some (pureRule (VStr (employer_address (employer d))))
  else if named "employerFullAddress"
  then Some (pureRule (VStr (employer_address (employer d) +:+ ", "
                             +:+ employer_city (employer d) +:+ ", "
                             +:+ employer_state (employer d) +:+ " "
                             +:+ employer_zip (employer d))))
  else if named "employerCityStateZip"
  then Some (pureRule (VStr (employer_city (employer d) +:+ ", "
                             +:+ employer_state (employer d) +:+ " "
                             +:+ employer_zip (employer d))))
  else if named "employerPhone" then Some (pureRule (VStr (employer_phone (employer d))))
  else if named "employerSignatoryNameTitle"
  then Some (pureRule (VStr (contactName (employer d) +:+ ", "
                             +:+ contactTitle (employer d))))
  else if named "employerContactPhone"
  then Some (pureRule (VStr (contactPhone (employer d))))
  else if named "employerContactName" then Some (pureRule (VStr (contactName (employer d))))
  else if named "employerEmail" then Some (pureRule (VStr (contactEmail (employer d))))
  else if named "employerPhoneAreaCode"
  then Some (pureRule (VStr (match phoneMatch with
                             | Some (g1, _, _) => g1
                             | None => String.substring 0 3 (contactPhone (employer d))
                             end)))
  else if named "employerPhoneNumber"
  then Some (pureRule (VStr (match phoneMatch with
                             | Some (_, g2, g3) => g2 +:+ "-" +:+ g3
                             | None =>
                                 let phone := contactPhone (employer d) in
                                 String.substring 4 (String.length phone - 4) phone
                             end)))
  else if named "employerFEIN1" then Some (pureRule (VStr (fein_part1 (fein (employer d)))))
  else if named "employerFEIN2" then Some (pureRule (VStr (fein_part2 (fein (employer d)))))
  else if named "policyNumber" then Some (pureRule (VStr (policyNumber (employer d))))
  (* Prior benefits (Item 13, 14, 15) *)
  else if named "claimedFrom" then Some (pureRule (VStr (claimedFrom pb)))
  else if named "claimedPeriodStartMonth"
  then Some (pureRule (datePart zone monthOf (claimedPeriodStart pb)))
  else if named "claimedPeriodStartDay"
  then Some (pureRule (datePart zone dayOf (claimedPeriodStart pb)))
  else if named "claimedPeriodStartYear"
  then Some (pureRule (datePart zone yearOf (claimedPeriodStart pb)))
  else if named "claimedPeriodEndMonth"
  then Some (pureRule (datePart zone monthOf (claimedPeriodEnd pb)))
  else if named "claimedPeriodEndDay"
  then Some (pureRule (datePart zone dayOf (claimedPeriodEnd pb)))
  else if named "claimedPeriodEndYear"
  then Some (pureRule (datePart zone yearOf (claimedPeriodEnd pb)))
  else if named "priorDisabilityPaidBy" then Some (pureRule (VStr (priorDisabilityPaidBy pb)))
  else if named "priorDisabilityStartMonth"
  then Some (pureRule (datePart zone monthOf (priorDisabilityStart pb)))
  else if named "priorDisabilityStartDay"
  then Some (pureRule (datePart zone dayOf (priorDisabilityStart pb)))
  else if named "priorDisabilityStartYear"
  then Some (pureRule (datePart zone yearOf (priorDisabilityStart pb)))
  else if named "priorDisabilityEndMonth"
  then Some (pureRule (datePart zone monthOf (priorDisabilityEnd pb)))
  else if named "priorDisabilityEndDay"
  then Some (pureRule (datePart zone dayOf (priorDisabilityEnd pb)))
  else if named "priorDisabilityEndYear"
  then Some (pureRule (datePart zone yearOf (priorDisabilityEnd pb)))
  else if named "priorPFLPaidBy" then Some (pureRule (VStr (priorPFLPaidBy pb)))
  else if named "priorPFLStartMonth"
  then Some (pureRule (datePart zone monthOf (priorPFLStart pb)))
  else if named "priorPFLStartDay"
  then Some (pureRule (datePart zone dayOf (priorPFLStart pb)))
  else if named "priorPFLStartYear"
  then Some (pureRule (datePart zone yearOf (priorPFLStart pb)))
  else if named "priorPFLEndMonth"
  then Some (pureRule (datePart zone monthOf (priorPFLEnd pb)))
  else if named "priorPFLEndDay"
  then Some (pureRule (datePart zone dayOf (priorPFLEnd pb)))
  else if named "priorPFLEndYear"
  then Some (pureRule (datePart zone yearOf (priorPFLEnd pb)))
  (* Conditional field generators *)
  else if named "workedForWagesDates" then Some (pureRule (VStr (workedForWagesDates cd)))
  else if named "unemploymentExplanation"
  then Some (pureRule (VStr (unemploymentExplanation cd)))
  else if named "unemploymentPeriods" then Some (pureRule (VStr (unemploymentPeriods cd)))
  else if named "wagesContinuedType" then Some (pureRule (VStr (wagesContinuedType cd)))
  else if named "priorDisabilityDates" then Some (pureRule (VStr (priorDisabilityDates cd)))
  else if named "priorPFLDates" then Some (pureRule (VStr (priorPFLDates cd)))
  (* Multi-option checkbox generators *)
  else if named "receivedOrClaimed"
  then Some (fun _ w =>
               let cb := checkboxes d in
               let anyBenefitsChecked :=
                 (receivingWages cb || unemploymentBenefits cb || paidFamilyLeave cb
                  || workersComp cb || noFaultAccident cb || thirdPartyInjury cb
                  || longTermDisability cb)%bool in
               if negb anyBenefitsChecked then (VNull, w)
               else
                 let g := seed F (this_seed this + 99999) in
                 let (received, g') := datatype_boolean F None g in
                 (VStr (if received then "Received" else "Claimed"),
                  set_faker_state F B w g'))
  else if named "priorLeaveType"
  then Some (pureRule
               (let cb := checkboxes d in
                let hadDisability := priorDisability cb in
                let hadPFL := priorPFL cb in
                if (hadDisability && hadPFL)%bool then VStr "Both"
                else if hadDisability then VStr "NYS#20Disability"
                else if hadPFL then VStr "PFL"
                else VStr "None"))
  else if named "genderSelection"
  then Some (fun _ w =>
               let g := seed F (this_seed this + 17) in
               let (choice, g') :=
                 helpers_arrayElement F VUndefined [VStr "Male"; VStr "Female"; VStr "X"] g in
               (choice, set_faker_state F B w g'))
  else None.

(** [getCalculatedValue(generator, args)]: the rule of the name applied
    to the first argument, if any; the empty string for a name without a
    rule. *)
Definition getCalculatedValue (this : DataGenerator B) (zone : JSDate.Zone) (clockNow : Z)
    (generator : string) (args : list JSVal) (w : World F B) : JSVal * World F B :=
  match generators this zone clockNow generator with
  | Some rule =>
      match args with
      | arg :: _ => rule arg w
      | [] => rule VUndefined w
      end
  | None => (VStr "", w)
  end.
End Calculated.

(** ** The text branch of fillForm *)

(** [String(value)]. *)
Definition String_of (v : JSVal) : string :=
  match v with
  | VUndefined => "undefined"
  | VNull => "null"
  | VBool b => if b then "true" else "false"
  | VNum z => pretty z
  | VStr s => s
  | VObj _ => "[object Object]"
  end.

(** [mapping.type]. *)
Definition typeName (t : MappingType) : string :=
  match t with
  | TFaker => "faker"
  | TCalculated => "calculated"
  | TAi => "ai"
  | TStatic => "static"
  | TCheckbox => "checkbox"
  | TCheckboxMulti => "checkbox-multi"
  end.

(** The test [value !== undefined && value !== null && value !== ''],
    negated. *)
Definition blank (v : JSVal) : bool :=
  match v with
  | VUndefined | VNull => true
  | VStr s => String.eqb s ""
  | _ => false
  end.

Section ApplyText.
(** A text field of pdf-lib and its [setText], which throws for a text
    longer than the maximal length of the field. *)
Variable TextField : Type.
Variable setText : string -> TextField -> option TextField.

(** The outcome of applying a value to a text field: the field after it
    and the entry reported, or an exception. *)
Inductive AppliedText : Type :=
| TextDone (textField : TextField) (entry : option Filled)
| TextThrown.

(** The branch [fieldType === 'PDFTextField'] of [fillForm]. *)
Definition applyText (mappingType : MappingType) (value : JSVal)
    (textField : TextField) : AppliedText :=
  if negb (blank value) then
    match setText (String_of value) textField with
    | Some textField' =>
        TextDone textField'
          (Some {| filled_value := String.substring 0 50 (String_of value);
                   filled_type := typeName mappingType |})
    | None => TextThrown
    end
  else TextDone textField None.
End ApplyText.
Arguments TextDone {TextField} _ _.
Arguments TextThrown {TextField}.

(** ** batchFill *)

(** The run id of the [i]-th form:
    [`${prefix}-${String(i).padStart(3, '0')}`]. *)
Definition batchRunId (prefix : string) (i : Z) : string :=
  prefix +:+ "-" +:+ padStart 3 (pretty i).

(** What [batchFill] reads of the result of [fillForm]. *)
Record FillResult : Type := {
  outputPath : string;
  result_claimant : string;
  result_employer : string
}.

(** An element of [results]. *)
Inductive BatchEntry : Type :=
| Succeeded (runId outputPath claimant employer : string)
| Failed (runId error : string).

Definition entry_runId (e : BatchEntry) : string :=
  match e with
  | Succeeded runId _ _ _ => runId
  | Failed runId _ => runId
  end.

Section Batch.
(** Everything that [fillForm] reads and writes. *)
Variable W : Type.
(** [await fillForm(runId, { silent: true })]: the result, or the message
    of the error thrown. *)
Variable fillForm : string -> W -> (FillResult + string) * W.

(** The loop [for (let i = 1; i <= count; i++)], over the values that
    [i] takes. *)
Fixpoint batchLoop (prefix : string) (indices : list Z) (results : list BatchEntry)
    (w : W) : list BatchEntry * W :=
  match indices with
  | [] => (results, w)
  | i :: rest =>
      let runId := batchRunId prefix i in
      let (outcome, w') := fillForm runId w in
      let entry :=
        match outcome with
        | inl result =>
            Succeeded runId (outputPath result) (result_claimant result)
              (result_employer result)
        | inr message => Failed runId message
        end in
      batchLoop prefix rest (results ++ [entry])%list w'
  end.

(** [batchFill(count, prefix)]: the array [results]. *)
Definition batchFill (count : Z) (prefix : string) (w : W) : list BatchEntry * W :=
  batchLoop prefix (List.map Z.of_nat (seq 1 (Z.to_nat count))) [] w.
End Batch.

(** ** The providers of ai-integration.js *)

(** [hay.includes(needle)]. *)
Fixpoint includes (hay needle : string) : bool :=
  if String.prefix needle hay then true
  else match hay with
       | EmptyString => false
       | String _ hay' => includes hay' needle
       end.

(** What an awaited promise gives: the value it resolves to, or the
    message of the error it rejects with. *)
Inductive Outcome (A : Type) : Type :=
| Resolved (a : A)
| Rejected (message : string).
Arguments Resolved {A} _.
Arguments Rejected {A} _.

Section Providers.
Context {num : Type}.

(** [provider.generate(prompt, context)], awaited, on the state [P] of
    the provider. *)
Definition Provider (P : Type) : Type :=
  string -> Dataset num -> P -> Outcome string * P.

(** [createAICallback(provider)]: the text of the provider, or the empty
    string when it throws. *)
Definition createAICallback {P} (provider : Provider P) : AICallback (num := num) P :=
  fun prompt category data p =>
    match provider prompt data p with
    | (Resolved result, p') => (result, p')
    | (Rejected _, p') => ("", p')
    end.

(** The base class [AIProvider]. *)
Definition AIProvider_generate : Provider unit :=
  fun _ _ p => (Rejected "generate() must be implemented by subclass", p).

(** [mockResponses] of [MockProvider]. *)
Definition mockResponses (category : string) : list string :=
  if String.eqb category "disability_description_continued" then
    [ "Condition developed gradually over several months, worsened in the past two weeks.";
      "Surgery performed on the disability start date, expected recovery period of 6-8 weeks.";
      "Symptoms first appeared while performing repetitive tasks at work, now requiring rest.";
      "Episodes occur unpredictably, making it unsafe to operate machinery or drive.";
      "Physical therapy recommended 3x/week, restricted from lifting over 10 pounds." ]
  else
    [ "Chronic lower back pain with muscle spasms limiting mobility and ability to sit for extended periods.";
      "Post-operative recovery following arthroscopic knee surgery for torn meniscus.";
      "Severe carpal tunnel syndrome requiring surgical intervention and rehabilitation.";
      "Acute anxiety disorder with panic attacks affecting ability to perform work duties.";
      "Herniated disc at L4-L5 causing sciatica and difficulty with standing or walking." ].

(** [MockProvider.generate]; the state is [callCount].  (The index is
    below the length of [responses], so the element exists.) *)
Definition MockProvider_generate : Provider nat :=
  fun prompt _ callCount =>
    let callCount := S callCount in
    let category :=
      if includes prompt "Continue" then "disability_description_continued"
      else "disability_description" in
    let responses := mockResponses category in
    (Resolved (List.nth (callCount mod List.length responses) responses ""), callCount).

(** The object that [generateDisabilityDescription] parses from the
    answer of the service (the schema requires the two lines). *)
Record Description : Type := { desc_line1 : string; desc_line2 : string }.

(** The state of a [GroqProvider]: [_cachedDescription], the service
    behind the client, and the contexts of the requests made so far,
    which the model keeps to count them. *)
Record Groq (R : Type) : Type := {
  cachedDescription : option Description;
  service : R;
  requests : list (Dataset num)
}.
Arguments cachedDescription {R} _.
Arguments service {R} _.
Arguments requests {R} _.

Section GroqProvider.
Variable R : Type.
(** [generateDisabilityDescription(context)], awaited. *)
Variable generateDisabilityDescription : Dataset num -> R -> Outcome Description * R.

(** The line of a description that a prompt asks for. *)
Definition lineFor (prompt : string) (description : Description) : string :=
  if (includes prompt "Continue" || includes prompt "continued")%bool
  then desc_line2 description
  else desc_line1 description.

(** [GroqProvider.generate]. *)
Definition GroqProvider_generate : Provider (Groq R) :=
  fun prompt context p =>
    match cachedDescription p with
    | Some description => (Resolved (lineFor prompt description), p)
    | None =>
        let (answer, r) := generateDisabilityDescription context (service p) in
        let asked := (requests p ++ [context])%list in
        match answer with
        | Resolved description =>
            (Resolved (lineFor prompt description),
             {| cachedDescription := Some description; service := r; requests := asked |})
        | Rejected message =>
            (Rejected message,
             {| cachedDescription := None; service := r; requests := asked |})
        end
    end.

(** [resetCache()]. *)
Definition resetCache (p : Groq R) : Groq R :=
  {| cachedDescription := None; service := service p; requests := requests p |}.

(** The function [groqCallback] made by [createGroqCallback]. *)
Definition createGroqCallback : AICallback (num := num) (Groq R) :=
  fun prompt category data p =>
    match GroqProvider_generate prompt data p with
    | (Resolved result, p') => (result, p')
    | (Rejected _, p') => ("", p')
    end.
End GroqProvider.
End Providers.
Arguments cachedDescription {num R} _.
Arguments service {num R} _.
Arguments requests {num R} _.

(** The second AI field of the mapping catalog and its prompt. *)
Definition continuedField : string :=
  "21 -  Describe your disability if injury also state how when and where it occurred 2".

Definition continuedPrompt : string :=
  "Continue the disability description with additional details about how the injury/condition occurred, when it started, and current limitations.".

(** ** Sample inputs *)

Module Sample.

(** A world over the small facade with an empty data directory and the
    backend in state [b]. *)
Definition worldOf {B : Type} (b : B) : World Toy.faker B :=
  {| faker_state := (0 : G Toy.faker); files := ∅; backend_state := b;
     backend_calls := [] |}.

Definition optionsWith {B : Type} (cb : AICallback (num := Q) B) : Options B :=
  {| opt_useAI := true; opt_aiCallback := Some cb |}.

(** America/New_York around the end of daylight saving time on
    2026-11-01 at 06:00 UTC: four hours behind UTC before, five after. *)
Definition newYork : JSDate.Zone :=
  JSDate.transitionZone 1793512800000 (-14400000) (-18000000).

(** 2026-11-22T17:00:00Z, noon in New York. *)
Definition clockNewYork : Clock :=
  {| tz := newYork; now := 1795366800000; birthdateRef := 1795366800000;
     generatedAtTime := 1795366800000; recentRef := 1795366800000 |}.

(** Pacific/Apia around 2011-12-30 at 10:00 UTC, when the zone moved
    across the date line and skipped the local day 2011-12-30: ten hours
    behind UTC before, fourteen ahead after. *)
Definition apia : JSDate.Zone :=
  JSDate.transitionZone 1325239200000 (-36000000) 50400000.

(** 2012-01-21T00:00:00Z on a host in Apia. *)
Definition clockApia : Clock :=
  {| tz := apia; now := 1327104000000; birthdateRef := 1327104000000;
     generatedAtTime := 1327104000000; recentRef := 1327104000000 |}.

(** A clock on a host in [zone] that reads the instant [t] every time. *)
Definition clockAt (zone : JSDate.Zone) (t : Z) : Clock :=
  {| tz := zone; now := t; birthdateRef := t; generatedAtTime := t; recentRef := t |}.

(** The Received/Claimed field of item 13: one widget per option, none
    active. *)
Definition receivedClaimedField : CheckBox :=
  {| V := None;
     widgets := [ {| AP_N := Some ["Received"; "Off"]; AS := Some "Off" |};
                  {| AP_N := Some ["Claimed"; "Off"]; AS := Some "Off" |} ] |}.

(** A field with a single widget that has both on-states in its
    appearance dictionary. *)
Definition yesNoWidget : CheckBox :=
  {| V := None;
     widgets := [ {| AP_N := Some ["Yes"; "No"; "Off"]; AS := Some "Off" |} ] |}.

(** A facade whose [faker.number.float] returns the numbers of a script
    in turn: the state is the rest of the script, and seeding starts it
    again.  An integer draw returns its lower bound, a checkbox state is
    false, a birth date is [min] years before the reference date, and
    the names are fixed. *)
Definition scripted {num : Type} (dflt : num) (floats : list num) : Faker num := {|
  G := list num;
  seed _ := floats;
  number_int min max g := (min, g);
  number_float min max fractionDigits g := (List.hd dflt g, List.tl g);
  datatype_boolean probability g := (false, g);
  date_birthdate_age min max ref g :=
    (JSDate.setUTCFullYear ref (JSDate.getUTCFullYear ref - min), g);
  date_recent days ref g := (ref, g);
  helpers_arrayElement_index n g := (0, g);
  string_alpha length upper g := ("A", g);
  string_numeric length g := ("1", g);
  string_alphanumeric length g := ("a", g);
  person_firstName g := ("Ada", g);
  person_lastName g := ("Lovelace", g);
  person_fullName g := ("Grace Hopper", g);
  person_jobTitle g := ("Engineer", g);
  company_name g := ("Acme Inc", g);
  company_buzzNoun g := ("synergy", g);
  phone_number format g := ("(212) 555-0100", g);
  internet_email names g := ("user@example.com", g);
  location_streetAddress useFullAddress g := ("1 Main Street", g);
  location_city g := ("Albany", g);
  location_zipCode format g := ("12207", g);
  member _ := NoMember
|}.

(** The amounts of one run in binary64, in cents: a base weekly wage of
    1370.47 and the eight weekly differences, each a number with two
    decimals within the bounds that the builder asks for. *)
Definition ledgerCents : list Z :=
  [137047; 8661; -8292; 6221; 2897; 1402; 2582; 6877; -4600].

Definition ledgerFaker : Faker spec_float :=
  scripted (Double.ofZ 0) (List.map Double.cents ledgerCents).

(** [x.toFixed(2)] on a rational that is not negative. *)
Definition toFixed2 (q : Q) : string :=
  let cents := Qfloor (q * 100 + (1 # 2))%Q in
  pretty (cents / 100) +:+ "." +:+ padStart 2 (pretty (cents mod 100)).

(** A service that answers every request with the same description;
    its state counts the requests. *)
Definition describe (context : Dataset Q) (r : nat) : Outcome Description * nat :=
  (Resolved {| desc_line1 := "Lower back strain with herniated disc L4-L5.";
               desc_line2 := "Pain radiates down left leg. Unable to sit for extended periods." |},
   S r).

(** A Groq provider that has not been asked yet. *)
Definition groq : Groq (num := Q) nat :=
  {| cachedDescription := None; service := O; requests := [] |}.

End Sample.


(** ** Notions used in the statements *)

(** An amount rounded to two decimals, as the program does it:
    [Math.round(x * 100) / 100]. *)
Definition roundToCents {num} `{JSNumber num} (x : num) : num :=
  n_div (Math_round (n_mul x (n_ofZ 100))) (n_ofZ 100).

(** The arithmetic mean of a list of amounts: their sum, from 0 and from
    left to right, divided by their number. *)
Definition arithmeticMean {num} `{JSNumber num} (amounts : list num) : num :=
  n_div (fold_left n_add amounts (n_ofZ 0)) (n_ofZ (Z.of_nat (List.length amounts))).

(** The arithmetic mean of amounts as a rational number, without
    rounding. *)
Definition exactMean (amounts : list Q) : Q :=
  (fold_right Qplus 0 amounts / inject_Z (Z.of_nat (List.length amounts)))%Q.

(** The cent nearest to a rational amount, a half going up. *)
Definition nearestCent (x : Q) : Z := Qfloor (x * inject_Z 100 + (1 # 2))%Q.

(** The state of the generator when [generateBaseData] draws the index
    of the description, from the state [g] it was seeded with: after the
    draws of the days back, of the years of employment, of the birth
    date and of the base wage, and the two draws of each of the eight
    weeks. *)
Definition stateAtDescription {num} (F : Faker num) (clk : Clock) (g : G F) : G F :=
  let g1 := snd (number_int F 7 21 g) in
  let g2 := snd (number_int F 1 10 g1) in
  let g3 := snd (date_birthdate_age F 25 60 (birthdateRef clk) g2) in
  let g4 := snd (number_float F 800 2500 2 g3) in
  Nat.iter 8 (fun g => snd (number_float F (-100) 100 2 (snd (number_int F 4 5 g)))) g4.

(** The value that [getFakerValue] resolves, as a function of the seed,
    the method name and the arguments. *)
Definition fakerValue {num} (F : Faker num) (sd : Z) (method : string)
    (args : list JSVal) : JSVal :=
  match walkParts F [] (split_dot method) with
  | None => VStr ""
  | Some (Method fn) =>
      match fst (fn args (seed F sd)) with
      | Some v => v
      | None => VStr ""
      end
  | Some (Member v) => v
  | Some NoMember => VUndefined
  end.

(** The on-states that are active on a field: the appearance states of
    its widgets other than [Off], without repetition. *)
Definition activeOnStates (checkBox : CheckBox) : list string :=
  remove_dups
    (List.filter (fun s => negb (String.eqb s "Off"))
       (omap AS (widgets checkBox))).

(** The first on-value reported for widget [i], as
    [onValues.find(v => v.widget === i)] finds it. *)
Definition onValueOf (onValues : list OnValue) (i : nat) : option string :=
  value <$> List.find (fun v => Nat.eqb (widget v) i) onValues.

(** A string of [n] decimal digits. *)
Fixpoint allDigits (s : string) : bool :=
  match s with
  | EmptyString => true
  | String a s' => PhonePattern.isDigit a && allDigits s'
  end.

Definition digitString (n : nat) (s : string) : Prop :=
  String.length s = n /\ allDigits s = true.

Fixpoint hasDigit (s : string) : bool :=
  match s with
  | EmptyString => false
  | String a s' => PhonePattern.isDigit a || hasDigit s'
  end.

(** The rules of the date parts of items 13, 14 and 15, with the
    checkbox state that gates each. *)
Definition periodRules : list (string * (CheckboxStates -> bool)) :=
  [("claimedPeriodStartMonth", receivingWages);
   ("claimedPeriodStartDay", receivingWages);
   ("claimedPeriodStartYear", receivingWages);
   ("claimedPeriodEndMonth", receivingWages);
   ("claimedPeriodEndDay", receivingWages);
   ("claimedPeriodEndYear", receivingWages);
   ("priorDisabilityStartMonth", priorDisability);
   ("priorDisabilityStartDay", priorDisability);
   ("priorDisabilityStartYear", priorDisability);
   ("priorDisabilityEndMonth", priorDisability);
   ("priorDisabilityEndDay", priorDisability);
   ("priorDisabilityEndYear", priorDisability);
   ("priorPFLStartMonth", priorPFL);
   ("priorPFLStartDay", priorPFL);
   ("priorPFLStartYear", priorPFL);
   ("priorPFLEndMonth", priorPFL);
   ("priorPFLEndDay", priorPFL);
   ("priorPFLEndYear", priorPFL)].

(** * Properties *)

(** ** The calendar *)

Module JSDateFacts.
Import JSDate.

Lemma doy_range (doe : Z) :
  0 <= doe < 146097 ->
  let yoe := (doe - doe / 1460 + doe / 36524 - doe / 146096) / 365 in
  0 <= yoe < 400 /\ 0 <= doe - (365 * yoe + yoe / 4 - yoe / 100) < 366.
Proof.
  intros Hdoe yoe. subst yoe. Z.div_mod_to_equations. lia.
Qed.

Lemma civil_month_range z : 1 <= snd (fst (civil_from_days z)) <= 12.
Proof.
  unfold civil_from_days. cbv zeta. cbn [fst snd].
  set (era := (z + 719468) / 146097).
  set (doe := z + 719468 - era * 146097).
  assert (Hdoe : 0 <= doe < 146097) by (subst doe era; Z.div_mod_to_equations; lia).
  destruct (doy_range doe Hdoe) as [Hy Hd].
  set (yoe := (doe - doe / 1460 + doe / 36524 - doe / 146096) / 365) in *.
  set (doy := doe - (365 * yoe + yoe / 4 - yoe / 100)) in *.
  assert (0 <= (5 * doy + 2) / 153 <= 11) by (Z.div_mod_to_equations; lia).
  destruct (_ <? 10) eqn:E; [apply Z.ltb_lt in E | apply Z.ltb_ge in E]; lia.
Qed.

Lemma days_from_civil_linear y m d k :
  days_from_civil y m (d + k) = days_from_civil y m d + k.
Proof. unfold days_from_civil. cbv zeta. lia. Qed.

(** The day count inverts the civil date. *)
Lemma days_from_civil_of_days z :
  days_from_civil (fst (fst (civil_from_days z))) (snd (fst (civil_from_days z)))
                  (snd (civil_from_days z)) = z.
Proof.
  unfold civil_from_days. cbv zeta. cbn [fst snd].
  set (era := (z + 719468) / 146097).
  set (doe := z + 719468 - era * 146097).
  assert (Hdoe : 0 <= doe < 146097) by (subst doe era; Z.div_mod_to_equations; lia).
  destruct (doy_range doe Hdoe) as [Hy Hd].
  set (yoe := (doe - doe / 1460 + doe / 36524 - doe / 146096) / 365) in *.
  set (doy := doe - (365 * yoe + yoe / 4 - yoe / 100)) in *.
  assert (Hmp : 0 <= (5 * doy + 2) / 153 <= 11) by (Z.div_mod_to_equations; lia).
  set (mp := (5 * doy + 2) / 153) in *.
  unfold days_from_civil. cbv zeta.
  destruct (mp <? 10) eqn:E; [apply Z.ltb_lt in E | apply Z.ltb_ge in E].
  - replace (mp + 3 <=? 2) with false by (symmetry; apply Z.leb_gt; lia).
    replace (2 <? mp + 3) with true by (symmetry; apply Z.ltb_lt; lia).
    replace ((yoe + era * 400) / 400) with era by (Z.div_mod_to_equations; lia).
    replace (yoe + era * 400 - era * 400) with yoe by lia.
    replace (mp + 3 - 3) with mp by lia.
    subst doy doe. lia.
  - replace (mp - 9 <=? 2) with true by (symmetry; apply Z.leb_le; lia).
    replace (2 <? mp - 9) with false by (symmetry; apply Z.ltb_ge; lia).
    replace ((yoe + era * 400 + 1 - 1) / 400) with era by (Z.div_mod_to_equations; lia).
    replace (yoe + era * 400 + 1 - 1 - era * 400) with yoe by lia.
    replace (mp - 9 + 9) with mp by lia.
    subst doy doe. lia.
Qed.

Lemma MonthFromTime_range t : 0 <= MonthFromTime t < 12.
Proof. unfold MonthFromTime. pose proof (civil_month_range (Day t)). lia. Qed.

(** Changing only the day of the month moves the day number by as much. *)
Lemma MakeDay_same t k :
  MakeDay (YearFromTime t) (MonthFromTime t) (DateFromTime t + k) = Day t + k.
Proof.
  unfold MakeDay, YearFromTime, MonthFromTime, DateFromTime. cbv zeta.
  pose proof (civil_month_range (Day t)) as Hm.
  pose proof (days_from_civil_of_days (Day t)) as Hr.
  set (c := civil_from_days (Day t)) in *.
  replace ((snd (fst c) - 1) / 12) with 0 by (Z.div_mod_to_equations; lia).
  replace ((snd (fst c) - 1) mod 12 + 1) with (snd (fst c))
    by (Z.div_mod_to_equations; lia).
  rewrite Z.add_0_r.
  pose proof (days_from_civil_linear (fst (fst c)) (snd (fst c)) 1 (snd c - 1)) as Hl.
  replace (1 + (snd c - 1)) with (snd c) in Hl by lia.
  lia.
Qed.

Lemma days_from_civil_yearDays y m d :
  days_from_civil y m d =
  yearDays (if m <=? 2 then y - 1 else y)
  + (153 * (if 2 <? m then m - 3 else m + 9) + 2) / 5 + d - 1 - 719468.
Proof.
  unfold days_from_civil, yearDays. cbv zeta.
  set (Y := if m <=? 2 then y - 1 else y).
  set (q := (153 * _ + 2) / 5). clearbody q. clearbody Y.
  Z.div_mod_to_equations. lia.
Qed.

Lemma yearDays_step y : 365 <= yearDays (y + 1) - yearDays y <= 366.
Proof. unfold yearDays. Z.div_mod_to_equations. lia. Qed.

Lemma yearDays_shift y j :
  0 <= j -> 365 * j <= yearDays y - yearDays (y - j) <= 366 * j.
Proof.
  intros Hj. revert y. pattern j. apply natlike_ind; [| | exact Hj].
  - intros y. replace (y - 0) with y by lia. lia.
  - intros x Hx IH y. specialize (IH (y - 1)).
    pose proof (yearDays_step (y - 1)) as Hs.
    replace (y - 1 + 1) with y in Hs by lia.
    replace (y - Z.succ x) with (y - 1 - x) by lia. lia.
Qed.

(** Going [j] years back, month and day kept, is going between [365 j]
    and [366 j] days back. *)
Lemma MakeDay_year_shift y j m d :
  0 <= j -> 0 <= m < 12 ->
  365 * j <= MakeDay y m d - MakeDay (y - j) m d <= 366 * j.
Proof.
  intros Hj Hm. unfold MakeDay. cbv zeta.
  replace (m / 12) with 0 by (Z.div_mod_to_equations; lia).
  replace (m mod 12) with m by (Z.div_mod_to_equations; lia).
  rewrite !Z.add_0_r, !days_from_civil_yearDays.
  destruct (m + 1 <=? 2).
  - pose proof (yearDays_shift (y - 1) j Hj).
    replace (y - j - 1) with (y - 1 - j) by lia. lia.
  - pose proof (yearDays_shift y j Hj). lia.
Qed.

Lemma MakeDate_Day t : MakeDate (Day t) (TimeWithinDay t) = t.
Proof.
  unfold MakeDate, Day, TimeWithinDay, msPerDay. Z.div_mod_to_equations. lia.
Qed.

(** [d.setDate(d.getDate() + k)] keeps the local time of day and moves
    the local date by [k] days: the time value moves by [k] days and by
    the difference between the offset in force at [t] and the offset by
    which the new local time is read. *)
Lemma setDate_getDate tz t k :
  setDate tz t (getDate tz t + k)
  = t + k * msPerDay
    + (offsetAt tz t - offsetOf tz (LocalTime tz t + k * msPerDay)).
Proof.
  unfold setDate, getDate, UTC. cbv zeta.
  rewrite MakeDay_same.
  pose proof (MakeDate_Day (LocalTime tz t)) as Hd. unfold MakeDate in *.
  replace ((Day (LocalTime tz t) + k) * msPerDay + TimeWithinDay (LocalTime tz t))
    with (LocalTime tz t + k * msPerDay) by lia.
  unfold LocalTime. lia.
Qed.

Lemma setDate_getDate_sub tz t k :
  setDate tz t (getDate tz t - k)
  = t - k * msPerDay
    + (offsetAt tz t - offsetOf tz (LocalTime tz t - k * msPerDay)).
Proof.
  replace (getDate tz t - k) with (getDate tz t + - k) by lia.
  rewrite setDate_getDate.
  replace (LocalTime tz t + - k * msPerDay) with (LocalTime tz t - k * msPerDay) by lia.
  lia.
Qed.

(** In a zone whose offsets lie within [lo] and [hi], going [k] days on
    by [setDate] moves the time value by [k] days up to [hi - lo]. *)
Lemma setDate_getDate_within tz lo hi t k :
  offsetsWithin tz lo hi ->
  t + k * msPerDay - (hi - lo) <= setDate tz t (getDate tz t + k)
    <= t + k * msPerDay + (hi - lo).
Proof.
  intros Hz. rewrite setDate_getDate.
  pose proof (proj1 (Hz t)) as Ha.
  pose proof (proj2 (Hz (LocalTime tz t + k * msPerDay))) as Hb. lia.
Qed.

Lemma setDate_getDate_sub_within tz lo hi t k :
  offsetsWithin tz lo hi ->
  t - k * msPerDay - (hi - lo) <= setDate tz t (getDate tz t - k)
    <= t - k * msPerDay + (hi - lo).
Proof.
  intros Hz. rewrite setDate_getDate_sub.
  pose proof (proj1 (Hz t)) as Ha.
  pose proof (proj2 (Hz (LocalTime tz t - k * msPerDay))) as Hb. lia.
Qed.

(** [d.setFullYear(d.getFullYear() - j)] moves the time value back by
    between [365 j] and [366 j] days, up to [hi - lo]. *)
Lemma setFullYear_getFullYear tz lo hi t j :
  offsetsWithin tz lo hi ->
  0 <= j ->
  365 * j * msPerDay - (hi - lo) <= t - setFullYear tz t (getFullYear tz t - j)
    <= 366 * j * msPerDay + (hi - lo).
Proof.
  intros Hz Hj. unfold setFullYear, getFullYear, UTC. cbv zeta.
  set (l := LocalTime tz t).
  pose proof (MakeDay_year_shift (YearFromTime l) j (MonthFromTime l) (DateFromTime l)
                Hj (MonthFromTime_range l)) as Hs.
  pose proof (MakeDay_same l 0) as Hsame. rewrite Z.add_0_r in Hsame.
  rewrite Hsame in Hs.
  pose proof (MakeDate_Day l) as Hd. unfold MakeDate in *.
  set (X := MakeDay _ _ _) in *. clearbody X.
  pose proof (proj1 (Hz t)) as Ha.
  pose proof (proj2 (Hz (X * msPerDay + TimeWithinDay l))) as Hb.
  set (o := offsetOf tz _) in *. clearbody o.
  set (D := Day l) in *. set (T := TimeWithinDay l) in *. clearbody D T.
  unfold LocalTime in l. subst l.
  set (a := offsetAt tz t) in *. clearbody a.
  unfold msPerDay in *. lia.
Qed.

Lemma offsetsWithin_fixedZone offset : offsetsWithin (fixedZone offset) offset offset.
Proof. intros t. cbn. lia. Qed.

Lemma offsetsWithin_transitionZone transition before after :
  offsetsWithin (transitionZone transition before after)
    (Z.min before after) (Z.max before after).
Proof.
  intros t. cbn.
  destruct (t <? transition), (t <? transition + Z.max before after); lia.
Qed.

Lemma setUTCFullYear_getUTCFullYear t j :
  0 <= j ->
  365 * j * msPerDay <= t - setUTCFullYear t (getUTCFullYear t - j)
    <= 366 * j * msPerDay.
Proof.
  intros Hj. unfold setUTCFullYear, getUTCFullYear.
  pose proof (MakeDay_year_shift (YearFromTime t) j (MonthFromTime t) (DateFromTime t)
                Hj (MonthFromTime_range t)) as Hs.
  pose proof (MakeDay_same t 0) as Hsame. rewrite Z.add_0_r in Hsame.
  rewrite Hsame in Hs.
  pose proof (MakeDate_Day t) as Hd. unfold MakeDate in *.
  set (X := MakeDay _ _ _) in *. clearbody X.
  set (D := Day t) in *. set (T := TimeWithinDay t) in *. clearbody D T.
  unfold msPerDay in *. lia.
Qed.

End JSDateFacts.

(** ** The builder *)

(** Names the result of the next draw of the computation in the goal; a
    draw made under a condition is reached by cases on the condition. *)
Ltac draw :=
  match goal with
  | |- context [let (_, _) := (if ?b then _ else _) _ in _] => destruct b eqn:?
  | |- context [let (_, _) := ?p in _] =>
      lazymatch p with
      | (let (_, _) := _ in _) => fail
      | _ => destruct p as [? ?] eqn:?
      end
  end.

Ltac run_builder :=
  cbv beta zeta delta [generateBaseData helpers_arrayElement bind ret];
  repeat draw.

Lemma sampleAt_in_range i :
  0 <= i <= Z.of_nat (List.length SampleDisabilityDescriptions) - 1 ->
  exists entry, sampleAt i = Some entry.
Proof.
  intros Hi. unfold sampleAt.
  destruct (i <? 0) eqn:E; [apply Z.ltb_lt in E; lia |].
  destruct (nth_error SampleDisabilityDescriptions (Z.to_nat i)) eqn:En; [eauto |].
  apply nth_error_None in En. lia.
Qed.

Lemma append_nonempty_r (a b : string) : b <> "" -> a +:+ b <> "".
Proof. intros Hb. destruct a; simpl; [exact Hb | discriminate]. Qed.

Lemma toLocaleDateString_nonempty zone t : toLocaleDateString zone t <> "".
Proof. unfold toLocaleDateString. apply append_nonempty_r. discriminate. Qed.

Lemma period_nonempty (a b : string) : a +:+ " - " +:+ b <> "".
Proof. apply append_nonempty_r. discriminate. Qed.

Lemma fold_left_map_gross {num} `{JSNumber num} (ws : list (WeekRecord num)) (a : num) :
  fold_left n_add (List.map grossAmount ws) a
  = fold_left (fun sum w => n_add sum (grossAmount w)) ws a.
Proof. revert a. induction ws as [| w ws IH]; intros a; simpl; [reflexivity | apply IH]. Qed.

(** The drawn sample index is within the table, by the bounds of
    [number_int]: the entry read at it exists. *)
Ltac sample_entry F HF :=
  match goal with
  | E : number_int F 0 _ ?g0 = (?i, _) |- _ =>
      let Hr := fresh in
      pose proof (number_int_range F HF 0
                    (Z.of_nat (List.length SampleDisabilityDescriptions) - 1) g0) as Hr;
      rewrite E in Hr; simpl in Hr;
      destruct (sampleAt_in_range i) as [entry ->]; [simpl; lia |]
  end.

Section BuilderFacts.
Context {num : Type} `{JSNumber num}.
Variable F : Faker num.
Hypothesis HF : FakerSpec F.

(** The loop appends one record per week number. *)
Lemma weeklyWagesLoop_length zone ldw base weeks acc g :
  List.length (fst (weeklyWagesLoop F zone ldw base weeks acc g))
  = (List.length acc + List.length weeks)%nat.
Proof.
  revert acc g. induction weeks as [| i weeks IH]; intros acc g; simpl.
  - lia.
  - unfold bind. destruct (number_int F 4 5 g) as [dw g1].
    destruct (number_float F (-100) 100 2 g1) as [delta g2].
    rewrite IH, length_app. simpl. lia.
Qed.

Lemma weeklyWagesLoop_weekNumber zone ldw base weeks acc g :
  List.map weekNumber (fst (weeklyWagesLoop F zone ldw base weeks acc g))
  = (List.map weekNumber acc ++ weeks)%list.
Proof.
  revert acc g. induction weeks as [| i weeks IH]; intros acc g; simpl.
  - now rewrite app_nil_r.
  - unfold bind. destruct (number_int F 4 5 g) as [dw g1].
    destruct (number_float F (-100) 100 2 g1) as [delta g2].
    rewrite IH, List.map_app. simpl. now rewrite <- app_assoc.
Qed.

(** The loop draws the days worked and the difference of each week, in
    this order, and nothing else. *)
Lemma weeklyWagesLoop_state zone ldw base weeks acc g :
  snd (weeklyWagesLoop F zone ldw base weeks acc g)
  = Nat.iter (List.length weeks)
      (fun g => snd (number_float F (-100) 100 2 (snd (number_int F 4 5 g)))) g.
Proof.
  set (step := fun g0 => snd (number_float F (-100) 100 2 (snd (number_int F 4 5 g0)))).
  revert acc g. induction weeks as [| i weeks IH]; intros acc g; [reflexivity |].
  cbn [weeklyWagesLoop List.length]. unfold bind.
  destruct (number_int F 4 5 g) as [dw g1] eqn:E1.
  destruct (number_float F (-100) 100 2 g1) as [delta g2] eqn:E2.
  rewrite IH.
  change (Nat.iter (S (List.length weeks)) step g)
    with (step (Nat.iter (List.length weeks) step g)).
  rewrite <- Nat.iter_swap. f_equal.
  subst step. cbn beta. rewrite E1. cbn [snd]. rewrite E2. reflexivity.
Qed.

(** With a facade that keeps its bounds the build does not throw. *)
Lemma generateBaseData_total runId seed clk g :
  exists d, fst (generateBaseData F runId seed clk g) = Some d.
Proof.
  run_builder;
    sample_entry F HF; eexists; reflexivity.
Qed.

(** The dates of a built dataset, as the builder derives them from the
    generation time. *)
Lemma generateBaseData_dates runId seed clk g :
  exists d k j,
    fst (generateBaseData F runId seed clk g) = Some d
    /\ 7 <= k <= 21 /\ 1 <= j <= 10
    /\ signatureDate (dates d) = now clk
    /\ disabilityStart (dates d)
       = JSDate.setDate (tz clk) (now clk) (JSDate.getDate (tz clk) (now clk) - k)
    /\ lastDayWorked (dates d)
       = JSDate.setDate (tz clk) (disabilityStart (dates d))
           (JSDate.getDate (tz clk) (disabilityStart (dates d)) - 1)
    /\ employmentStart (dates d)
       = JSDate.setFullYear (tz clk) (lastDayWorked (dates d))
           (JSDate.getFullYear (tz clk) (lastDayWorked (dates d)) - j)
    /\ JSDate.setUTCFullYear (birthdateRef clk)
         (JSDate.getUTCFullYear (birthdateRef clk) - 61)
       <= dateOfBirth (claimant d)
       <= JSDate.setUTCFullYear (birthdateRef clk)
            (JSDate.getUTCFullYear (birthdateRef clk) - 25).
Proof.
  run_builder;
    sample_entry F HF;
    match goal with
    | E1 : number_int F 7 21 ?g1 = (?back, _),
      E2 : number_int F 1 10 ?g2 = (?years, _),
      E3 : date_birthdate_age F 25 60 _ ?g3 = (?dob, _) |- _ =>
        pose proof (number_int_range F HF 7 21 g1) as Hback;
        pose proof (number_int_range F HF 1 10 g2) as Hyears;
        pose proof (date_birthdate_age_range F HF 25 60 (birthdateRef clk) g3) as Hdob;
        rewrite E1 in Hback; rewrite E2 in Hyears; rewrite E3 in Hdob;
        simpl in Hback, Hyears, Hdob;
        specialize (Hback ltac:(lia)); specialize (Hyears ltac:(lia));
        specialize (Hdob ltac:(lia));
        eexists _, back, years
    end;
    (split; [reflexivity |]);
    cbn [dates claimant dateOfBirth employmentStart lastDayWorked disabilityStart
         signatureDate];
    replace (JSDate.getUTCFullYear (birthdateRef clk) - 60 - 1)
      with (JSDate.getUTCFullYear (birthdateRef clk) - 61) in Hdob by lia;
    (split; [assumption |]); (split; [assumption |]);
    repeat (split; [reflexivity |]);
    exact Hdob.
Qed.

(** The disability start and the last day worked of a built dataset,
    from the generation time and the first draw. *)
Lemma generateBaseData_last_day runId seed clk g :
  let k := fst (number_int F 7 21 g) in
  exists d,
    fst (generateBaseData F runId seed clk g) = Some d
    /\ 7 <= k <= 21
    /\ disabilityStart (dates d)
       = JSDate.setDate (tz clk) (now clk) (JSDate.getDate (tz clk) (now clk) - k)
    /\ lastDayWorked (dates d)
       = JSDate.setDate (tz clk) (disabilityStart (dates d))
           (JSDate.getDate (tz clk) (disabilityStart (dates d)) - 1).
Proof.
  intros k.
  pose proof (number_int_range F HF 7 21 g ltac:(lia)) as Hk. fold k in Hk.
  revert Hk. subst k.
  run_builder;
    intros Hk; cbn [fst] in Hk;
    sample_entry F HF;
    eexists;
    (split; [reflexivity |]); (split; [exact Hk |]);
    cbn [dates disabilityStart lastDayWorked];
    split; reflexivity.
Qed.


(** The ledger of a built dataset has the eight weeks 1 to 8. *)
Lemma generateBaseData_ledger runId seed clk g :
  exists d,
    fst (generateBaseData F runId seed clk g) = Some d
    /\ List.length (weeklyWages (wages d)) = 8%nat
    /\ List.map weekNumber (weeklyWages (wages d)) = [1; 2; 3; 4; 5; 6; 7; 8].
Proof.
  run_builder;
    sample_entry F HF;
    match goal with
    | E : weeklyWagesLoop F ?zone ?ldw ?base ?weeks [] ?g0 = (?ww, _) |- _ =>
        pose proof (weeklyWagesLoop_length zone ldw base weeks [] g0) as Hlen;
        pose proof (weeklyWagesLoop_weekNumber zone ldw base weeks [] g0) as Hweeks;
        rewrite E in Hlen, Hweeks; simpl in Hlen, Hweeks
    end;
    (eexists; split; [reflexivity |]);
    cbn [wages weeklyWages];
    (split; [exact Hlen | exact Hweeks]).
Qed.

(** The average of a built dataset is computed from its ledger, in the
    arithmetic of the program: the sum of the gross amounts from 0 and
    from the first week on, divided by 8, times 100, rounded by
    [Math.round], divided by 100. *)
Lemma generateBaseData_average runId seed clk g d :
  fst (generateBaseData F runId seed clk g) = Some d ->
  averageWeeklyWage (wages d)
  = roundToCents (arithmeticMean (List.map grossAmount (weeklyWages (wages d)))).
Proof.
  run_builder;
    match goal with
    | E : weeklyWagesLoop F ?zone ?ldw ?base ?weeks [] ?g0 = (?ww, _) |- _ =>
        pose proof (weeklyWagesLoop_length zone ldw base weeks [] g0) as Hlen;
        rewrite E in Hlen; simpl in Hlen
    end;
    (destruct (sampleAt _); cbn [fst]; [intros [= <-] | discriminate]);
    cbn [wages weeklyWages averageWeeklyWage];
    unfold roundToCents, arithmeticMean, sumGross;
    rewrite fold_left_map_gross, length_map, Hlen; reflexivity.
Qed.

End BuilderFacts.

(** ** Selecting the sample description *)

Section SampleFacts.
Context {num : Type} `{JSNumber num}.
Variable F : Faker num.
Hypothesis HF : FakerSpec F.

(** The description of a built dataset is the sample entry at an index
    that [faker.number.int] returned for the bounds 0 and 4. *)
Lemma generateBaseData_disability rid sd clk g :
  exists d g0 entry,
    fst (generateBaseData F rid sd clk g) = Some d
    /\ 0 <= fst (number_int F 0 4 g0) <= 4
    /\ List.nth_error SampleDisabilityDescriptions
         (Z.to_nat (fst (number_int F 0 4 g0))) = Some entry
    /\ description1 (disability d) = line1 entry
    /\ description2 (disability d) = line2 entry
    /\ data_seed d = sd /\ runId d = rid /\ aiContent d = None.
Proof.
  run_builder;
    match goal with
    | E : number_int F 0 _ ?g0 = (?i, _) |- _ =>
        let Hr := fresh in
        pose proof (number_int_range F HF 0 4 g0) as Hr;
        change (Z.of_nat (List.length SampleDisabilityDescriptions) - 1) with 4 in E;
        specialize (Hr ltac:(lia));
        destruct (sampleAt_in_range i) as [entry He];
        [rewrite E in Hr; simpl in *; lia |];
        rewrite He; eexists _, g0, entry; rewrite E; cbn [fst];
        rewrite E in Hr; cbn [fst] in Hr;
        unfold sampleAt in He;
        destruct (i <? 0); [discriminate He |];
        repeat split; try reflexivity; try lia; exact He
    end.
Qed.

(** The index of the description is the integer drawn for the bounds 0
    and 4 in the state that the draws before it leave. *)
Lemma generateBaseData_description_state rid sd clk g :
  exists d entry i g',
    fst (generateBaseData F rid sd clk g) = Some d
    /\ number_int F 0 4 (stateAtDescription F clk g) = (i, g')
    /\ 0 <= i <= 4
    /\ sampleAt i = Some entry
    /\ description1 (disability d) = line1 entry
    /\ description2 (disability d) = line2 entry.
Proof.
  run_builder;
    match goal with
    | E : number_int F 0 _ ?g0 = (?i, ?g') |- _ =>
        change (Z.of_nat (List.length SampleDisabilityDescriptions) - 1) with 4 in E;
        assert (Hg : stateAtDescription F clk g = g0);
        [ unfold stateAtDescription; cbv zeta;
          repeat match goal with
                 | E' : ?draw = (_, _) |- context [snd ?draw] => rewrite E'; cbn [snd]
                 end;
          match goal with
          | E' : weeklyWagesLoop F ?zone ?ldw ?base ?weeks [] ?g1 = (_, _) |- _ =>
              let Hs := fresh in
              pose proof (weeklyWagesLoop_state F zone ldw base weeks [] g1) as Hs;
              rewrite E' in Hs; cbn [snd List.length] in Hs; symmetry; exact Hs
          end
        | let Hr := fresh in
          pose proof (number_int_range F HF 0 4 g0 ltac:(lia)) as Hr;
          rewrite E in Hr; cbn [fst] in Hr;
          destruct (sampleAt_in_range i) as [entry He]; [simpl; lia |];
          rewrite He; eexists _, entry, i, g'; rewrite Hg;
          repeat split; try reflexivity; try lia; try exact E; exact He ]
    end.
Qed.
End SampleFacts.

(** ** The generator object *)

Section GeneratorFacts.
Context {num : Type} `{JSNumber num}.
Variable F : Faker num.
Variable B : Type.

(** A generator made over a stored dataset does not build. *)
Lemma new_DataGenerator_stored rid options clk (w : World F B) d :
  files w !! rid = Some d ->
  new_DataGenerator F B rid options clk w
  = Some ({| this_runId := rid; this_seed := Hash.hashString rid;
             useAI := opt_useAI options; aiCallback := opt_aiCallback options;
             data := d |}, w).
Proof. intros Hd. unfold new_DataGenerator. rewrite Hd. reflexivity. Qed.

(** A generator made where no dataset is stored holds the dataset built
    from the stream seeded with the hash of the run id, and stores it. *)
Lemma new_DataGenerator_fresh rid options clk (w : World F B) this w' :
  files w !! rid = None ->
  new_DataGenerator F B rid options clk w = Some (this, w') ->
  fst (generateBaseData F rid (Hash.hashString rid) clk
         (seed F (Hash.hashString rid))) = Some (data this)
  /\ this_seed this = Hash.hashString rid
  /\ useAI this = opt_useAI options
  /\ files w' !! rid = Some (data this).
Proof.
  intros Hnone. unfold new_DataGenerator. rewrite Hnone.
  destruct (generateBaseData F rid _ clk _) as [[d |] g]; [| discriminate].
  intros [= <- <-]. cbn. rewrite lookup_insert_eq. auto.
Qed.

(** With a facade that keeps its bounds, a generator can be made for
    any run that has no stored dataset. *)
Lemma new_DataGenerator_total (HF : FakerSpec F) rid options clk (w : World F B) :
  files w !! rid = None ->
  exists this w', new_DataGenerator F B rid options clk w = Some (this, w').
Proof.
  intros Hnone. unfold new_DataGenerator. rewrite Hnone.
  destruct (generateBaseData_total F HF rid (Hash.hashString rid) clk
              (seed F (Hash.hashString rid))) as [d Hd].
  destruct (generateBaseData F rid _ clk _) as [built g].
  cbn [fst] in Hd. subst built. eauto.
Qed.

(** C2, as the program has it.  For a run id whose dataset is not stored
    yet, the seed of the generator is [hashString] of the run id; a
    second build at the same clock readings, from any other state of the
    random generator and with any options, yields the identical dataset;
    and any later generator for the run id that finds the stored file,
    at any time, holds the identical dataset. *)
Theorem build_determinism rid options clk (w : World F B) this w'
    options2 (w2 : World F B) options3 clk3 (w3 : World F B) :
  files w !! rid = None ->
  new_DataGenerator F B rid options clk w = Some (this, w') ->
  files w2 !! rid = None ->
  files w3 !! rid = files w' !! rid ->
  this_seed this = Hash.hashString rid
  /\ data_seed (data this) = Hash.hashString rid
  /\ (exists this2 w2',
        new_DataGenerator F B rid options2 clk w2 = Some (this2, w2')
        /\ data this2 = data this)
  /\ (exists this3,
        new_DataGenerator F B rid options3 clk3 w3 = Some (this3, w3)
        /\ data this3 = data this /\ this_seed this3 = this_seed this).
Proof.
  intros Hnone Hnew Hnone2 Hsame.
  destruct (new_DataGenerator_fresh _ _ _ _ _ _ Hnone Hnew) as (Hb & Hseed & _ & Hfile).
  split; [exact Hseed |]. split.
  - revert Hb. run_builder; destruct (sampleAt _); cbn [fst]; intros [= <-]; reflexivity.
  - split.
    + unfold new_DataGenerator. rewrite Hnone2.
      destruct (generateBaseData F rid _ clk _) as [[d |] g]; [| discriminate].
      cbn [fst] in Hb. injection Hb as ->. eauto.
    + rewrite Hfile in Hsame.
      rewrite (new_DataGenerator_stored _ options3 clk3 _ _ Hsame).
      eexists. split; [reflexivity |]. cbn. auto.
Qed.
End GeneratorFacts.

Section ResolverFacts.
Context {num : Type} `{JSNumber num}.
Variable F : Faker num.
Variable B : Type.

(** A text that is not empty is read back from [aiContent]: the second
    request for the category leaves the world as it is, so the backend
    is not invoked, and returns the same text. *)
Lemma getAIValue_cached this fieldName prompt category (w : World F B)
    text this1 w1 fieldName' prompt' (w1' : World F B) :
  useAI this = true ->
  aiCallback this <> None ->
  getAIValue F B this fieldName prompt category w = (text, this1, w1) ->
  text <> "" ->
  getAIValue F B this1 fieldName' prompt' category w1' = (text, this1, w1').
Proof.
  intros Hai Hcb Hget Htext. unfold getAIValue in *.
  rewrite Hai in Hget.
  destruct (aiCallback this) as [callback |] eqn:Ecb; [| congruence].
  destruct (cachedContent (default ∅ (aiContent (data this))) category) as [t |] eqn:Ec.
  - injection Hget as <- <- <-.
    cbn [useAI aiCallback data set_data set_aiContent aiContent default].
    rewrite Hai, Ecb. cbn. rewrite Ec. reflexivity.
  - destruct (callback prompt category _ (backend_state w)) as [t b] eqn:Ecall.
    injection Hget as <- <- <-.
    cbn [useAI aiCallback data set_data set_aiContent aiContent default].
    rewrite Hai, Ecb. cbn.
    unfold cachedContent. rewrite lookup_insert_eq.
    destruct (String.eqb t "") eqn:Et; [apply String.eqb_eq in Et; congruence |].
    reflexivity.
Qed.
End ResolverFacts.

(** C7, on a backend that fails once.  With AI enabled and the callback of
    [createAICallback] over a provider whose first request fails, the
    first [getAIValue] for "disability_description" resolves to the empty
    string, which is stored; the second one for the same category does not
    take it for cached content: the backend is invoked a second time and
    the second text differs from the first. *)
Theorem getAIValue_empty_text_invokes_backend_again :
  Toy.askTwice Toy.failingOnce "claim-001" Toy.descriptionField Toy.descriptionPrompt
    "disability_description"
  = Some ("", "Chronic lower back pain with muscle spasms.",
          [(Toy.descriptionPrompt, "disability_description");
           (Toy.descriptionPrompt, "disability_description")]).
Proof. vm_compute. reflexivity. Qed.

(** With a backend that answers, the same two requests invoke it once. *)
Example getAIValue_answered_once :
  Toy.askTwice Toy.answering "claim-001" Toy.descriptionField Toy.descriptionPrompt
    "disability_description"
  = Some ("Chronic lower back pain with muscle spasms.",
          "Chronic lower back pain with muscle spasms.",
          [(Toy.descriptionPrompt, "disability_description")]).
Proof. vm_compute. reflexivity. Qed.

Section FieldResolverFacts.
Context {num : Type} `{JSNumber num}.
Variable F : Faker num.
Variable B : Type.

Lemma getFakerValue_value (this : DataGenerator B) method args (w : World F B) :
  fst (getFakerValue F B this method args w) = fakerValue F (this_seed this) method args.
Proof.
  unfold getFakerValue, fakerValue.
  destruct (walkParts F [] (split_dot method)) as [[| v | fn] |]; try reflexivity.
  destruct (fn args (seed F (this_seed this))) as [[v |] g]; reflexivity.
Qed.

Lemma getFakerValue_state (this : DataGenerator B) method args (w w' : World F B) :
  faker_state (snd (getFakerValue F B this method args w))
  = faker_state (snd (getFakerValue F B this method args w')).
Proof.
  unfold getFakerValue.
  destruct (walkParts F [] (split_dot method)) as [[| v | fn] |]; try reflexivity.
  destruct (fn args (seed F (this_seed this))) as [[v |] g]; reflexivity.
Qed.

(** The member that the loop over the parts of a method name reaches is
    the member of [faker] at the dotted path. *)
Lemma walkParts_member path parts m :
  walkParts F path parts = Some m -> m = member F (path ++ parts)%list.
Proof.
  revert path. induction parts as [| part parts IH]; intros path; cbn [walkParts].
  - intros [= <-]. now rewrite app_nil_r.
  - destruct (falsyMember _); [discriminate |].
    intros Hw. apply IH in Hw. now rewrite <- app_assoc in Hw.
Qed.

Lemma resolveFakerFields_values (this : DataGenerator B) mappings (w : World F B) :
  fst (resolveFakerFields F B this mappings w)
  = List.map (fun m => fakerValue F (this_seed this) (fst m) (snd m)) mappings.
Proof.
  revert w. induction mappings as [| [method args] mappings IH]; intros w;
    cbn [resolveFakerFields List.map]; [reflexivity |].
  pose proof (getFakerValue_value this method args w) as Hv.
  destruct (getFakerValue F B this method args w) as [v w1].
  specialize (IH w1).
  destruct (resolveFakerFields F B this mappings w1) as [vs w2].
  cbn [fst snd] in *. now rewrite Hv, IH.
Qed.

(** C9.  [getFakerValue] seeds the generator with the seed of the run
    and then calls the member of [faker] that the method name selects,
    with the arguments, on the generator so seeded: the value is what
    that call returns (the empty string when it throws) and the
    generator is left in the state after that one call.  When the name
    selects no method the generator is left as seeded.  So the value is
    a function of the seed, the method name and the arguments: it is the
    same in every world, whatever was drawn before, and for every
    generator object with the same seed; the values resolved for the
    faker-mapped fields of a form are those of the fields taken alone,
    in any order of the catalog, and resolving the same descriptor any
    number of times yields the same value each time. *)
Theorem getFakerValue_reseeds (this : DataGenerator B) method args (w : World F B) :
  let g := seed F (this_seed this) in
  (forall fn,
      walkParts F [] (split_dot method) = Some (Method fn) ->
      member F (split_dot method) = Method fn
      /\ getFakerValue F B this method args w
         = (match fst (fn args g) with Some v => v | None => VStr "" end,
            set_faker_state F B w (snd (fn args g))))
  /\ ((forall fn, walkParts F [] (split_dot method) <> Some (Method fn)) ->
      snd (getFakerValue F B this method args w) = set_faker_state F B w g)
  /\ fst (getFakerValue F B this method args w)
     = fakerValue F (this_seed this) method args
  /\ (forall (that : DataGenerator B) (w' : World F B),
         this_seed that = this_seed this ->
         fst (getFakerValue F B that method args w')
         = fst (getFakerValue F B this method args w)
         /\ faker_state (snd (getFakerValue F B that method args w'))
            = faker_state (snd (getFakerValue F B this method args w)))
  /\ (forall mappings (w' : World F B),
         fst (resolveFakerFields F B this mappings w')
         = List.map (fun m => fst (getFakerValue F B this (fst m) (snd m) w)) mappings)
  /\ (forall (n : nat) (w' : World F B),
         fst (resolveFakerFields F B this (List.repeat (method, args) n) w')
         = List.repeat (fst (getFakerValue F B this method args w)) n).
Proof.
  intros g. split; [| split; [| split; [| split; [| split]]]].
  - intros fn Hwalk. split.
    + symmetry. exact (walkParts_member [] (split_dot method) _ Hwalk).
    + unfold getFakerValue. rewrite Hwalk. fold g.
      destruct (fn args g) as [[v |] g']; reflexivity.
  - intros Hno. unfold getFakerValue. fold g.
    destruct (walkParts F [] (split_dot method)) as [[| v | fn] |]; try reflexivity.
    now destruct (Hno fn).
  - apply getFakerValue_value.
  - intros that w' Hseed. split.
    + now rewrite !getFakerValue_value, Hseed.
    + unfold getFakerValue. rewrite Hseed.
      destruct (walkParts F [] (split_dot method)) as [[| v | fn] |]; try reflexivity.
      destruct (fn args (seed F (this_seed this))) as [[v |] g']; reflexivity.
  - intros mappings w'. rewrite resolveFakerFields_values.
    apply map_ext. intros m. now rewrite getFakerValue_value.
  - intros n w'. rewrite resolveFakerFields_values, getFakerValue_value.
    induction n as [| n IH]; cbn [List.repeat List.map fst snd]; [reflexivity |].
    now rewrite IH.
Qed.

(** C10.  For every dataset the checking checkbox resolves to the stored
    [checkingAccount] state and the savings checkbox to its negation,
    whatever probabilities the catalog passes and whatever the world:
    exactly one of the two is checked. *)
Theorem direct_deposit_account_exclusive (this : DataGenerator B)
    (p1 p2 : option Q) (w1 w2 : World F B) :
  getCheckboxValue F B this "4 Checking account" p1 w1
  = (checkingAccount (checkboxes (data this)), w1)
  /\ getCheckboxValue F B this "4 Savings account" p2 w2
     = (negb (checkingAccount (checkboxes (data this))), w2)
  /\ xorb (fst (getCheckboxValue F B this "4 Checking account" p1 w1))
          (fst (getCheckboxValue F B this "4 Savings account" p2 w2)) = true.
Proof.
  assert (Hc : getCheckboxValue F B this "4 Checking account" p1 w1
               = (checkingAccount (checkboxes (data this)), w1)) by reflexivity.
  assert (Hs : getCheckboxValue F B this "4 Savings account" p2 w2
               = (negb (checkingAccount (checkboxes (data this))), w2)) by reflexivity.
  rewrite Hc, Hs. repeat split. cbn [fst].
  destruct (checkingAccount (checkboxes (data this))); reflexivity.
Qed.
End FieldResolverFacts.

(** ** The widget state resolver *)

Lemma widgetState_cases targetValue onValues i :
  widgetState targetValue onValues i = targetValue
  \/ widgetState targetValue onValues i = "Off".
Proof.
  unfold widgetState. destruct (List.find _ onValues) as [v |]; [| now right].
  destruct (String.eqb (value v) targetValue); [now left | now right].
Qed.

(** The state given to a widget, by the first on-value reported for it. *)
Lemma widgetState_onValueOf targetValue onValues i :
  widgetState targetValue onValues i
  = if decide (onValueOf onValues i = Some targetValue) then targetValue else "Off".
Proof.
  unfold widgetState, onValueOf.
  destruct (List.find _ onValues) as [v |]; cbn.
  - destruct (String.eqb (value v) targetValue) eqn:E.
    + apply String.eqb_eq in E. subst. now rewrite decide_True.
    + apply String.eqb_neq in E. rewrite decide_False; [reflexivity | congruence].
  - now rewrite decide_False.
Qed.

Lemma setMultiWidgetCheckboxValue_lookup checkBox targetValue onValues i w :
  widgets (setMultiWidgetCheckboxValue checkBox targetValue onValues) !! i = Some w ->
  AS w = Some (widgetState targetValue onValues i).
Proof.
  cbn [setMultiWidgetCheckboxValue widgets]. rewrite list_lookup_imap.
  destruct (widgets checkBox !! i); cbn; [| discriminate].
  now intros [= <-].
Qed.

Lemma remove_dups_all_equal (t : string) (l : list string) :
  Forall (fun s => s = t) l -> (List.length (remove_dups l) <= 1)%nat.
Proof.
  induction l as [| x l IH]; intros Hall; cbn; [lia |].
  inversion Hall as [| ? ? Hx Hl]; subst.
  destruct (decide_rel elem_of t l) as [Hin | Hnin]; [now apply IH |].
  destruct l as [| y l'].
  - cbn. lia.
  - inversion Hl; subst. exfalso. apply Hnin. left.
Qed.

(** The appearance states other than [Off] that
    [setMultiWidgetCheckboxValue] leaves are all the target. *)
Lemma active_states_are_target checkBox targetValue onValues :
  Forall (fun s => s = targetValue)
    (List.filter (fun s => negb (String.eqb s "Off"))
       (omap AS (widgets (setMultiWidgetCheckboxValue checkBox targetValue onValues)))).
Proof.
  apply Forall_forall. intros s Hin.
  apply list_elem_of_In, filter_In in Hin as [Hin Hoff].
  apply list_elem_of_In, list_elem_of_omap in Hin as (w & Hw & Has).
  apply list_elem_of_lookup in Hw as [i Hi].
  apply setMultiWidgetCheckboxValue_lookup in Hi. rewrite Hi in Has.
  injection Has as <-.
  destruct (widgetState_cases targetValue onValues i) as [-> | Hs]; [reflexivity |].
  rewrite Hs in Hoff. discriminate.
Qed.

Lemma activeOnStates_target checkBox targetValue onValues s :
  s ∈ activeOnStates (setMultiWidgetCheckboxValue checkBox targetValue onValues) ->
  s = targetValue.
Proof.
  intros Hs. unfold activeOnStates in Hs. rewrite elem_of_remove_dups in Hs.
  pose proof (active_states_are_target checkBox targetValue onValues) as Hall.
  rewrite Forall_forall in Hall. now apply Hall.
Qed.

(** C5.  After [setMultiWidgetCheckboxValue] the field value is the
    target; a widget whose on-value is the target has the target as
    appearance state and every widget whose on-value differs from the
    target, or that has none, has [Off]; so at most one on-state is active
    among the widgets of the field, never two. *)
Theorem widget_exclusivity checkBox targetValue onValues :
  let checkBox' := setMultiWidgetCheckboxValue checkBox targetValue onValues in
  V checkBox' = Some targetValue
  /\ List.length (widgets checkBox') = List.length (widgets checkBox)
  /\ (forall i w,
         widgets checkBox' !! i = Some w ->
         AS w = Some (if decide (onValueOf onValues i = Some targetValue)
                      then targetValue else "Off"))
  /\ (forall s, s ∈ activeOnStates checkBox' -> s = targetValue)
  /\ (List.length (activeOnStates checkBox') <= 1)%nat.
Proof.
  intros checkBox'.
  split; [reflexivity |].
  split; [subst checkBox'; cbn; apply length_imap |].
  split.
  { intros i w Hi. apply setMultiWidgetCheckboxValue_lookup in Hi.
    now rewrite Hi, widgetState_onValueOf. }
  split; [apply activeOnStates_target |].
  unfold activeOnStates. apply (remove_dups_all_equal targetValue).
  apply active_states_are_target.
Qed.

(** On-values as [getCheckboxOnValues] reports them name widgets of the
    field. *)
Lemma getCheckboxOnValues_widget checkBox v :
  In v (getCheckboxOnValues checkBox) ->
  (widget v < List.length (widgets checkBox))%nat.
Proof.
  unfold getCheckboxOnValues. intros Hin.
  apply in_concat in Hin as (l & Hl & Hv).
  apply list_elem_of_In, list_elem_of_lookup in Hl as [i Hi].
  rewrite list_lookup_imap in Hi.
  destruct (widgets checkBox !! i) as [w |] eqn:Hw; [| discriminate].
  cbn in Hi. injection Hi as <-.
  apply lookup_lt_Some in Hw.
  unfold widgetOnValues in Hv. destruct (AP_N w) as [keys |]; [| contradiction].
  apply in_flat_map in Hv as (k & _ & Hk).
  destruct (negb _); [| contradiction].
  destruct Hk as [<- | []]. exact Hw.
Qed.

(** Where every widget reports one on-value, the entry of a widget is the
    one that [find] returns for it. *)
Lemma onValueOf_unique onValues v :
  NoDup (List.map widget onValues) ->
  In v onValues ->
  onValueOf onValues (widget v) = Some (value v).
Proof.
  unfold onValueOf. induction onValues as [| u l IH]; intros Hnd Hin; [contradiction |].
  cbn in Hnd. apply NoDup_cons in Hnd as [Hu Hnd]. cbn [List.find].
  destruct Hin as [-> | Hin].
  - now rewrite Nat.eqb_refl.
  - destruct (Nat.eqb (widget u) (widget v)) eqn:E; [| now apply IH].
    apply Nat.eqb_eq in E. exfalso. apply Hu. rewrite E.
    apply list_elem_of_In, in_map, Hin.
Qed.

Lemma yes_no_target onValues (logical : JSVal) :
  isYesNoCheckbox onValues = true ->
  exists v, In v onValues /\ value v = if truthy logical then "Yes" else "No".
Proof.
  unfold isYesNoCheckbox. intros Hyn. apply andb_prop in Hyn as [Hyes Hno].
  apply existsb_exists in Hyes as (y & Hy & Ey). apply String.eqb_eq in Ey.
  apply existsb_exists in Hno as (n & Hn & En). apply String.eqb_eq in En.
  destruct (truthy logical); eauto.
Qed.

(** The first on-value reported for a widget is one of the reported
    entries. *)
Lemma onValueOf_Some onValues i t :
  onValueOf onValues i = Some t ->
  exists v, In v onValues /\ widget v = i /\ value v = t.
Proof.
  unfold onValueOf. destruct (List.find _ onValues) as [v |] eqn:Hfind; [| discriminate].
  intros [= <-]. apply find_some in Hfind as [Hin Hw].
  apply Nat.eqb_eq in Hw. eauto.
Qed.

(** The widgets that [setMultiWidgetCheckboxValue] leaves with the
    target as appearance state are those whose first reported on-value
    is the target, for a target other than [Off]. *)
Lemma setMultiWidgetCheckboxValue_active checkBox targetValue :
  targetValue <> "Off" ->
  let onValues := getCheckboxOnValues checkBox in
  let checkBox' := setMultiWidgetCheckboxValue checkBox targetValue onValues in
  forall i,
    (exists w, widgets checkBox' !! i = Some w /\ AS w = Some targetValue)
    <-> onValueOf onValues i = Some targetValue.
Proof.
  intros Hoff onValues checkBox' i. split.
  - intros (w & Hi & Has). apply setMultiWidgetCheckboxValue_lookup in Hi.
    rewrite Hi, widgetState_onValueOf in Has.
    destruct (decide (onValueOf onValues i = Some targetValue)) as [Hv | _];
      [exact Hv | congruence].
  - intros Hv. destruct (onValueOf_Some _ _ _ Hv) as (v & Hin & Hw & _).
    pose proof (getCheckboxOnValues_widget _ _ Hin) as Hlt. rewrite Hw in Hlt.
    assert (Hlen : List.length (widgets checkBox') = List.length (widgets checkBox))
      by (cbn; apply length_imap).
    rewrite <- Hlen in Hlt. apply lookup_lt_is_Some in Hlt as [w Hi].
    exists w. split; [exact Hi |].
    apply setMultiWidgetCheckboxValue_lookup in Hi.
    rewrite Hi, widgetState_onValueOf. now rewrite decide_True.
Qed.

Lemma activeOnStates_elem checkBox s :
  s ∈ activeOnStates checkBox
  <-> s <> "Off" /\ exists i w, widgets checkBox !! i = Some w /\ AS w = Some s.
Proof.
  unfold activeOnStates. rewrite elem_of_remove_dups, list_elem_of_In, filter_In.
  rewrite <- list_elem_of_In, list_elem_of_omap. split.
  - intros ((w & Hw & Has) & Hoff). split.
    + intros ->. discriminate.
    + apply list_elem_of_lookup in Hw as [i Hi]. eauto.
  - intros (Hoff & i & w & Hi & Has). split.
    + exists w. split; [| exact Has]. apply list_elem_of_lookup. eauto.
    + apply negb_true_iff, String.eqb_neq, Hoff.
Qed.

Section ApplyFacts.
Variables check uncheck : CheckBox -> CheckBox.

(** C6, as the program has it.  On a checkbox field whose reported
    on-values contain both "Yes" and "No", for a mapping that is not
    multi-option, a false value sets the field value to "No", gives the
    widgets whose on-value is "No" the appearance state "No" and every
    other widget, those of "Yes" among them, the state "Off"; a true
    value does the same with "Yes".  The on-value of a widget is the
    first one reported for it: the selected state is active on a widget
    if and only if some widget reports it first.  Where every widget
    reports one on-value (a field with separate Yes and No widgets), a
    widget of the selected state exists and is active after the
    selection, each reported widget is active exactly when its on-value
    is the selected state, and the selected state is the one active
    state of the field. *)
Theorem yes_no_selection mappingType (logical : JSVal) checkBox :
  mappingType <> TCheckboxMulti ->
  isYesNoCheckbox (getCheckboxOnValues checkBox) = true ->
  let onValues := getCheckboxOnValues checkBox in
  let target := if truthy logical then "Yes" else "No" in
  let other := if truthy logical then "No" else "Yes" in
  exists checkBox',
    applyCheckbox check uncheck mappingType logical checkBox
    = Done checkBox' (Some {| filled_value := target; filled_type := "checkbox-yesno" |})
    /\ V checkBox' = Some target
    /\ List.length (widgets checkBox') = List.length (widgets checkBox)
    /\ (forall i w,
           widgets checkBox' !! i = Some w ->
           (onValueOf onValues i = Some target -> AS w = Some target)
           /\ (onValueOf onValues i <> Some target -> AS w = Some "Off")
           /\ (onValueOf onValues i = Some other -> AS w = Some "Off"))
    /\ (forall s, s ∈ activeOnStates checkBox' -> s = target)
    /\ ((exists i w, widgets checkBox' !! i = Some w /\ AS w = Some target)
        <-> (exists i, onValueOf onValues i = Some target))
    /\ (NoDup (List.map widget onValues) ->
        (exists i w,
            widgets checkBox' !! i = Some w
            /\ onValueOf onValues i = Some target
            /\ AS w = Some target)
        /\ (forall v,
               In v onValues ->
               exists w,
                 widgets checkBox' !! widget v = Some w
                 /\ AS w = Some (if String.eqb (value v) target then target else "Off"))
        /\ target ∈ activeOnStates checkBox').
Proof.
  intros Hty Hyn onValues target other.
  assert (Htarget : target <> "Off") by (subst target; destruct (truthy logical); discriminate).
  pose proof (setMultiWidgetCheckboxValue_active checkBox target Htarget) as Hactive.
  cbv zeta in Hactive. fold onValues in Hactive.
  exists (setMultiWidgetCheckboxValue checkBox target onValues).
  split.
  { unfold applyCheckbox. subst onValues target. cbv zeta.
    destruct mappingType; try congruence; rewrite Hyn; reflexivity. }
  split; [reflexivity |]. split; [cbn; apply length_imap |].
  split.
  { intros i w Hi. apply setMultiWidgetCheckboxValue_lookup in Hi.
    rewrite Hi, widgetState_onValueOf.
    repeat split.
    - intros Ht. now rewrite decide_True.
    - intros Ht. now rewrite decide_False.
    - intros Ho. rewrite decide_False; [reflexivity |].
      rewrite Ho. subst target other. destruct (truthy logical); discriminate. }
  split; [apply activeOnStates_target |].
  split.
  { split.
    - intros (i & w & Hi & Has). exists i. apply Hactive. eauto.
    - intros (i & Hv). apply Hactive in Hv as (w & Hi & Has). eauto. }
  intros Hnd.
  destruct (yes_no_target onValues logical Hyn) as (v & Hin & Hv). fold target in Hv.
  pose proof (onValueOf_unique _ _ Hnd Hin) as Hfind. rewrite Hv in Hfind.
  destruct (proj2 (Hactive (widget v)) Hfind) as (w & Hi & Has).
  split; [exists (widget v), w; auto |].
  split.
  - intros u Hu.
    pose proof (getCheckboxOnValues_widget _ _ Hu) as Hlt.
    assert (Hlen : List.length (widgets (setMultiWidgetCheckboxValue checkBox target onValues))
                   = List.length (widgets checkBox)) by (cbn; apply length_imap).
    rewrite <- Hlen in Hlt. apply lookup_lt_is_Some in Hlt as [wu Hwu].
    exists wu. split; [exact Hwu |].
    apply setMultiWidgetCheckboxValue_lookup in Hwu.
    rewrite Hwu, widgetState_onValueOf, (onValueOf_unique _ _ Hnd Hu).
    destruct (String.eqb (value u) target) eqn:E.
    + apply String.eqb_eq in E. rewrite decide_True; congruence.
    + apply String.eqb_neq in E. rewrite decide_False; congruence.
  - apply activeOnStates_elem. split; [exact Htarget | eauto].
Qed.
End ApplyFacts.

(** ** Rounding to cents, in exact arithmetic *)

(** With exact rational numbers the rounded amount is within half a cent
    of the amount. *)
Lemma roundToCents_Q_error (x : Q) :
  (Qabs (roundToCents x - x) <= 1 # 200)%Q.
Proof.
  unfold roundToCents. cbn [n_div Math_round n_mul n_ofZ Q_JSNumber].
  change (inject_Z 100) with (100 # 1)%Q.
  set (y := (x * (100 # 1) + (1 # 2))%Q).
  pose proof (Qfloor_le y) as Hle. pose proof (Qlt_floor y) as Hlt.
  rewrite inject_Z_plus in Hlt. change (inject_Z 1) with (1 # 1)%Q in Hlt.
  set (f := inject_Z (Qfloor y)) in *. clearbody f. subst y.
  unfold Qdiv. change (/ (100 # 1))%Q with (1 # 100)%Q.
  apply Qabs_Qle_condition. split; lra.
Qed.

Lemma fold_left_Qplus (l : list Q) (a : Q) :
  (fold_left Qplus l a == a + fold_right Qplus 0 l)%Q.
Proof.
  revert a. induction l as [| x l IH]; intros a; cbn [fold_left fold_right].
  - ring.
  - rewrite IH. ring.
Qed.

(** In exact arithmetic the mean that the program computes is the
    arithmetic mean. *)
Lemma arithmeticMean_exact (l : list Q) : (arithmeticMean l == exactMean l)%Q.
Proof.
  unfold arithmeticMean, exactMean. cbn [n_div n_add n_ofZ Q_JSNumber].
  rewrite fold_left_Qplus. change (inject_Z 0) with 0%Q.
  now rewrite Qplus_0_l.
Qed.

(** In exact arithmetic rounding to cents gives the nearest cent, a half
    going up. *)
Lemma roundToCents_nearestCent (x y : Q) :
  (x == y)%Q -> (roundToCents x == nearestCent y # 100)%Q.
Proof.
  intros Hxy. unfold roundToCents, nearestCent.
  cbn [n_div Math_round n_mul n_ofZ Q_JSNumber].
  rewrite Hxy. set (c := Qfloor _). clearbody c.
  unfold Qeq, Qdiv, Qmult, Qinv, inject_Z. cbn. lia.
Qed.


(** ** The small facade keeps the bounds *)

Lemma setUTCFullYear_mono t y1 y2 :
  y1 <= y2 -> JSDate.setUTCFullYear t y1 <= JSDate.setUTCFullYear t y2.
Proof.
  intros Hy. unfold JSDate.setUTCFullYear, JSDate.MakeDate.
  pose proof (JSDateFacts.MakeDay_year_shift y2 (y2 - y1) (JSDate.MonthFromTime t)
                (JSDate.DateFromTime t) ltac:(lia) (JSDateFacts.MonthFromTime_range t))
    as Hs.
  replace (y2 - (y2 - y1)) with y1 in Hs by lia.
  unfold JSDate.msPerDay. lia.
Qed.

Lemma Toy_faker_spec : FakerSpec Toy.faker.
Proof.
  split.
  - intros min max g Hle. cbn. Z.div_mod_to_equations. lia.
  - intros min max ref g Hle. cbn [Toy.faker date_birthdate_age fst].
    assert (Hk : 0 <= g mod (max - min + 1) <= max - min)
      by (Z.div_mod_to_equations; lia).
    split; apply setUTCFullYear_mono; lia.
  - intros n g Hn. cbn. Z.div_mod_to_equations. lia.
  - intros g. cbn. discriminate.
Qed.

(** A scripted facade keeps the bounds, whatever the script. *)
Lemma scripted_spec {num : Type} (dflt : num) (floats : list num) :
  FakerSpec (Sample.scripted dflt floats).
Proof.
  split.
  - intros min max g Hle. cbn. lia.
  - intros min max ref g Hle. cbn [Sample.scripted date_birthdate_age fst].
    split; [apply setUTCFullYear_mono; lia | lia].
  - intros n g Hn. cbn. lia.
  - intros g. cbn. discriminate.
Qed.

(** ** Concrete runs *)

Example hashString_claim_001 : Hash.hashString "claim-001" = 302753504.
Proof. reflexivity. Qed.

Example hashString_is_order_sensitive : Hash.hashString "ab" <> Hash.hashString "ba".
Proof. vm_compute. discriminate. Qed.

Example civil_of_clock :
  JSDate.civil_from_days (JSDate.Day (now Toy.clock)) = (2026, 11, 2).
Proof. reflexivity. Qed.

Example getCheckboxOnValues_yesNo :
  getCheckboxOnValues Toy.yesNoField
  = [ {| widget := 0; value := "Yes" |}; {| widget := 1; value := "No" |} ].
Proof. reflexivity. Qed.

Example select_No :
  List.map AS (widgets (setMultiWidgetCheckboxValue Toy.yesNoField "No"
                          (getCheckboxOnValues Toy.yesNoField)))
  = [Some "Off"; Some "No"].
Proof. reflexivity. Qed.

(** ** The theorems at the concrete run "claim-001" *)


(** Noon in New York on 2026-11-01, the day daylight saving time ends,
    is reached by going back [k] days from noon [k] days later. *)
Lemma newYork_days_back k :
  7 <= k <= 21 ->
  JSDate.setDate Sample.newYork (1793552400000 + k * JSDate.msPerDay)
    (JSDate.getDate Sample.newYork (1793552400000 + k * JSDate.msPerDay) - k)
  = 1793552400000.
Proof.
  intros Hk.
  assert (Hcases : In k [7; 8; 9; 10; 11; 12; 13; 14; 15; 16; 17; 18; 19; 20; 21])
    by (cbn; lia).
  cbn in Hcases.
  repeat (destruct Hcases as [<- | Hcases]; [vm_compute; reflexivity |]).
  contradiction.
Qed.

(** 2011-12-31 at 14:00 in Apia, the day after the local day that the
    zone skipped, likewise. *)
Lemma apia_days_back k :
  7 <= k <= 21 ->
  JSDate.setDate Sample.apia (1325289600000 + k * JSDate.msPerDay)
    (JSDate.getDate Sample.apia (1325289600000 + k * JSDate.msPerDay) - k)
  = 1325289600000.
Proof.
  intros Hk.
  assert (Hcases : In k [7; 8; 9; 10; 11; 12; 13; 14; 15; 16; 17; 18; 19; 20; 21])
    by (cbn; lia).
  cbn in Hcases.
  repeat (destruct Hcases as [<- | Hcases]; [vm_compute; reflexivity |]).
  contradiction.
Qed.






(** C2 does not hold across time: two builds for run "claim-001", each
    over an empty data directory, made one day apart, differ. *)
Lemma build_determinism_counterexample :
  exists d d',
    Toy.generate "claim-001" Toy.clock = Some d
    /\ Toy.generate "claim-001" Toy.clock' = Some d'
    /\ generatedAt d = 1793620800000
    /\ generatedAt d' = 1793707200000
    /\ disabilityStart (dates d) = 1791806400000
    /\ disabilityStart (dates d') = 1791892800000
    /\ d <> d'.
Proof.
  eexists _, _.
  split; [vm_compute; reflexivity |]. split; [vm_compute; reflexivity |].
  repeat split; try reflexivity.
  intros Heq. apply (f_equal generatedAt) in Heq. discriminate Heq.
Qed.

(** C2 at the small facade: a build of run "claim-001" and a later
    generator over its data directory. *)
Lemma build_determinism_witness :
  exists this w',
    new_DataGenerator Toy.faker nat "claim-001" Toy.noAI Toy.clock Toy.world
    = Some (this, w')
    /\ exists this3,
         new_DataGenerator Toy.faker nat "claim-001" (Toy.options Toy.answering)
           Toy.clock' w' = Some (this3, w')
         /\ data this3 = data this.
Proof.
  destruct (new_DataGenerator_total Toy.faker nat Toy_faker_spec "claim-001" Toy.noAI
              Toy.clock Toy.world eq_refl)
    as (this & w' & Hnew).
  exists this, w'. split; [exact Hnew |].
  destruct (build_determinism Toy.faker nat "claim-001" Toy.noAI Toy.clock Toy.world
              this w' Toy.noAI Toy.world (Toy.options Toy.answering) Toy.clock' w'
              eq_refl Hnew eq_refl eq_refl)
    as (_ & _ & _ & this3 & H3 & Hd & _).
  exists this3. split; [exact H3 | exact Hd].
Defined.

(** C9 at the small facade: [person.firstName] is called on the
    generator seeded with the seed of the run, and a pass that resolves
    it twice, around another descriptor, yields the same name twice. *)
Lemma getFakerValue_reseeds_witness :
  exists this w',
    new_DataGenerator Toy.faker nat "claim-001" Toy.noAI Toy.clock Toy.world
    = Some (this, w')
    /\ getFakerValue Toy.faker nat this "person.firstName" [] w'
       = (VStr "Ada",
          set_faker_state Toy.faker nat w' (Toy.next (seed Toy.faker (this_seed this))))
    /\ fst (resolveFakerFields Toy.faker nat this
              [("person.firstName", []); ("person.lastName", []);
               ("person.firstName", [])] w')
       = [VStr "Ada"; VStr "Lovelace"; VStr "Ada"].
Proof.
  destruct (new_DataGenerator_total Toy.faker nat Toy_faker_spec "claim-001" Toy.noAI
              Toy.clock Toy.world eq_refl)
    as (this & w' & Hnew).
  destruct (getFakerValue_reseeds Toy.faker nat this "person.firstName" [] w')
    as (Hcall & _ & _ & _ & Hpass & _).
  exists this, w'. split; [exact Hnew |]. split.
  - exact (proj2 (Hcall (fun _ g => (Some (VStr "Ada"), Toy.next g)) eq_refl)).
  - rewrite Hpass. reflexivity.
Defined.

(** C6 at a field with a Yes widget and a No widget: a false value
    leaves the second widget, the one of "No", active. *)
Lemma yes_no_selection_witness :
  exists checkBox' w,
    applyCheckbox (fun c => c) (fun c => c) TCheckbox (VBool false) Toy.yesNoField
    = Done checkBox'
        (Some {| filled_value := "No"; filled_type := "checkbox-yesno" |})
    /\ V checkBox' = Some "No"
    /\ widgets checkBox' !! 1%nat = Some w
    /\ AS w = Some "No"
    /\ "No" ∈ activeOnStates checkBox'.
Proof.
  assert (Hty : TCheckbox <> TCheckboxMulti) by discriminate.
  destruct (yes_no_selection (fun c => c) (fun c => c) TCheckbox (VBool false)
              Toy.yesNoField Hty eq_refl)
    as (checkBox' & Happ & HV & _ & _ & _ & _ & Hsep).
  assert (Hnd : NoDup (List.map widget (getCheckboxOnValues Toy.yesNoField))).
  { change (NoDup [0%nat; 1%nat]).
    apply NoDup_cons. split; [| apply NoDup_singleton].
    intros Hin. apply list_elem_of_singleton in Hin. discriminate Hin. }
  destruct (Hsep Hnd) as (_ & Hall & Hact).
  destruct (Hall {| widget := 1; value := "No" |}) as (w & Hw & Has).
  { vm_compute. right. left. reflexivity. }
  exists checkBox', w. split; [exact Happ |]. split; [exact HV |].
  split; [exact Hw |]. split; [exact Has | exact Hact].
Defined.

(** C6 does not hold as stated.  A field with one widget that has both
    on-states reports "Yes" and "No"; a false value sets the field value
    to "No" and the widget, whose first on-value is "Yes", to "Off": no
    widget has the state "No".  And for a multi-option mapping a false
    value leaves the field with separate Yes and No widgets as it is. *)
Lemma yes_no_selection_counterexample :
  (isYesNoCheckbox (getCheckboxOnValues Sample.yesNoWidget) = true
   /\ exists checkBox',
        applyCheckbox (fun c => c) (fun c => c) TCheckbox (VBool false) Sample.yesNoWidget
        = Done checkBox'
            (Some {| filled_value := "No"; filled_type := "checkbox-yesno" |})
        /\ V checkBox' = Some "No"
        /\ widgets checkBox'
           = [ {| AP_N := Some ["Yes"; "No"; "Off"]; AS := Some "Off" |} ]
        /\ ~ (exists i w, widgets checkBox' !! i = Some w /\ AS w = Some "No"))
  /\ (isYesNoCheckbox (getCheckboxOnValues Toy.yesNoField) = true
      /\ applyCheckbox (fun c => c) (fun c => c) TCheckboxMulti (VBool false)
           Toy.yesNoField
         = Done Toy.yesNoField None
      /\ V Toy.yesNoField = None).
Proof.
  split.
  - split; [reflexivity |]. eexists. split; [reflexivity |].
    split; [reflexivity |]. split; [reflexivity |].
    intros (i & w & Hi & Has). destruct i as [| i]; cbn in Hi.
    + injection Hi as <-. discriminate Has.
    + destruct i; discriminate Hi.
  - split; [reflexivity |]. split; reflexivity.
Qed.

(** * Further properties of the code *)

(** ** hashString *)

Module HashFacts.
Import Hash.

Lemma ToInt32_range z : - 2 ^ 31 <= ToInt32 z < 2 ^ 31.
Proof.
  unfold ToInt32. cbv zeta.
  pose proof (Z.mod_pos_bound z (2 ^ 32) ltac:(lia)) as Hm.
  destruct (2 ^ 31 <=? z mod 2 ^ 32) eqn:E;
    [apply Z.leb_le in E | apply Z.leb_gt in E]; lia.
Qed.

Lemma ToInt32_mod z : ToInt32 z mod 2 ^ 32 = z mod 2 ^ 32.
Proof.
  unfold ToInt32. cbv zeta.
  destruct (2 ^ 31 <=? z mod 2 ^ 32).
  - replace (z mod 2 ^ 32 - 2 ^ 32) with (z mod 2 ^ 32 + (-1) * 2 ^ 32) by lia.
    rewrite Z.mod_add by lia. apply Z.mod_mod. lia.
  - apply Z.mod_mod. lia.
Qed.

Lemma ToInt32_congr a b : a mod 2 ^ 32 = b mod 2 ^ 32 -> ToInt32 a = ToInt32 b.
Proof. intros Hab. unfold ToInt32. now rewrite Hab. Qed.

Lemma ToInt32_idem z : ToInt32 (ToInt32 z) = ToInt32 z.
Proof. apply ToInt32_congr, ToInt32_mod. Qed.

(** One turn of the loop is [31 * hash + char], wrapped to 32 bits. *)
Lemma hash_step_31 h c : hash_step h c = ToInt32 (31 * h + c).
Proof.
  unfold hash_step, and32, shl32. cbv zeta.
  rewrite Z.land_diag, ToInt32_idem, Z.shiftl_mul_pow2 by lia.
  apply ToInt32_congr.
  rewrite <- Zplus_mod_idemp_l, <- Zminus_mod_idemp_l, ToInt32_mod.
  rewrite <- (Zmult_mod_idemp_l (ToInt32 h)), ToInt32_mod, Zmult_mod_idemp_l.
  rewrite Zminus_mod_idemp_l, Zplus_mod_idemp_l.
  f_equal. lia.
Qed.

Lemma fold_hash_step_congr cs : forall h h',
  h mod 2 ^ 32 = h' mod 2 ^ 32 ->
  fold_left hash_step cs h mod 2 ^ 32
  = fold_left (fun a c => 31 * a + c) cs h' mod 2 ^ 32.
Proof.
  induction cs as [| c cs IH]; intros h h' Hh; cbn [fold_left]; [exact Hh |].
  apply IH. rewrite hash_step_31, ToInt32_mod.
  rewrite <- Zplus_mod_idemp_l, <- Zmult_mod_idemp_r, Hh, Zmult_mod_idemp_r.
  now rewrite Zplus_mod_idemp_l.
Qed.

Lemma fold_hash_step_int32 cs : forall h,
  - 2 ^ 31 <= h < 2 ^ 31 -> - 2 ^ 31 <= fold_left hash_step cs h < 2 ^ 31.
Proof.
  induction cs as [| c cs IH]; intros h Hh; cbn [fold_left]; [exact Hh |].
  apply IH. rewrite hash_step_31. apply ToInt32_range.
Qed.

Lemma ToInt32_id z : - 2 ^ 31 <= z < 2 ^ 31 -> ToInt32 z = z.
Proof.
  intros Hz. unfold ToInt32. cbv zeta.
  destruct (Z.le_gt_cases 0 z) as [Hpos | Hneg].
  - rewrite Z.mod_small by lia.
    destruct (2 ^ 31 <=? z) eqn:E; [apply Z.leb_le in E; lia | reflexivity].
  - replace (z mod 2 ^ 32) with (z + 2 ^ 32).
    + destruct (2 ^ 31 <=? z + 2 ^ 32) eqn:E; [lia | apply Z.leb_gt in E; lia].
    + symmetry. rewrite <- (Z.mod_add z 1 (2 ^ 32)) by lia.
      rewrite Z.mul_1_l. apply Z.mod_small. lia.
Qed.

End HashFacts.

(** X1.  The hash is the polynomial of the code units in base 31, wrapped to a
    signed 32-bit integer, in absolute value. *)
Theorem hashCodes_polynomial cs :
  Hash.hashCodes cs
  = Z.abs (Hash.ToInt32 (fold_left (fun a c => 31 * a + c) cs 0)).
Proof.
  unfold Hash.hashCodes. f_equal.
  rewrite <- (HashFacts.ToInt32_id (fold_left Hash.hash_step cs 0))
    by (apply HashFacts.fold_hash_step_int32; lia).
  apply HashFacts.ToInt32_congr, HashFacts.fold_hash_step_congr. reflexivity.
Qed.

(** X2.  The seed of a run is a natural number of at most 2^31. *)
Theorem hashString_range str : 0 <= Hash.hashString str <= 2 ^ 31.
Proof.
  unfold Hash.hashString, Hash.hashCodes.
  pose proof (HashFacts.fold_hash_step_int32 (Hash.charCodes str) 0 ltac:(lia)). lia.
Qed.

(** ** More on the widget state resolver *)

Lemma slash_name_eqb k : String.eqb ("/" +:+ k) "/Off" = String.eqb k "Off".
Proof. reflexivity. Qed.

(** X3.  [getCheckboxOnValues] reports exactly the keys other than [Off] of
    the normal appearance dictionaries, each with the index of its
    widget. *)
Theorem getCheckboxOnValues_sound_complete checkBox v :
  In v (getCheckboxOnValues checkBox)
  <-> exists w keys,
        widgets checkBox !! widget v = Some w
        /\ AP_N w = Some keys /\ In (value v) keys /\ value v <> "Off".
Proof.
  unfold getCheckboxOnValues. rewrite in_concat. split.
  - intros (l & Hl & Hv).
    apply list_elem_of_In, list_elem_of_lookup in Hl as [i Hi].
    rewrite list_lookup_imap in Hi.
    destruct (widgets checkBox !! i) as [w |] eqn:Hw; [| discriminate].
    cbn in Hi. injection Hi as <-.
    unfold widgetOnValues in Hv. destruct (AP_N w) as [keys |] eqn:Hk; [| contradiction].
    apply in_flat_map in Hv as (k & Hin & Hv).
    rewrite slash_name_eqb in Hv.
    destruct (String.eqb k "Off") eqn:E; cbn in Hv; [contradiction |].
    destruct Hv as [<- | []]. cbn. apply String.eqb_neq in E. eauto 6.
  - intros (w & keys & Hw & Hk & Hin & Hoff).
    exists (widgetOnValues (widget v) w). split.
    + apply list_elem_of_In, list_elem_of_lookup. exists (widget v).
      rewrite list_lookup_imap, Hw. reflexivity.
    + unfold widgetOnValues. rewrite Hk. apply in_flat_map.
      exists (value v). split; [exact Hin |].
      rewrite slash_name_eqb. apply String.eqb_neq in Hoff. rewrite Hoff. cbn.
      left. destruct v; reflexivity.
Qed.

(** X4.  A Yes/No field reports at least two on-values: the test for a
    multi-widget field holds for it too, so the order of the two tests in
    the filler decides. *)
Theorem isYesNoCheckbox_isMultiWidgetCheckbox onValues :
  isYesNoCheckbox onValues = true -> isMultiWidgetCheckbox onValues = true.
Proof.
  unfold isYesNoCheckbox, isMultiWidgetCheckbox. intros Hyn.
  apply andb_prop in Hyn as [Hyes Hno].
  apply existsb_exists in Hyes as (y & Hy & Ey). apply String.eqb_eq in Ey.
  apply existsb_exists in Hno as (n & Hn & En). apply String.eqb_eq in En.
  apply Nat.ltb_lt.
  destruct onValues as [| a [| b l]]; cbn in *; [contradiction | | lia].
  destruct Hy as [<- | []], Hn as [<- | []]. congruence.
Qed.

(** A selection leaves the appearance dictionaries alone: the field
    reports the same on-values after it. *)
Lemma getCheckboxOnValues_setMultiWidgetCheckboxValue checkBox targetValue onValues :
  getCheckboxOnValues (setMultiWidgetCheckboxValue checkBox targetValue onValues)
  = getCheckboxOnValues checkBox.
Proof.
  unfold getCheckboxOnValues. f_equal. apply list_eq. intros i.
  cbn [setMultiWidgetCheckboxValue widgets]. rewrite !list_lookup_imap.
  destruct (widgets checkBox !! i); reflexivity.
Qed.

(** X5.  The last selection wins: selecting [t1] and then [t2] leaves the
    field as selecting [t2] alone does; selecting twice is selecting
    once. *)
Theorem setMultiWidgetCheckboxValue_last_wins checkBox t1 t2 onValues :
  let once := setMultiWidgetCheckboxValue checkBox t1 onValues in
  getCheckboxOnValues once = getCheckboxOnValues checkBox
  /\ setMultiWidgetCheckboxValue once t2 (getCheckboxOnValues once)
     = setMultiWidgetCheckboxValue checkBox t2 (getCheckboxOnValues checkBox)
  /\ setMultiWidgetCheckboxValue once t1 onValues = once.
Proof.
  intros once. split; [apply getCheckboxOnValues_setMultiWidgetCheckboxValue |].
  split.
  - subst once. rewrite getCheckboxOnValues_setMultiWidgetCheckboxValue.
    unfold setMultiWidgetCheckboxValue. cbn [widgets V]. f_equal.
    apply list_eq. intros i. rewrite !list_lookup_imap.
    destruct (widgets checkBox !! i); reflexivity.
  - subst once. unfold setMultiWidgetCheckboxValue. cbn [widgets V]. f_equal.
    apply list_eq. intros i. rewrite !list_lookup_imap.
    destruct (widgets checkBox !! i); reflexivity.
Qed.

(** X6.  A target that no widget reports as its on-value switches every
    widget off, while the field value still names the target. *)
Theorem setMultiWidgetCheckboxValue_unreported checkBox targetValue onValues :
  (forall v, In v onValues -> value v <> targetValue) ->
  let checkBox' := setMultiWidgetCheckboxValue checkBox targetValue onValues in
  V checkBox' = Some targetValue
  /\ Forall (fun w => AS w = Some "Off") (widgets checkBox')
  /\ activeOnStates checkBox' = [].
Proof.
  intros Hno checkBox'.
  assert (Hoff : Forall (fun w => AS w = Some "Off") (widgets checkBox')).
  { apply Forall_forall. intros w Hw.
    apply list_elem_of_lookup in Hw as [i Hi].
    apply setMultiWidgetCheckboxValue_lookup in Hi. rewrite Hi. f_equal.
    unfold widgetState.
    destruct (List.find _ onValues) as [v |] eqn:Hf; [| reflexivity].
    apply find_some in Hf as [Hin _].
    destruct (String.eqb (value v) targetValue) eqn:E; [| reflexivity].
    apply String.eqb_eq in E. now apply Hno in Hin. }
  split; [reflexivity |]. split; [exact Hoff |].
  unfold activeOnStates.
  replace (List.filter _ (omap AS (widgets checkBox'))) with (@nil string); [reflexivity |].
  symmetry. induction Hoff as [| w ws Hw _ IH]; [reflexivity |].
  cbn. rewrite Hw. cbn. exact IH.
Qed.

Section MoreApplyFacts.
Variables check uncheck : CheckBox -> CheckBox.

(** X7.  On a field with several on-values that is not a Yes/No pair, the
    value [true] of a boolean mapping selects the first on-value
    reported: the widget of that on-value is active and no other state
    is. *)
Theorem applyCheckbox_true_selects_first mappingType checkBox first rest :
  mappingType <> TCheckboxMulti ->
  getCheckboxOnValues checkBox = first :: rest ->
  isYesNoCheckbox (first :: rest) = false ->
  rest <> [] ->
  exists checkBox' w,
    applyCheckbox check uncheck mappingType (VBool true) checkBox
    = Done checkBox'
        (Some {| filled_value := value first; filled_type := "checkbox-multi" |})
    /\ V checkBox' = Some (value first)
    /\ widgets checkBox' !! widget first = Some w
    /\ AS w = Some (value first)
    /\ (forall s, s ∈ activeOnStates checkBox' -> s = value first).
Proof.
  intros Hty Hov Hyn Hrest.
  assert (Hlt : (widget first < List.length (widgets checkBox))%nat).
  { apply getCheckboxOnValues_widget. rewrite Hov. now left. }
  set (checkBox' := setMultiWidgetCheckboxValue checkBox (value first) (first :: rest)).
  assert (Hlen : List.length (widgets checkBox') = List.length (widgets checkBox))
    by (cbn; apply length_imap).
  rewrite <- Hlen in Hlt. apply lookup_lt_is_Some in Hlt as [w Hi].
  exists checkBox', w. split.
  { unfold applyCheckbox. cbv zeta. rewrite Hov, Hyn.
    assert (Hm : isMultiWidgetCheckbox (first :: rest) = true)
      by (destruct rest; [congruence | reflexivity]).
    rewrite Hm. destruct first. destruct mappingType; try congruence; reflexivity. }
  split; [reflexivity |]. split; [exact Hi |]. split.
  - apply setMultiWidgetCheckboxValue_lookup in Hi. rewrite Hi. f_equal.
    unfold widgetState. cbn [List.find]. rewrite Nat.eqb_refl.
    now rewrite String.eqb_refl.
  - apply activeOnStates_target.
Qed.
End MoreApplyFacts.

(** ** More on the generator object *)

Section MoreGeneratorFacts.
Context {num : Type} `{JSNumber num}.
Variable F : Faker num.
Variable B : Type.

(** X8.  Without AI, that is with [useAI] off or without a callback,
    [getAIValue] does not invoke the backend and writes nothing: it
    returns the pre-selected description for the two description
    categories and the empty string for any other. *)
Theorem getAIValue_without_AI (this : DataGenerator B) fieldName prompt category
    (w : World F B) :
  useAI this = false \/ aiCallback this = None ->
  getAIValue F B this fieldName prompt category w
  = (if String.eqb category "disability_description"
     then description1 (disability (data this))
     else if String.eqb category "disability_description_continued"
          then description2 (disability (data this))
          else "",
     this, w).
Proof.
  intros Hoff. unfold getAIValue.
  destruct Hoff as [-> | ->]; [| destruct (useAI this)];
    repeat (destruct (String.eqb category _)); reflexivity.
Qed.

(** A category with a stored text that is not empty is answered from
    [aiContent]: the world is left as it is. *)
Lemma getAIValue_hit (this : DataGenerator B) callback content fieldName prompt category
    text (w : World F B) :
  useAI this = true ->
  aiCallback this = Some callback ->
  aiContent (data this) = Some content ->
  content !! category = Some text ->
  text <> "" ->
  getAIValue F B this fieldName prompt category w = (text, this, w).
Proof.
  intros Hai Hcb Hc Hl Ht. unfold getAIValue. rewrite Hai, Hcb, Hc.
  change (default ∅ (Some content)) with content.
  unfold cachedContent. rewrite Hl.
  destruct (String.eqb text "") eqn:E; [apply String.eqb_eq in E; congruence |].
  f_equal. f_equal. destruct this as [r s u a d]. cbn in *. unfold set_data. cbn.
  f_equal. destruct d. cbn in *. unfold set_aiContent. cbn. now rewrite Hc.
Qed.

(** X9.  On a miss the backend is invoked once, with the prompt and the
    category; its text is returned, stored under the category beside the
    texts of the other categories, and written to the file of the run;
    the files of the other runs are left alone. *)
Theorem getAIValue_miss (this : DataGenerator B) callback fieldName prompt category
    (w : World F B) text this' w' :
  useAI this = true ->
  aiCallback this = Some callback ->
  cachedContent (default ∅ (aiContent (data this))) category = None ->
  getAIValue F B this fieldName prompt category w = (text, this', w') ->
  let content := default ∅ (aiContent (data this)) in
  text = fst (callback prompt category (set_aiContent (data this) content)
                (backend_state w))
  /\ backend_calls w' = (backend_calls w ++ [(prompt, category)])%list
  /\ aiContent (data this') = Some (<[category := text]> content)
  /\ (forall other, other <> category ->
        default ∅ (aiContent (data this')) !! other = content !! other)
  /\ files w' !! this_runId this = Some (data this')
  /\ (forall rid, rid <> this_runId this -> files w' !! rid = files w !! rid)
  /\ this_runId this' = this_runId this
  /\ disability (data this') = disability (data this)
  /\ checkboxes (data this') = checkboxes (data this).
Proof.
  intros Hai Hcb Hmiss Hget content. unfold getAIValue in Hget.
  rewrite Hai, Hcb in Hget. fold content in Hget. unfold content in Hmiss.
  fold content in Hmiss. rewrite Hmiss in Hget.
  cbn [data set_data] in Hget.
  destruct (callback prompt category _ (backend_state w)) as [t b] eqn:Ecall.
  injection Hget as <- <- <-. cbn.
  repeat split; try reflexivity.
  - intros other Hne. now rewrite lookup_insert_ne.
  - now rewrite lookup_insert_eq.
  - intros rid Hne. now rewrite lookup_insert_ne.
Qed.

(** X10.  Generated text survives the process: once a text that is not empty
    has been generated for a category, a generator made later for the
    same run, over the data directory as the call left it, answers the
    category with that text and does not invoke the backend. *)
Theorem getAIValue_persists (this : DataGenerator B) callback fieldName prompt category
    (w : World F B) text this1 w1 options clk (w2 : World F B) callback2
    fieldName2 prompt2 :
  useAI this = true ->
  aiCallback this = Some callback ->
  cachedContent (default ∅ (aiContent (data this))) category = None ->
  getAIValue F B this fieldName prompt category w = (text, this1, w1) ->
  text <> "" ->
  files w2 !! this_runId this = files w1 !! this_runId this ->
  opt_useAI options = true ->
  opt_aiCallback options = Some callback2 ->
  exists this2,
    new_DataGenerator F B (this_runId this) options clk w2 = Some (this2, w2)
    /\ data this2 = data this1
    /\ getAIValue F B this2 fieldName2 prompt2 category w2 = (text, this2, w2).
Proof.
  intros Hai Hcb Hmiss Hget Htext Hfiles Hopt Hcb2.
  assert (Hstored : aiContent (data this1)
                    = Some (<[category := text]> (default ∅ (aiContent (data this))))
                    /\ files w1 !! this_runId this = Some (data this1)).
  { unfold getAIValue in Hget. rewrite Hai, Hcb, Hmiss in Hget.
    cbn [data set_data] in Hget.
    destruct (callback prompt category _ (backend_state w)) as [t b].
    injection Hget as <- <- <-. cbn. now rewrite lookup_insert_eq. }
  destruct Hstored as [Hcontent Hfile].
  rewrite Hfile in Hfiles.
  rewrite (new_DataGenerator_stored F B _ options clk _ _ Hfiles).
  eexists. split; [reflexivity |]. split; [reflexivity |].
  eapply getAIValue_hit; cbn; eauto. now rewrite lookup_insert_eq.
Qed.

(** X11.  Making a generator for a run reads and writes the file of that run
    only: the files of all other runs are left as they were. *)
Theorem new_DataGenerator_other_runs rid options clk (w : World F B) this w' :
  new_DataGenerator F B rid options clk w = Some (this, w') ->
  this_runId this = rid
  /\ files w' !! rid = Some (data this)
  /\ (forall other, other <> rid -> files w' !! other = files w !! other)
  /\ backend_calls w' = backend_calls w.
Proof.
  unfold new_DataGenerator.
  destruct (files w !! rid) as [d |] eqn:Hd.
  - intros [= <- <-]. cbn. auto.
  - destruct (generateBaseData F rid _ clk _) as [[d |] g]; [| discriminate].
    intros [= <- <-]. cbn. rewrite lookup_insert_eq.
    repeat split; try reflexivity. intros other Hne. now rewrite lookup_insert_ne.
Qed.

(** X12.  A field name that [checkboxMap] knows is resolved from the dataset:
    the probability plays no part and neither faker nor anything else of
    the world is touched.  A name it does not know is drawn from the
    stream seeded with the seed of the run plus the hash of the name, so
    the value does not depend on the draws made before. *)
Theorem getCheckboxValue_mapped_or_seeded (this : DataGenerator B) fieldName
    (p p' : option Q) (w w' : World F B) :
  (lookupKey checkboxMap fieldName <> None ->
   getCheckboxValue F B this fieldName p w
   = (fst (getCheckboxValue F B this fieldName p' w'), w))
  /\ (lookupKey checkboxMap fieldName = None ->
      fst (getCheckboxValue F B this fieldName p w)
      = fst (datatype_boolean F p
               (seed F (this_seed this + Hash.hashString fieldName)))
      /\ fst (getCheckboxValue F B this fieldName p w)
         = fst (getCheckboxValue F B this fieldName p w')).
Proof.
  unfold getCheckboxValue. split.
  - intros Hk. destruct (lookupKey checkboxMap fieldName) as [[name | b | f] |];
      [reflexivity | reflexivity | reflexivity | congruence].
  - intros ->. destruct (datatype_boolean F p _). split; reflexivity.
Qed.
Lemma walkParts_falsy pre : forall path part rest,
  falsyMember F (member F (path ++ pre ++ [part])%list) = true ->
  walkParts F path (pre ++ part :: rest)%list = None.
Proof.
  induction pre as [| p pre IH]; intros path part rest Hfalsy; cbn [app walkParts].
  - cbn [app] in Hfalsy. now rewrite Hfalsy.
  - destruct (falsyMember F (member F (path ++ [p])%list)); [reflexivity |].
    apply IH. now rewrite <- app_assoc.
Qed.

(** X26.  [getFakerValue] on a method name with a part that faker does not
    have (or that is falsy), wherever in the path it stands: the value is
    the empty string, whatever the arguments; faker is left freshly
    seeded with the seed of the run, and nothing else of the world is
    touched. *)
Theorem getFakerValue_unknown_method (this : DataGenerator B) method args
    (w : World F B) pre part rest :
  split_dot method = (pre ++ part :: rest)%list ->
  falsyMember F (member F (pre ++ [part])%list) = true ->
  getFakerValue F B this method args w
  = (VStr "", set_faker_state F B w (seed F (this_seed this)))
  /\ files (snd (getFakerValue F B this method args w)) = files w
  /\ backend_calls (snd (getFakerValue F B this method args w)) = backend_calls w.
Proof.
  intros Hparts Hfalsy.
  assert (Hget : getFakerValue F B this method args w
                 = (VStr "", set_faker_state F B w (seed F (this_seed this)))).
  { unfold getFakerValue. rewrite Hparts.
    now rewrite (walkParts_falsy pre [] part rest Hfalsy). }
  rewrite Hget. repeat split.
Qed.
End MoreGeneratorFacts.

(** ** More on the builder *)

Section MoreBuilderFacts.
Context {num : Type} `{JSNumber num}.
Variable F : Faker num.
Hypothesis HF : FakerSpec F.

(** What the loop appends: for each week number in turn a record with
    that number, the week end date that many weeks of calendar days
    before the last day worked, a number of days drawn between 4 and 5
    and the base wage plus a drawn variation, rounded to cents. *)
Lemma weeklyWagesLoop_records zone ldw base weeks : forall acc g,
  exists records,
    fst (weeklyWagesLoop F zone ldw base weeks acc g) = (acc ++ records)%list
    /\ Forall2
         (fun i w =>
            weekNumber w = i
            /\ weekEndDate w
               = JSDate.setDate zone ldw (JSDate.getDate zone ldw - 7 * (i - 1))
            /\ 4 <= daysWorked w <= 5
            /\ exists g0,
                 grossAmount w
                 = roundToCents (n_add base (fst (number_float F (-100) 100 2 g0))))
         weeks records.
Proof.
  induction weeks as [| i weeks IH]; intros acc g; cbn [weeklyWagesLoop].
  - exists []. split; [now rewrite app_nil_r | constructor].
  - unfold bind.
    destruct (number_int F 4 5 g) as [dw g1] eqn:Edw.
    destruct (number_float F (-100) 100 2 g1) as [delta g2] eqn:Ed.
    edestruct IH as (records & Hr & Hall). rewrite Hr.
    eexists (_ :: records). split; [now rewrite <- app_assoc |].
    constructor; [| exact Hall]. cbn.
    split; [reflexivity |]. split; [reflexivity |].
    split.
    + pose proof (number_int_range F HF 4 5 g ltac:(lia)) as Hdw.
      now rewrite Edw in Hdw.
    + exists g1. now rewrite Ed.
Qed.

(** The parts of a built dataset that the rules of the resolver read. *)
Lemma generateBaseData_parts rid sd clk g :
  exists d g0 start stop,
    fst (generateBaseData F rid sd clk g) = Some d
    /\ weeklyWages (wages d)
       = fst (weeklyWagesLoop F (tz clk) (lastDayWorked (dates d))
                (baseWeeklyWage (wages d)) [1; 2; 3; 4; 5; 6; 7; 8] [] g0)
    /\ (data_union d = None <-> unionMember (checkboxes d) = false)
    /\ (forall u, data_union d = Some u ->
          exists n noun,
            1 <= n <= 999
            /\ union_name u = "Local " +:+ pretty n +:+ " - " +:+ noun +:+ " Workers Union")
    /\ claimedPeriodStart (priorBenefits d)
       = (if receivingWages (checkboxes d) then Some start else None)
    /\ claimedPeriodEnd (priorBenefits d)
       = (if receivingWages (checkboxes d) then Some stop else None)
    /\ priorDisabilityStart (priorBenefits d)
       = (if priorDisability (checkboxes d) then Some start else None)
    /\ priorDisabilityEnd (priorBenefits d)
       = (if priorDisability (checkboxes d) then Some stop else None)
    /\ priorPFLStart (priorBenefits d)
       = (if priorPFL (checkboxes d) then Some start else None)
    /\ priorPFLEnd (priorBenefits d)
       = (if priorPFL (checkboxes d) then Some stop else None)
    /\ (exists days,
          14 <= days <= 60
          /\ stop = JSDate.setDate (tz clk) start
                      (JSDate.getDate (tz clk) start + days))
    /\ contactPhone (employer d) = employer_phone (employer d)
    /\ (exists gp, contactPhone (employer d) = fst (phone_number F "(###) ###-####" gp))
    /\ (exists months,
          6 <= months <= 10
          /\ start = JSDate.setMonth (tz clk) (disabilityStart (dates d))
                       (JSDate.getMonth (tz clk) (disabilityStart (dates d)) - months)).
Proof.
  run_builder;
    sample_entry F HF;
    try match goal with
    | E : number_int F 1 999 ?g1 = (?n, _) |- _ =>
        pose proof (number_int_range F HF 1 999 g1 ltac:(lia)) as Hlocal;
        rewrite E in Hlocal; cbn [fst] in Hlocal
    end;
    match goal with
    | E : number_int F 6 10 ?g1 = (?n, _) |- _ =>
        pose proof (number_int_range F HF 6 10 g1 ltac:(lia)) as Hmonths;
        rewrite E in Hmonths; cbn [fst] in Hmonths
    end;
    match goal with
    | E : number_int F 14 60 ?g1 = (?n, _) |- _ =>
        pose proof (number_int_range F HF 14 60 g1 ltac:(lia)) as Hdays;
        rewrite E in Hdays; cbn [fst] in Hdays
    end;
    match goal with
    | E : weeklyWagesLoop F _ _ _ _ _ ?g1 = _ |- _ =>
        eexists _, g1, _, _; split; [reflexivity |];
        cbn [wages weeklyWages dates lastDayWorked baseWeeklyWage data_union checkboxes
             priorBenefits claimedPeriodStart claimedPeriodEnd priorDisabilityStart
             priorDisabilityEnd priorPFLStart priorPFLEnd employer contactPhone
             employer_phone disabilityStart];
        rewrite E
    end;
    repeat match goal with
           | E : unionMember _ = _ |- _ => rewrite E; clear E
           end;
    cbn [fst snd];
    (split; [reflexivity |]);
    (split; [split; congruence |]);
    (split; [intros u [= <-]; cbn; eauto | ]);
    repeat (split; [reflexivity |]);
    (split; [eexists; split; [eassumption | reflexivity] |]);
    (split; [reflexivity |]);
    (split; [match goal with
             | E : phone_number F "(###) ###-####" ?gp = _ |- _ =>
                 exists gp; rewrite E; reflexivity
             end |]);
    (eexists; split; [eassumption | reflexivity]).
Qed.
End MoreBuilderFacts.

(** ** formatDate *)

Lemma civil_day_range z : 1 <= snd (JSDate.civil_from_days z) <= 31.
Proof.
  unfold JSDate.civil_from_days. cbv zeta. cbn [fst snd].
  set (era := (z + 719468) / 146097).
  set (doe := z + 719468 - era * 146097).
  assert (Hdoe : 0 <= doe < 146097) by (subst doe era; Z.div_mod_to_equations; lia).
  destruct (JSDateFacts.doy_range doe Hdoe) as [Hy Hd].
  set (yoe := (doe - doe / 1460 + doe / 36524 - doe / 146096) / 365) in *.
  set (doy := doe - (365 * yoe + yoe / 4 - yoe / 100)) in *.
  clearbody doy. Z.div_mod_to_equations. lia.
Qed.

Lemma append_inj_length (s1 s2 r1 r2 : string) :
  String.length s1 = String.length s2 ->
  s1 +:+ r1 = s2 +:+ r2 -> s1 = s2 /\ r1 = r2.
Proof.
  revert s2. induction s1 as [| a s1 IH]; intros [| b s2] Hlen Heq;
    try discriminate; [now split |].
  cbn in Heq. injection Heq as -> Heq. injection Hlen as Hlen.
  destruct (IH s2 Hlen Heq) as [-> ->]. now split.
Qed.

(** The two-digit, zero-padded decimals of the numbers 1 to 31 have two
    characters and are pairwise different. *)
Lemma padStart2_table :
  forallb
    (fun a =>
       Nat.eqb (String.length (padStart 2 (pretty a))) 2
       && forallb
            (fun b =>
               implb (String.eqb (padStart 2 (pretty a)) (padStart 2 (pretty b)))
                     (a =? b))
            (List.map Z.of_nat (seq 1 31)))
    (List.map Z.of_nat (seq 1 31)) = true.
Proof. vm_compute. reflexivity. Qed.

Lemma in_days a : 1 <= a <= 31 -> In a (List.map Z.of_nat (seq 1 31)).
Proof.
  intros Ha. apply in_map_iff. exists (Z.to_nat a). split; [lia |].
  apply in_seq. lia.
Qed.

Lemma padStart2_length a : 1 <= a <= 31 -> String.length (padStart 2 (pretty a)) = 2%nat.
Proof.
  intros Ha. pose proof padStart2_table as Ht.
  rewrite forallb_forall in Ht. specialize (Ht a (in_days a Ha)).
  apply andb_prop in Ht as [Hl _]. now apply Nat.eqb_eq.
Qed.

Lemma padStart2_inj a b :
  1 <= a <= 31 -> 1 <= b <= 31 ->
  padStart 2 (pretty a) = padStart 2 (pretty b) -> a = b.
Proof.
  intros Ha Hb Heq. pose proof padStart2_table as Ht.
  rewrite forallb_forall in Ht. specialize (Ht a (in_days a Ha)).
  apply andb_prop in Ht as [_ Hi].
  rewrite forallb_forall in Hi. specialize (Hi b (in_days b Hb)).
  rewrite Heq, String.eqb_refl in Hi. cbn in Hi. now apply Z.eqb_eq.
Qed.

Lemma getMonth_range zone t : 1 <= JSDate.getMonth zone t + 1 <= 12.
Proof.
  unfold JSDate.getMonth.
  pose proof (JSDateFacts.MonthFromTime_range (JSDate.LocalTime zone t)). lia.
Qed.

Lemma getDate_range zone t : 1 <= JSDate.getDate zone t <= 31.
Proof. unfold JSDate.getDate, JSDate.DateFromTime. apply civil_day_range. Qed.

(** X13.  [formatDate] prints the month and the day with two characters each,
    and two dates print the same full text exactly when they fall on the
    same local calendar day. *)
Theorem formatDate_calendar_day zone a b :
  String.length (Formatted.month (formatDate zone a)) = 2%nat
  /\ String.length (Formatted.day (formatDate zone a)) = 2%nat
  /\ (Formatted.full (formatDate zone a) = Formatted.full (formatDate zone b)
      <-> JSDate.Day (JSDate.LocalTime zone a) = JSDate.Day (JSDate.LocalTime zone b)).
Proof.
  split; [apply padStart2_length; pose proof (getMonth_range zone a); lia |].
  split; [apply padStart2_length, getDate_range |].
  split.
  - unfold formatDate. cbv zeta. cbn [Formatted.full]. intros Heq.
    assert (Hma : 1 <= JSDate.getMonth zone a + 1 <= 31)
      by (pose proof (getMonth_range zone a); lia).
    assert (Hmb : 1 <= JSDate.getMonth zone b + 1 <= 31)
      by (pose proof (getMonth_range zone b); lia).
    pose proof (getDate_range zone a) as Hda.
    pose proof (getDate_range zone b) as Hdb.
    apply append_inj_length in Heq as [Hm Heq];
      [| now rewrite !padStart2_length].
    apply append_inj_length in Heq as [_ Heq]; [| reflexivity].
    apply append_inj_length in Heq as [Hd Heq];
      [| now rewrite !padStart2_length].
    apply append_inj_length in Heq as [_ Hy]; [| reflexivity].
    apply padStart2_inj in Hm; [| assumption | assumption].
    apply padStart2_inj in Hd; [| assumption | assumption].
    apply (inj pretty) in Hy.
    unfold JSDate.getMonth, JSDate.MonthFromTime, JSDate.getDate, JSDate.DateFromTime,
      JSDate.getFullYear, JSDate.YearFromTime in *.
    rewrite <- (JSDateFacts.days_from_civil_of_days (JSDate.Day (JSDate.LocalTime zone a))).
    rewrite <- (JSDateFacts.days_from_civil_of_days (JSDate.Day (JSDate.LocalTime zone b))).
    f_equal; lia.
  - intros Hday. unfold formatDate, JSDate.getMonth, JSDate.MonthFromTime, JSDate.getDate,
      JSDate.DateFromTime, JSDate.getFullYear, JSDate.YearFromTime.
    cbv zeta. now rewrite Hday.
Qed.

(** ** The rules of getCalculatedValue *)

Section CalculatedFacts.
Context {num : Type} `{JSNumber num}.
Variable F : Faker num.
Variable B : Type.
Variable toFixed2 : num -> string.

(** In a ledger of the weeks 1 to 8 a week is found by its number, and
    only a number from 1 to 8 finds one. *)
Lemma findWeek_ledger (d : Dataset num) :
  List.map weekNumber (weeklyWages (wages d)) = [1; 2; 3; 4; 5; 6; 7; 8] ->
  (forall n, 1 <= n <= 8 ->
     exists wk, findWeek d (VNum n) = Some wk
                /\ List.nth_error (weeklyWages (wages d)) (Z.to_nat (n - 1)) = Some wk
                /\ weekNumber wk = n)
  /\ (forall n, ~ 1 <= n <= 8 -> findWeek d (VNum n) = None)
  /\ (forall v, (forall n, v <> VNum n) -> findWeek d v = None).
Proof.
  unfold findWeek. set (l := weeklyWages (wages d)). clearbody l. intros Hl.
  destruct l as [| w1 [| w2 [| w3 [| w4 [| w5 [| w6 [| w7 [| w8 [| ? ?]]]]]]]]];
    try discriminate Hl.
  cbn in Hl. injection Hl as H1 H2 H3 H4 H5 H6 H7 H8.
  split; [| split].
  - intros n Hn. cbn [List.find]. rewrite H1, H2, H3, H4, H5, H6, H7, H8.
    assert (Hc : n = 1 \/ n = 2 \/ n = 3 \/ n = 4 \/ n = 5 \/ n = 6 \/ n = 7 \/ n = 8)
      by lia.
    destruct Hc as [-> | [-> | [-> | [-> | [-> | [-> | [-> | ->]]]]]]]; cbn; eauto.
  - intros n Hn. cbn [List.find]. rewrite H1, H2, H3, H4, H5, H6, H7, H8.
    repeat match goal with
           | |- context [?a =? n] =>
               replace (a =? n) with false by (symmetry; apply Z.eqb_neq; lia)
           end.
    reflexivity.
  - intros v Hv. destruct v; try reflexivity. now destruct (Hv z).
Qed.

Lemma week_rule (this : DataGenerator B) zone clockNow name found args (w : World F B) :
  generators F B toFixed2 this zone clockNow name
  = Some (fun weekNum w =>
            (match findWeek (data this) weekNum with
             | Some week => found week
             | None => VStr ""
             end, w)) ->
  getCalculatedValue F B toFixed2 this zone clockNow name args w
  = (match findWeek (data this) (match args with arg :: _ => arg | [] => VUndefined end) with
     | Some week => found week
     | None => VStr ""
     end, w).
Proof. intros Hr. unfold getCalculatedValue. rewrite Hr. now destruct args. Qed.

Hypothesis HF : FakerSpec F.

End CalculatedFacts.

(** ** The phone pattern *)

Module PhonePatternFacts.
Import PhonePattern.

Lemma digits_sound n : forall s ds rest,
  digits n s = Some (ds, rest) -> s = ds +:+ rest /\ digitString n ds.
Proof.
  induction n as [| n IH]; intros s ds rest Hd; cbn [digits] in Hd.
  - injection Hd as <- <-. repeat split.
  - destruct s as [| a s]; [discriminate |].
    destruct (isDigit a) eqn:Ea; [| discriminate].
    destruct (digits n s) as [[ds' rest'] |] eqn:E; [| discriminate].
    injection Hd as <- <-. destruct (IH _ _ _ E) as (-> & Hl & Hall).
    change (String a ds' +:+ rest') with (String a (ds' +:+ rest')).
    repeat split; cbn [String.length allDigits];
      [now rewrite Hl | now rewrite Ea].
Qed.

Lemma digits_complete n : forall ds rest,
  digitString n ds -> digits n (ds +:+ rest) = Some (ds, rest).
Proof.
  induction n as [| n IH]; intros ds rest [Hl Hall].
  - destruct ds; [reflexivity | discriminate].
  - destruct ds as [| a ds]; [discriminate |].
    cbn [allDigits String.length] in Hall, Hl.
    change (String a ds +:+ rest) with (String a (ds +:+ rest)). cbn [digits].
    apply andb_prop in Hall as [-> Hall]. injection Hl as Hl.
    now rewrite (IH ds rest (conj Hl Hall)).
Qed.

Lemma append_empty_r (s : string) : s +:+ "" = s.
Proof.
  induction s as [| x s IH]; [reflexivity |].
  change (String x s +:+ "") with (String x (s +:+ "")). now rewrite IH.
Qed.

Lemma digits_exact n ds : digitString n ds -> digits n ds = Some (ds, "").
Proof.
  intros Hd. rewrite <- (append_empty_r ds) at 1. now apply digits_complete.
Qed.

Lemma firstOf_Some {A} (f : string -> option A) alternatives r :
  firstOf f alternatives = Some r -> exists s, In s alternatives /\ f s = Some r.
Proof.
  induction alternatives as [| s l IH]; cbn; [discriminate |].
  destruct (f s) eqn:E.
  - intros [= <-]. eauto.
  - intros Hr. destruct (IH Hr) as (s' & Hin & Hs). eauto.
Qed.

Lemma matchHere_sound s g1 g2 g3 :
  matchHere s = Some (g1, g2, g3) ->
  digitString 3 g1 /\ digitString 3 g2 /\ digitString 4 g3.
Proof.
  unfold matchHere. intros Hm.
  apply firstOf_Some in Hm as (s1 & _ & Hm).
  destruct (digits 3 s1) as [[a r1] |] eqn:E1; [| discriminate].
  apply firstOf_Some in Hm as (s2 & _ & Hm).
  apply firstOf_Some in Hm as (s3 & _ & Hm).
  destruct (digits 3 s3) as [[b r2] |] eqn:E2; [| discriminate].
  apply firstOf_Some in Hm as (s4 & _ & Hm).
  destruct (digits 4 s4) as [[c r3] |] eqn:E3; [| discriminate].
  injection Hm as <- <- <-.
  apply digits_sound in E1 as [_ H1], E2 as [_ H2], E3 as [_ H3]. auto.
Qed.

Lemma isDigit_not_paren a :
  isDigit a = true ->
  Ascii.eqb "("%char a = false /\ Ascii.eqb ")"%char a = false
  /\ isSeparator a = false.
Proof.
  intros Ha. repeat split.
  - apply Ascii.eqb_neq. intros <-. discriminate Ha.
  - apply Ascii.eqb_neq. intros <-. discriminate Ha.
  - unfold isDigit, isSeparator in *. cbv zeta in *.
    apply andb_prop in Ha as [Hlo Hhi].
    apply Nat.leb_le in Hlo, Hhi.
    repeat match goal with
           | |- context [Nat.leb ?x ?y] =>
               destruct (Nat.leb_spec x y); try lia
           | |- context [Nat.eqb ?x ?y] =>
               destruct (Nat.eqb_spec x y); try lia
           end; reflexivity.
Qed.

Lemma digitString_head n a s : digitString (S n) (String a s) -> isDigit a = true.
Proof. intros [_ Hall]. cbn in Hall. now apply andb_prop in Hall. Qed.

Lemma search_matchHere s groups : matchHere s = Some groups -> search s = Some groups.
Proof. intros Hm. destruct s; cbn [search]; now rewrite Hm. Qed.

Lemma matchHere_parenthesised a b c :
  digitString 3 a -> digitString 3 b -> digitString 4 c ->
  matchHere ("(" +:+ a +:+ ") " +:+ b +:+ "-" +:+ c) = Some (a, b, c).
Proof.
  intros Ha Hb Hc. unfold matchHere.
  change ("(" +:+ a +:+ ") " +:+ b +:+ "-" +:+ c)
    with (String "("%char (a +:+ (String ")"%char (String " "%char (b +:+ (String "-"%char c)))))).
  cbn [optional Ascii.eqb Bool.eqb firstOf].
  rewrite (digits_complete 3 a _ Ha).
  cbn [optional Ascii.eqb Bool.eqb firstOf].
  change (isSeparator " "%char) with true. cbn [firstOf].
  rewrite (digits_complete 3 b _ Hb).
  change (optional isSeparator (String "-"%char c)) with [c; String "-"%char c].
  cbn [firstOf].
  now rewrite (digits_exact 4 c Hc).
Qed.

Lemma matchHere_hyphenated a b c :
  digitString 3 a -> digitString 3 b -> digitString 4 c ->
  matchHere (a +:+ "-" +:+ b +:+ "-" +:+ c) = Some (a, b, c).
Proof.
  intros Ha Hb Hc. unfold matchHere.
  destruct a as [| a1 a']; [destruct Ha; discriminate |].
  destruct (isDigit_not_paren a1 (digitString_head _ _ _ Ha)) as (Hopen & _ & _).
  change (String a1 a' +:+ "-" +:+ b +:+ "-" +:+ c)
    with (String a1 (a' +:+ "-" +:+ b +:+ "-" +:+ c)).
  cbn [optional]. rewrite Hopen. cbn [firstOf].
  change (String a1 (a' +:+ "-" +:+ b +:+ "-" +:+ c))
    with (String a1 a' +:+ String "-"%char (b +:+ String "-"%char c)).
  rewrite (digits_complete 3 _ _ Ha).
  cbn [optional Ascii.eqb Bool.eqb firstOf].
  change (isSeparator "-"%char) with true. cbn [firstOf].
  rewrite (digits_complete 3 b _ Hb).
  change (optional isSeparator (String "-"%char c)) with [c; String "-"%char c].
  cbn [firstOf].
  now rewrite (digits_exact 4 c Hc).
Qed.

Lemma matchHere_no_digit s : hasDigit s = false -> matchHere s = None.
Proof.
  intros Hs. unfold matchHere.
  assert (Hd : forall t, hasDigit t = false -> digits 3 t = None).
  { intros [| x t] Ht; [reflexivity |]. cbn in Ht |- *.
    apply orb_false_elim in Ht as [-> _]. reflexivity. }
  destruct s as [| x s]; [reflexivity |].
  cbn [optional]. pose proof Hs as Hs'. cbn in Hs'.
  apply orb_false_elim in Hs' as [_ Hs'].
  destruct (Ascii.eqb "("%char x); cbn [firstOf];
    rewrite ?(Hd s Hs'), (Hd _ Hs); reflexivity.
Qed.

Lemma search_no_digit s : hasDigit s = false -> search s = None.
Proof.
  induction s as [| x s IH]; intros Hs.
  - reflexivity.
  - cbn [search]. rewrite (matchHere_no_digit _ Hs).
    cbn in Hs. apply orb_false_elim in Hs as [_ Hs]. now apply IH.
Qed.

Lemma search_sound s : forall g1 g2 g3,
  search s = Some (g1, g2, g3) ->
  digitString 3 g1 /\ digitString 3 g2 /\ digitString 4 g3.
Proof.
  induction s as [| x s IH]; intros g1 g2 g3 Hs; cbn [search] in Hs.
  - destruct (matchHere "") as [[[a b] c] |] eqn:E; [| discriminate].
    injection Hs as <- <- <-. now apply matchHere_sound in E.
  - destruct (matchHere (String x s)) as [[[a b] c] |] eqn:E.
    + injection Hs as <- <- <-. now apply matchHere_sound in E.
    + now apply IH.
Qed.

End PhonePatternFacts.

(** X15.  The pattern of the phone rules yields three groups of 3, 3 and 4
    decimal digits whenever it matches; it matches the two formats that
    the rules name, "(ddd) ddd-dddd" and "ddd-ddd-dddd", with the groups
    of the number; and it does not match a text without digits. *)
Theorem phone_pattern_groups :
  (forall s g1 g2 g3,
     PhonePattern.search s = Some (g1, g2, g3) ->
     digitString 3 g1 /\ digitString 3 g2 /\ digitString 4 g3)
  /\ (forall a b c,
        digitString 3 a -> digitString 3 b -> digitString 4 c ->
        PhonePattern.search ("(" +:+ a +:+ ") " +:+ b +:+ "-" +:+ c) = Some (a, b, c)
        /\ PhonePattern.search (a +:+ "-" +:+ b +:+ "-" +:+ c) = Some (a, b, c))
  /\ (forall s, hasDigit s = false -> PhonePattern.search s = None).
Proof.
  split; [exact PhonePatternFacts.search_sound |]. split; [| exact PhonePatternFacts.search_no_digit].
  intros a b c Ha Hb Hc. split; apply PhonePatternFacts.search_matchHere.
  - now apply PhonePatternFacts.matchHere_parenthesised.
  - now apply PhonePatternFacts.matchHere_hyphenated.
Qed.

Section CalculatedGates.
Context {num : Type} `{JSNumber num}.
Variable F : Faker num.
Variable B : Type.
Variable toFixed2 : num -> string.

Lemma padStart2_nonempty a : 1 <= a <= 31 -> padStart 2 (pretty a) <> "".
Proof.
  intros Ha Hempty. pose proof (padStart2_length a Ha) as Hl.
  rewrite Hempty in Hl. discriminate Hl.
Qed.

(** A date part of an absent date is the empty string, and no part of a
    present date is blank. *)
Lemma datePart_empty zone part date :
  In part [monthOf; dayOf; yearOf] ->
  (datePart zone part date = VStr "" <-> date = None)
  /\ (date <> None -> blank (datePart zone part date) = false).
Proof.
  intros Hpart.
  assert (Hsome : forall iso, blank (part (formatDate zone iso)) = false).
  { intros iso. cbn in Hpart. destruct Hpart as [<- | [<- | [<- | []]]]; cbn.
    - apply String.eqb_neq, padStart2_nonempty.
      pose proof (getMonth_range zone iso). lia.
    - apply String.eqb_neq, padStart2_nonempty, getDate_range.
    - reflexivity. }
  destruct date as [iso |]; cbn [datePart].
  - split; [| intros _; apply Hsome].
    split; [| discriminate]. intros Hempty. specialize (Hsome iso).
    rewrite Hempty in Hsome. discriminate Hsome.
  - split; [tauto | congruence].
Qed.

(** X16.  The rule of the Received/Claimed field.  When none of the seven
    benefit states of item 13 is set it resolves to [null] and touches
    nothing, and the filler then leaves the checkbox field as it is and
    reports nothing.  Otherwise it is "Received" or "Claimed", drawn from
    the stream seeded with the seed of the run plus 99999: the same
    whatever was drawn before. *)
Theorem receivedOrClaimed_rule (this : DataGenerator B) zone clockNow args
    (w w' : World F B) check uncheck checkBox :
  let cb := checkboxes (data this) in
  let anyBenefitsChecked :=
    (receivingWages cb || unemploymentBenefits cb || paidFamilyLeave cb
     || workersComp cb || noFaultAccident cb || thirdPartyInjury cb
     || longTermDisability cb)%bool in
  let resolve w := getCalculatedValue F B toFixed2 this zone clockNow
                     "receivedOrClaimed" args w in
  (anyBenefitsChecked = false ->
   resolve w = (VNull, w)
   /\ applyCheckbox check uncheck TCheckboxMulti (fst (resolve w)) checkBox
      = Done checkBox None)
  /\ (anyBenefitsChecked = true ->
      (fst (resolve w) = VStr "Received" \/ fst (resolve w) = VStr "Claimed")
      /\ fst (resolve w) = fst (resolve w')
      /\ fst (resolve w)
         = VStr (if fst (datatype_boolean F None (seed F (this_seed this + 99999)))
                 then "Received" else "Claimed")).
Proof.
  intros cb anyBenefitsChecked resolve.
  assert (Hr : forall w0,
             resolve w0
             = if negb anyBenefitsChecked then (VNull, w0)
               else let (received, g') :=
                      datatype_boolean F None (seed F (this_seed this + 99999)) in
                    (VStr (if received then "Received" else "Claimed"),
                     set_faker_state F B w0 g')).
  { intros w0. subst resolve. unfold getCalculatedValue.
    match goal with
    | |- context [generators F B toFixed2 this zone clockNow ?name] =>
        let r := eval hnf in (generators F B toFixed2 this zone clockNow name) in
        change (generators F B toFixed2 this zone clockNow name) with r
    end.
    now destruct args. }
  split; intros Hany; rewrite !Hr, Hany; cbn [negb].
  - split; reflexivity.
  - destruct (datatype_boolean F None _) as [[|] g']; cbn; auto.
Qed.

Hypothesis HF : FakerSpec F.

Lemma period_rules_value rid sd clk g :
  exists d,
    fst (generateBaseData F rid sd clk g) = Some d
    /\ forall (this : DataGenerator B) zone clockNow (w : World F B),
         data this = d ->
         Forall
           (fun '(name, gate) =>
              exists part t,
                In part [monthOf; dayOf; yearOf]
                /\ getCalculatedValue F B toFixed2 this zone clockNow name [] w
                   = (datePart zone part
                        (if gate (checkboxes d) : bool then Some t else None), w))
           periodRules.
Proof.
  destruct (generateBaseData_parts F HF rid sd clk g)
    as (d & g0 & start & stop & Hd & _ & _ & _ & H1 & H2 & H3 & H4 & H5 & H6 & _).
  exists d. split; [exact Hd |].
  intros this zone clockNow w Hdata.
  unfold periodRules. repeat constructor;
    unfold getCalculatedValue;
    match goal with
    | |- context [generators F B toFixed2 this zone clockNow ?name] =>
        let r := eval hnf in (generators F B toFixed2 this zone clockNow name) in
        change (generators F B toFixed2 this zone clockNow name) with r
    end;
    cbn [fst snd pureRule]; rewrite Hdata;
    rewrite ?H1, ?H2, ?H3, ?H4, ?H5, ?H6;
    eexists _, _; (split; [| reflexivity]); cbn; tauto.
Qed.

(** X17.  The date fields of items 13, 14 and 15 on a built dataset.  Each
    part (month, day, year) of the start and of the end of a period
    resolves to the empty string exactly when the checkbox state of its
    item is false, and the filler then leaves the text field as it is and
    reports nothing; when the state is true the value is not blank, so
    the filler writes it.  Resolving leaves the world alone. *)
Theorem period_fields_on_built_dataset rid sd clk g :
  exists d,
    fst (generateBaseData F rid sd clk g) = Some d
    /\ forall (this : DataGenerator B) zone clockNow (w : World F B)
         (TextField : Type) (setText : string -> TextField -> option TextField)
         (textField : TextField),
         data this = d ->
         Forall
           (fun '(name, gate) =>
              let resolved :=
                getCalculatedValue F B toFixed2 this zone clockNow name [] w in
              snd resolved = w
              /\ (fst resolved = VStr "" <-> gate (checkboxes d) = false)
              /\ (gate (checkboxes d) = false ->
                  applyText TextField setText TCalculated (fst resolved) textField
                  = TextDone textField None)
              /\ (gate (checkboxes d) = true -> blank (fst resolved) = false))
           periodRules.
Proof.
  destruct (period_rules_value rid sd clk g) as (d & Hd & Hrules).
  exists d. split; [exact Hd |].
  intros this zone clockNow w TextField setText textField Hdata.
  specialize (Hrules this zone clockNow w Hdata).
  eapply Forall_impl; [exact Hrules |].
  intros [name gate] (part & t & Hpart & Hv). cbv zeta. rewrite Hv. cbn [fst snd].
  destruct (datePart_empty zone part
              (if gate (checkboxes d) then Some t else None) Hpart) as [Hempty Hfull].
  split; [reflexivity |].
  destruct (gate (checkboxes d)).
  - split; [rewrite Hempty; split; discriminate |].
    split; [discriminate |]. intros _. apply Hfull. discriminate.
  - split; [rewrite Hempty; tauto |].
    split; [| discriminate]. intros _. reflexivity.
Qed.

(** X18.  Union membership on a built dataset: the union is present exactly
    when the [unionMember] state is set, its name is then "Local n - ...
    Workers Union" with n from 1 to 999, and the rule [unionName]
    resolves to the empty string exactly when the state is not set. *)
Theorem union_on_built_dataset rid sd clk g :
  exists d,
    fst (generateBaseData F rid sd clk g) = Some d
    /\ (data_union d = None <-> unionMember (checkboxes d) = false)
    /\ (forall u, data_union d = Some u ->
          exists n noun,
            1 <= n <= 999
            /\ union_name u = "Local " +:+ pretty n +:+ " - " +:+ noun +:+ " Workers Union")
    /\ forall (this : DataGenerator B) zone clockNow args (w : World F B),
         data this = d ->
         getCalculatedValue F B toFixed2 this zone clockNow "unionMemberCheckbox" args w
         = (VBool (unionMember (checkboxes d)), w)
         /\ (fst (getCalculatedValue F B toFixed2 this zone clockNow "unionName" args w)
             = VStr ""
             <-> unionMember (checkboxes d) = false).
Proof.
  destruct (generateBaseData_parts F HF rid sd clk g)
    as (d & g0 & start & stop & Hd & _ & Hnone & Hname & _).
  exists d. split; [exact Hd |]. split; [exact Hnone |]. split; [exact Hname |].
  intros this zone clockNow args w Hdata.
  unfold getCalculatedValue.
  repeat match goal with
  | |- context [generators F B toFixed2 this zone clockNow ?name] =>
      let r := eval hnf in (generators F B toFixed2 this zone clockNow name) in
      change (generators F B toFixed2 this zone clockNow name) with r
  end.
  rewrite Hdata. split; [now destruct args |].
  rewrite <- Hnone.
  destruct (data_union d) as [u |] eqn:Hu; destruct args; cbn.
  all: try (split; [| discriminate]; intros [= Hempty];
            destruct (Hname u eq_refl) as (n & noun & _ & Hn);
            rewrite Hn in Hempty; discriminate Hempty).
  all: split; reflexivity.
Qed.

(** X19.  The phone rules on a built dataset, for a faker whose
    [phone.number] fills the format "(###) ###-####" with digits: the
    area code is the first group of three digits and the number is the
    other two groups joined by a hyphen.  For a phone text without any
    digit the rules fall back on the characters at the positions 0 to 2
    and from position 4 on. *)
Theorem phone_rules_on_built_dataset rid sd clk g :
  (forall g0, exists a b c,
      digitString 3 a /\ digitString 3 b /\ digitString 4 c
      /\ fst (phone_number F "(###) ###-####" g0)
         = "(" +:+ a +:+ ") " +:+ b +:+ "-" +:+ c) ->
  (exists d a b c,
     fst (generateBaseData F rid sd clk g) = Some d
     /\ contactPhone (employer d) = "(" +:+ a +:+ ") " +:+ b +:+ "-" +:+ c
     /\ digitString 3 a /\ digitString 3 b /\ digitString 4 c
     /\ forall (this : DataGenerator B) zone clockNow args (w : World F B),
          data this = d ->
          getCalculatedValue F B toFixed2 this zone clockNow "employerPhoneAreaCode" args w
          = (VStr a, w)
          /\ getCalculatedValue F B toFixed2 this zone clockNow "employerPhoneNumber" args w
             = (VStr (b +:+ "-" +:+ c), w))
  /\ forall (this : DataGenerator B) zone clockNow args (w : World F B),
       let phone := contactPhone (employer (data this)) in
       hasDigit phone = false ->
       getCalculatedValue F B toFixed2 this zone clockNow "employerPhoneAreaCode" args w
       = (VStr (String.substring 0 3 phone), w)
       /\ getCalculatedValue F B toFixed2 this zone clockNow "employerPhoneNumber" args w
          = (VStr (String.substring 4 (String.length phone - 4) phone), w).
Proof.
  intros Hphone.
  assert (Hrules : forall (this : DataGenerator B) zone clockNow args (w : World F B),
             getCalculatedValue F B toFixed2 this zone clockNow
               "employerPhoneAreaCode" args w
             = (VStr (match PhonePattern.search (contactPhone (employer (data this))) with
                      | Some (g1, _, _) => g1
                      | None => String.substring 0 3 (contactPhone (employer (data this)))
                      end), w)
             /\ getCalculatedValue F B toFixed2 this zone clockNow
                  "employerPhoneNumber" args w
                = (VStr (match PhonePattern.search
                                 (contactPhone (employer (data this))) with
                         | Some (_, g2, g3) => g2 +:+ "-" +:+ g3
                         | None =>
                             let phone := contactPhone (employer (data this)) in
                             String.substring 4 (String.length phone - 4) phone
                         end), w)).
  { intros this zone clockNow args w. unfold getCalculatedValue.
    repeat match goal with
    | |- context [generators F B toFixed2 this zone clockNow ?name] =>
        let r := eval hnf in (generators F B toFixed2 this zone clockNow name) in
        change (generators F B toFixed2 this zone clockNow name) with r
    end.
    split; now destruct args. }
  split.
  - destruct (generateBaseData_parts F HF rid sd clk g)
      as (d & g0 & start & stop & Hd & _ & _ & _ & _ & _ & _ & _ & _ & _ & _ & _
          & (gp & Hgp) & _).
    destruct (Hphone gp) as (a & b & c & Ha & Hb & Hc & Hfmt).
    rewrite Hfmt in Hgp.
    exists d, a, b, c. split; [exact Hd |]. split; [exact Hgp |].
    split; [exact Ha |]. split; [exact Hb |]. split; [exact Hc |].
    intros this zone clockNow args w Hdata.
    destruct (Hrules this zone clockNow args w) as [-> ->].
    rewrite Hdata, Hgp.
    rewrite (PhonePatternFacts.search_matchHere _ _
               (PhonePatternFacts.matchHere_parenthesised a b c Ha Hb Hc)).
    split; reflexivity.
  - intros this zone clockNow args w phone Hnone.
    destruct (Hrules this zone clockNow args w) as [-> ->].
    fold phone. rewrite (PhonePatternFacts.search_no_digit phone Hnone).
    split; reflexivity.
Qed.
End CalculatedGates.

(** ** Going months back *)

Module JSDateMonthFacts.
Import JSDate JSDateFacts.

(** Going 6 to 10 months back, day of the month kept, is going between
    181 and 306 days back. *)
Lemma MakeDay_months_back y m k d :
  0 <= m < 12 -> 6 <= k <= 10 ->
  181 <= MakeDay y m d - MakeDay y (m - k) d <= 306.
Proof.
  intros Hm Hk.
  assert (Hm' : m = 0 \/ m = 1 \/ m = 2 \/ m = 3 \/ m = 4 \/ m = 5 \/ m = 6 \/ m = 7
                \/ m = 8 \/ m = 9 \/ m = 10 \/ m = 11) by lia.
  assert (Hk' : k = 6 \/ k = 7 \/ k = 8 \/ k = 9 \/ k = 10) by lia.
  pose proof (yearDays_step (y - 1)) as Hs1.
  pose proof (yearDays_step (y - 2)) as Hs2.
  replace (y - 1 + 1) with y in Hs1 by lia.
  replace (y - 2 + 1) with (y - 1) in Hs2 by lia.
  unfold MakeDay. cbv zeta. rewrite !days_from_civil_yearDays.
  destruct Hm' as [-> | [-> | [-> | [-> | [-> | [-> | [-> | [-> | [-> | [-> | [-> | ->]]]]]]]]]]];
    destruct Hk' as [-> | [-> | [-> | [-> | ->]]]];
    repeat match goal with
           | |- context [?a `mod` 12] =>
               let v := eval vm_compute in (a `mod` 12) in change (a `mod` 12) with v
           | |- context [?a `div` 12] =>
               let v := eval vm_compute in (a `div` 12) in change (a `div` 12) with v
           | |- context [?a <=? 2] =>
               let v := eval vm_compute in (a <=? 2) in change (a <=? 2) with v
           | |- context [2 <? ?a] =>
               let v := eval vm_compute in (2 <? a) in change (2 <? a) with v
           end;
    cbv iota;
    repeat match goal with
           | |- context [?a `div` 5] =>
               let v := eval vm_compute in (a `div` 5) in change (a `div` 5) with v
           end;
    repeat match goal with
           | |- context [yearDays ?a] =>
               lazymatch a with
               | y => fail
               | y - 1 => fail
               | y - 2 => fail
               | _ => first [ replace a with y by lia
                            | replace a with (y - 1) by lia
                            | replace a with (y - 2) by lia ]
               end
           end;
    lia.
Qed.

(** [d.setMonth(d.getMonth() - k)] for [k] from 6 to 10 moves the time
    value back by between 181 and 306 days, up to [hi - lo]. *)
Lemma setMonth_getMonth_back tz lo hi t k :
  offsetsWithin tz lo hi ->
  6 <= k <= 10 ->
  181 * msPerDay - (hi - lo) <= t - setMonth tz t (getMonth tz t - k)
    <= 306 * msPerDay + (hi - lo).
Proof.
  intros Hz Hk. unfold setMonth, getMonth, UTC. cbv zeta.
  set (l := LocalTime tz t).
  pose proof (MakeDay_months_back (YearFromTime l) (MonthFromTime l) k (DateFromTime l)
                (MonthFromTime_range l) Hk) as Hs.
  pose proof (MakeDay_same l 0) as Hsame. rewrite Z.add_0_r in Hsame.
  rewrite Hsame in Hs.
  pose proof (MakeDate_Day l) as Hd. unfold MakeDate in *.
  set (X := MakeDay _ _ _) in *. clearbody X.
  pose proof (proj1 (Hz t)) as Ha.
  pose proof (proj2 (Hz (X * msPerDay + TimeWithinDay l))) as Hb.
  set (o := offsetOf tz _) in *. clearbody o.
  set (D := Day l) in *. set (T := TimeWithinDay l) in *. clearbody D T.
  unfold LocalTime in l. subst l.
  set (a := offsetAt tz t) in *. clearbody a.
  unfold msPerDay in *. lia.
Qed.
End JSDateMonthFacts.

Section PriorPeriodFacts.
Context {num : Type} `{JSNumber num}.
Variable F : Faker num.
Hypothesis HF : FakerSpec F.

End PriorPeriodFacts.

(** ** batchFill *)

Lemma pretty_N_go_head x : forall s,
  (0 < x)%N ->
  exists c rest, pretty_N_go x s = String c rest /\ c <> "0"%char.
Proof.
  induction (N.lt_wf_0 x) as [x _ IH]. intros s Hx.
  rewrite pretty_N_go_step by exact Hx.
  destruct (N.eq_dec (x `div` 10)%N 0%N) as [Hz | Hnz].
  - rewrite Hz, pretty_N_go_0. eexists _, _. split; [reflexivity |].
    assert (Hlt : (x < 10)%N) by (apply N.div_small_iff in Hz; lia).
    rewrite N.mod_small by exact Hlt.
    assert (Hc : (x = 1 \/ x = 2 \/ x = 3 \/ x = 4 \/ x = 5 \/ x = 6 \/ x = 7
                  \/ x = 8 \/ x = 9)%N) by lia.
    destruct Hc as [-> | [-> | [-> | [-> | [-> | [-> | [-> | [-> | ->]]]]]]]];
      discriminate.
  - apply IH; [apply N.div_lt; lia | now apply N.neq_0_lt_0].
Qed.

(** The decimal text of a positive number does not start with a zero. *)
Lemma pretty_positive_head i :
  1 <= i -> exists c rest, pretty i = String c rest /\ c <> "0"%char.
Proof.
  intros Hi. destruct i as [| p | p]; try lia.
  change (pretty (Z.pos p)) with (pretty (N.pos p)).
  unfold pretty, pretty_N. destruct (decide (N.pos p = 0%N)) as [Hz | _]; [discriminate |].
  apply pretty_N_go_head. lia.
Qed.

Lemma zeros_inj a : forall b c1 r1 c2 r2,
  c1 <> "0"%char -> c2 <> "0"%char ->
  zeros a +:+ String c1 r1 = zeros b +:+ String c2 r2 ->
  String c1 r1 = String c2 r2.
Proof.
  induction a as [| a IH]; intros [| b] c1 r1 c2 r2 H1 H2 Heq; cbn in Heq.
  - exact Heq.
  - injection Heq as Hc _. congruence.
  - injection Heq as Hc _. congruence.
  - injection Heq as Heq. now apply (IH b).
Qed.

(** Padding keeps the decimal texts of positive numbers apart. *)
Lemma padStart_pretty_inj n i j :
  1 <= i -> 1 <= j -> padStart n (pretty i) = padStart n (pretty j) -> i = j.
Proof.
  intros Hi Hj Heq.
  destruct (pretty_positive_head i Hi) as (c1 & r1 & E1 & H1).
  destruct (pretty_positive_head j Hj) as (c2 & r2 & E2 & H2).
  unfold padStart in Heq. rewrite E1, E2 in Heq.
  apply zeros_inj in Heq; [| assumption | assumption].
  rewrite <- E1, <- E2 in Heq. now apply (inj pretty).
Qed.

Lemma append_inv_head (p a b : string) : p +:+ a = p +:+ b -> a = b.
Proof.
  induction p as [| x p IH]; [tauto |].
  change (String x p +:+ a) with (String x (p +:+ a)).
  change (String x p +:+ b) with (String x (p +:+ b)).
  intros [= Heq]. now apply IH.
Qed.

Lemma batchRunId_inj prefix i j :
  1 <= i -> 1 <= j -> batchRunId prefix i = batchRunId prefix j -> i = j.
Proof.
  intros Hi Hj Heq. unfold batchRunId in Heq.
  apply append_inv_head, append_inv_head in Heq.
  now apply (padStart_pretty_inj 3).
Qed.

Section BatchFacts.
Variable W : Type.
Variable fillForm : string -> W -> (FillResult + string) * W.

Lemma batchLoop_run_ids prefix indices : forall results w,
  List.map entry_runId (fst (batchLoop W fillForm prefix indices results w))
  = (List.map entry_runId results ++ List.map (batchRunId prefix) indices)%list.
Proof.
  induction indices as [| i rest IH]; intros results w; cbn [batchLoop].
  - cbn. now rewrite app_nil_r.
  - destruct (fillForm (batchRunId prefix i) w) as [outcome w'].
    rewrite IH, map_app, <- app_assoc. cbn. now destruct outcome.
Qed.

(** X21.  [batchFill] returns one entry per form, in the order of the forms,
    whether the form was filled or failed: a failure does not stop the
    batch.  The entry of the [i]-th form carries the run id made of the
    prefix and [i] padded to three digits, and the run ids of a batch are
    pairwise different, for any count, also beyond 999. *)
Theorem batchFill_run_ids count prefix (w : W) :
  let results := fst (batchFill W fillForm count prefix w) in
  List.map entry_runId results
  = List.map (fun i => batchRunId prefix (Z.of_nat i)) (seq 1 (Z.to_nat count))
  /\ List.length results = Z.to_nat count
  /\ NoDup (List.map entry_runId results).
Proof.
  intros results.
  assert (Hids : List.map entry_runId results
                 = List.map (fun i => batchRunId prefix (Z.of_nat i))
                     (seq 1 (Z.to_nat count))).
  { subst results. unfold batchFill. rewrite batchLoop_run_ids. cbn [List.map app].
    now rewrite List.map_map. }
  split; [exact Hids |]. split.
  - rewrite <- (List.length_map entry_runId), Hids, List.length_map. apply length_seq.
  - rewrite Hids.
    change (NoDup ((fun i => batchRunId prefix (Z.of_nat i)) <$> seq 1 (Z.to_nat count))).
    apply NoDup_fmap_2_strong; [| apply NoDup_seq].
    intros i j Hi Hj Heq. apply elem_of_seq in Hi, Hj.
    apply batchRunId_inj in Heq; lia.
Qed.
End BatchFacts.

(** ** The providers behind getAIValue *)

Section ProviderFacts.
Context {num : Type} `{JSNumber num}.
Variable F : Faker num.

(** A generator made for a run without stored dataset takes its options
    as given and holds a dataset without generated text. *)
Lemma new_DataGenerator_fresh_options (HF : FakerSpec F) B rid options clk
    (w : World F B) :
  files w !! rid = None ->
  exists this w',
    new_DataGenerator F B rid options clk w = Some (this, w')
    /\ this_runId this = rid
    /\ useAI this = opt_useAI options
    /\ aiCallback this = opt_aiCallback options
    /\ aiContent (data this) = None
    /\ backend_state w' = backend_state w
    /\ backend_calls w' = backend_calls w
    /\ files w' !! rid = Some (data this).
Proof.
  intros Hnone. unfold new_DataGenerator. rewrite Hnone.
  destruct (generateBaseData_disability F HF rid (Hash.hashString rid) clk
              (seed F (Hash.hashString rid)))
    as (d & _ & _ & Hd & _ & _ & _ & _ & _ & _ & Hai).
  destruct (generateBaseData F rid _ clk _) as [built g].
  cbn [fst] in Hd. subst built.
  eexists _, _. split; [reflexivity |]. cbn.
  rewrite lookup_insert_eq. auto 10.
Qed.

Lemma mockResponses_nth category n :
  In (List.nth (n mod 5) (mockResponses category) "") (mockResponses category)
  /\ List.nth (n mod 5) (mockResponses category) "" <> "".
Proof.
  assert (Hn : (n mod 5 < 5)%nat) by (apply Nat.mod_upper_bound; lia).
  unfold mockResponses.
  destruct (String.eqb category "disability_description_continued");
    destruct (n mod 5)%nat as [| [| [| [| [| ?]]]]]; try lia;
    (split; [cbn; tauto | discriminate]).
Qed.

(** X22.  The mock provider behind [createAICallback].  A request for a
    category without stored text invokes the provider once: the text is
    the mock response of the prompt's kind at the index of the call count
    modulo 5, counted from 1, and it is never empty.  So the text is
    stored and every later request for the category is answered with it
    without invoking the provider. *)
Theorem mock_provider_asked_once (this : DataGenerator nat) fieldName prompt category
    (w : World F nat) :
  useAI this = true ->
  aiCallback this = Some (createAICallback MockProvider_generate) ->
  cachedContent (default ∅ (aiContent (data this))) category = None ->
  exists text this1 w1,
    getAIValue F nat this fieldName prompt category w = (text, this1, w1)
    /\ text
       = List.nth (S (backend_state w) mod 5)
           (mockResponses (if includes prompt "Continue"
                           then "disability_description_continued"
                           else "disability_description")) ""
    /\ text <> ""
    /\ backend_state w1 = S (backend_state w)
    /\ backend_calls w1 = (backend_calls w ++ [(prompt, category)])%list
    /\ forall fieldName' prompt' (w1' : World F nat),
         getAIValue F nat this1 fieldName' prompt' category w1' = (text, this1, w1').
Proof.
  intros Hai Hcb Hmiss.
  destruct (getAIValue F nat this fieldName prompt category w) as [[text this1] w1] eqn:Hget.
  exists text, this1, w1. split; [reflexivity |].
  assert (Htext : text
                  = List.nth (S (backend_state w) mod 5)
                      (mockResponses (if includes prompt "Continue"
                                      then "disability_description_continued"
                                      else "disability_description")) ""
                  /\ backend_state w1 = S (backend_state w)
                  /\ backend_calls w1 = (backend_calls w ++ [(prompt, category)])%list).
  { unfold getAIValue in Hget. rewrite Hai, Hcb, Hmiss in Hget.
    unfold createAICallback, MockProvider_generate in Hget. cbv zeta in Hget.
    injection Hget as <- _ <-. cbn [backend_state backend_calls saveData].
    split; [| split; reflexivity].
    destruct (includes prompt "Continue"); reflexivity. }
  destruct Htext as (Htext & Hstate & Hcalls).
  assert (Hne : text <> "") by (rewrite Htext; apply mockResponses_nth).
  split; [exact Htext |]. split; [exact Hne |].
  split; [exact Hstate |]. split; [exact Hcalls |].
  intros fieldName' prompt' w1'.
  apply (getAIValue_cached F nat this fieldName prompt category w text this1 w1
           fieldName' prompt' w1' Hai); [congruence | exact Hget | exact Hne].
Qed.

(** X23.  A provider that throws behind [createAICallback], as the base class
    [AIProvider] always does: the request resolves to the empty string,
    which is stored under the category, and the category still counts as
    not generated, so that the next request invokes the provider again. *)
Theorem failing_provider_not_cached P (provider : Provider P)
    (this : DataGenerator P) fieldName prompt category (w : World F P) message p' :
  useAI this = true ->
  aiCallback this = Some (createAICallback provider) ->
  cachedContent (default ∅ (aiContent (data this))) category = None ->
  provider prompt
    (set_aiContent (data this) (default ∅ (aiContent (data this))))
    (backend_state w) = (Rejected message, p') ->
  exists this1 w1,
    getAIValue F P this fieldName prompt category w = ("", this1, w1)
    /\ backend_state w1 = p'
    /\ backend_calls w1 = (backend_calls w ++ [(prompt, category)])%list
    /\ default ∅ (aiContent (data this1)) !! category = Some ""
    /\ cachedContent (default ∅ (aiContent (data this1))) category = None
    /\ useAI this1 = true
    /\ aiCallback this1 = Some (createAICallback provider).
Proof.
  intros Hai Hcb Hmiss Hthrow. unfold getAIValue.
  rewrite Hai, Hcb, Hmiss. unfold createAICallback at 1.
  cbn [data set_data]. rewrite Hthrow.
  eexists _, _. split; [reflexivity |].
  cbn. unfold cachedContent. rewrite lookup_insert_eq. auto 10.
Qed.

Section GroqFacts.
Variable R : Type.
Variable generateDisabilityDescription : Dataset num -> R -> Outcome Description * R.

(** X24.  The cache of the Groq provider.  Once a description has been
    generated, every request, for any prompt and any context, is answered
    with a line of that description without asking the service; only
    [resetCache] makes the next request ask the service again, with the
    context of that request. *)
Theorem GroqProvider_cache prompt context (p : Groq R) description r :
  cachedDescription p = None ->
  generateDisabilityDescription context (service p) = (Resolved description, r) ->
  exists p1,
    GroqProvider_generate R generateDisabilityDescription prompt context p
    = (Resolved (lineFor prompt description), p1)
    /\ requests p1 = (requests p ++ [context])%list
    /\ (forall prompt2 context2,
          GroqProvider_generate R generateDisabilityDescription prompt2 context2 p1
          = (Resolved (lineFor prompt2 description), p1))
    /\ forall prompt2 context2,
         requests
           (snd (GroqProvider_generate R generateDisabilityDescription prompt2 context2
                   (resetCache R p1)))
         = (requests p ++ [context; context2])%list.
Proof.
  intros Hnone Hgen. unfold GroqProvider_generate at 1. rewrite Hnone, Hgen.
  eexists. split; [reflexivity |]. split; [reflexivity |]. split.
  - intros prompt2 context2. reflexivity.
  - intros prompt2 context2. unfold GroqProvider_generate, resetCache.
    cbn [cachedDescription service requests].
    destruct (generateDisabilityDescription context2 r) as [[d2 | m2] r2];
      cbn; now rewrite <- app_assoc.
Qed.

(** X25.  The two description fields of a form with the Groq callback.  On a
    dataset without generated text and with an empty cache, the first
    field asks the service once and gets line 1 of the description; the
    second field gets line 2 of the same description without a second
    request to the service; both lines are stored in the dataset. *)
Theorem groq_fills_both_lines (this : DataGenerator (Groq R)) (w : World F (Groq R))
    description r :
  useAI this = true ->
  aiCallback this = Some (createGroqCallback R generateDisabilityDescription) ->
  aiContent (data this) = None ->
  cachedDescription (backend_state w) = None ->
  generateDisabilityDescription (set_aiContent (data this) ∅) (service (backend_state w))
  = (Resolved description, r) ->
  exists this1 w1 this2 w2,
    getAIValue F (Groq R) this Toy.descriptionField Toy.descriptionPrompt
      "disability_description" w
    = (desc_line1 description, this1, w1)
    /\ getAIValue F (Groq R) this1 continuedField continuedPrompt
         "disability_description_continued" w1
       = (desc_line2 description, this2, w2)
    /\ requests (backend_state w2)
       = (requests (backend_state w) ++ [set_aiContent (data this) ∅])%list
    /\ aiContent (data this2)
       = Some (<["disability_description_continued" := desc_line2 description]>
                 (<["disability_description" := desc_line1 description]> ∅)).
Proof.
  intros Hai Hcb Hcontent Hcache Hgen.
  unfold getAIValue at 1. rewrite Hai, Hcb, Hcontent.
  change (default ∅ None) with (∅ : gmap string string).
  unfold cachedContent at 1. rewrite lookup_empty.
  cbn [data set_data].
  unfold createGroqCallback at 1, GroqProvider_generate at 1.
  rewrite Hcache.
  replace (set_aiContent (set_aiContent (data this) ∅) ∅)
    with (set_aiContent (data this) ∅) by reflexivity.
  rewrite Hgen.
  eexists _, _. eexists _, _. split; [reflexivity |].
  unfold getAIValue. cbn [useAI aiCallback data set_data set_aiContent aiContent].
  rewrite Hai, Hcb.
  change (default ∅ (Some ?c)) with c.
  unfold cachedContent.
  rewrite lookup_insert_ne by discriminate. rewrite lookup_empty.
  cbn [backend_state saveData].
  unfold createGroqCallback, GroqProvider_generate. cbn [cachedDescription].
  split; [reflexivity |]. split; reflexivity.
Qed.
End GroqFacts.
End ProviderFacts.

(** ** The further properties at sample inputs *)

Lemma Toy_digit_isDigit g : PhonePattern.isDigit (Toy.digit g) = true.
Proof.
  unfold Toy.digit.
  assert (Hc : 0 <= g mod 10 < 10) by (apply Z.mod_pos_bound; lia).
  assert (Hn : (Z.to_nat (g mod 10) < 10)%nat) by lia.
  destruct (Z.to_nat (g mod 10)) as [| [| [| [| [| [| [| [| [| [| ?]]]]]]]]]];
    try lia; reflexivity.
Qed.

(** The small facade fills the phone format with digits. *)
Lemma Toy_phone_format (g0 : G Toy.faker) :
  exists a b c,
    digitString 3 a /\ digitString 3 b /\ digitString 4 c
    /\ fst (phone_number Toy.faker "(###) ###-####" g0)
       = "(" +:+ a +:+ ") " +:+ b +:+ "-" +:+ c.
Proof.
  cbn [Toy.faker phone_number fst].
  set (g1 := Toy.next g0). set (g2 := Toy.next g1). set (g3 := Toy.next g2).
  set (g4 := Toy.next g3). set (g5 := Toy.next g4). set (g6 := Toy.next g5).
  set (g7 := Toy.next g6). set (g8 := Toy.next g7). set (g9 := Toy.next g8).
  set (g10 := Toy.next g9). set (g11 := Toy.next g10). set (g12 := Toy.next g11).
  set (g13 := Toy.next g12).
  exists (String (Toy.digit g1) (String (Toy.digit g2) (String (Toy.digit g3) ""))),
         (String (Toy.digit g6) (String (Toy.digit g7) (String (Toy.digit g8) ""))),
         (String (Toy.digit g10) (String (Toy.digit g11) (String (Toy.digit g12)
            (String (Toy.digit g13) "")))).
  unfold digitString. cbn [String.length allDigits].
  rewrite !Toy_digit_isDigit. repeat split.
Qed.

(** X4 at a sample input. *)
Lemma isYesNoCheckbox_isMultiWidgetCheckbox_witness :
  isYesNoCheckbox (getCheckboxOnValues Toy.yesNoField) = true
  /\ isMultiWidgetCheckbox (getCheckboxOnValues Toy.yesNoField) = true.
Proof.
  split; [reflexivity |].
  exact (isYesNoCheckbox_isMultiWidgetCheckbox
           (getCheckboxOnValues Toy.yesNoField) eq_refl).
Defined.

(** X6 at a sample input. *)
Lemma setMultiWidgetCheckboxValue_unreported_witness :
  (forall v, In v (getCheckboxOnValues Toy.yesNoField) -> value v <> "Maybe")
  /\ activeOnStates (setMultiWidgetCheckboxValue Toy.yesNoField "Maybe"
                       (getCheckboxOnValues Toy.yesNoField)) = [].
Proof.
  assert (Hno : forall v, In v (getCheckboxOnValues Toy.yesNoField)
                          -> value v <> "Maybe").
  { intros v Hv. cbn in Hv. destruct Hv as [<- | [<- | []]]; discriminate. }
  split; [exact Hno |].
  exact (proj2 (proj2 (setMultiWidgetCheckboxValue_unreported Toy.yesNoField "Maybe"
                         (getCheckboxOnValues Toy.yesNoField) Hno))).
Defined.

(** X7 at a sample input. *)
Lemma applyCheckbox_true_selects_first_witness :
  exists checkBox',
    applyCheckbox (fun c => c) (fun c => c) TCheckbox (VBool true)
      Sample.receivedClaimedField
    = Done checkBox'
        (Some {| filled_value := "Received"; filled_type := "checkbox-multi" |})
    /\ V checkBox' = Some "Received".
Proof.
  assert (Hty : TCheckbox <> TCheckboxMulti) by discriminate.
  assert (Hrest : [ {| widget := 1%nat; value := "Claimed" |} ] <> []) by discriminate.
  destruct (applyCheckbox_true_selects_first (fun c => c) (fun c => c) TCheckbox
              Sample.receivedClaimedField
              {| widget := 0%nat; value := "Received" |}
              [ {| widget := 1%nat; value := "Claimed" |} ]
              Hty eq_refl eq_refl Hrest)
    as (checkBox' & w & Happ & HV & _).
  exists checkBox'. split; [exact Happ | exact HV].
Defined.

(** X8 at a sample input. *)
Lemma getAIValue_without_AI_witness :
  exists this w',
    new_DataGenerator Toy.faker nat "claim-001" Toy.noAI Toy.clock Toy.world
    = Some (this, w')
    /\ getAIValue Toy.faker nat this Toy.descriptionField Toy.descriptionPrompt
         "disability_description" w'
       = (description1 (disability (data this)), this, w').
Proof.
  destruct (new_DataGenerator_fresh_options Toy.faker Toy_faker_spec nat "claim-001"
              Toy.noAI Toy.clock Toy.world eq_refl)
    as (this & w' & Hnew & _ & Huse & _).
  exists this, w'. split; [exact Hnew |].
  exact (getAIValue_without_AI Toy.faker nat this Toy.descriptionField
           Toy.descriptionPrompt "disability_description" w' (or_introl Huse)).
Defined.

(** X9 at a sample input. *)
Lemma getAIValue_miss_witness :
  exists this w' text this1 w1,
    new_DataGenerator Toy.faker nat "claim-001" (Toy.options Toy.answering)
      Toy.clock Toy.world = Some (this, w')
    /\ getAIValue Toy.faker nat this Toy.descriptionField Toy.descriptionPrompt
         "disability_description" w' = (text, this1, w1)
    /\ backend_calls w1
       = (backend_calls w' ++ [(Toy.descriptionPrompt, "disability_description")])%list
    /\ files w1 !! this_runId this = Some (data this1).
Proof.
  destruct (new_DataGenerator_fresh_options Toy.faker Toy_faker_spec nat "claim-001"
              (Toy.options Toy.answering) Toy.clock Toy.world eq_refl)
    as (this & w' & Hnew & _ & Huse & Hcb & Hcontent & _).
  assert (Hmiss : cachedContent (default ∅ (aiContent (data this)))
                    "disability_description" = None)
    by (rewrite Hcontent; reflexivity).
  destruct (getAIValue Toy.faker nat this Toy.descriptionField Toy.descriptionPrompt
              "disability_description" w') as [[text this1] w1] eqn:Hget.
  destruct (getAIValue_miss Toy.faker nat this Toy.answering Toy.descriptionField
              Toy.descriptionPrompt "disability_description" w' text this1 w1
              Huse Hcb Hmiss Hget)
    as (_ & Hcalls & _ & _ & Hfile & _).
  exists this, w', text, this1, w1.
  split; [exact Hnew |]. split; [exact Hget |]. split; [exact Hcalls | exact Hfile].
Defined.

(** X10 at a sample input. *)
Lemma getAIValue_persists_witness :
  exists this w' text this1 w1 this2,
    new_DataGenerator Toy.faker nat "claim-001" (Toy.options Toy.answering)
      Toy.clock Toy.world = Some (this, w')
    /\ getAIValue Toy.faker nat this Toy.descriptionField Toy.descriptionPrompt
         "disability_description" w' = (text, this1, w1)
    /\ new_DataGenerator Toy.faker nat (this_runId this) (Toy.options Toy.failingOnce)
         Toy.clock' w1 = Some (this2, w1)
    /\ getAIValue Toy.faker nat this2 Toy.descriptionField Toy.descriptionPrompt
         "disability_description" w1 = (text, this2, w1).
Proof.
  destruct (new_DataGenerator_fresh_options Toy.faker Toy_faker_spec nat "claim-001"
              (Toy.options Toy.answering) Toy.clock Toy.world eq_refl)
    as (this & w' & Hnew & _ & Huse & Hcb & Hcontent & _).
  assert (Hmiss : cachedContent (default ∅ (aiContent (data this)))
                    "disability_description" = None)
    by (rewrite Hcontent; reflexivity).
  destruct (getAIValue Toy.faker nat this Toy.descriptionField Toy.descriptionPrompt
              "disability_description" w') as [[text this1] w1] eqn:Hget.
  assert (Htext : text <> "").
  { pose proof Hget as Hget'. unfold getAIValue in Hget'.
    rewrite Huse, Hcb, Hmiss in Hget'. cbn in Hget'.
    injection Hget' as <- _ _. discriminate. }
  destruct (getAIValue_persists Toy.faker nat this Toy.answering Toy.descriptionField
              Toy.descriptionPrompt "disability_description" w' text this1 w1
              (Toy.options Toy.failingOnce) Toy.clock' w1 Toy.failingOnce
              Toy.descriptionField Toy.descriptionPrompt
              Huse Hcb Hmiss Hget Htext eq_refl eq_refl eq_refl)
    as (this2 & Hnew2 & _ & Hget2).
  exists this, w', text, this1, w1, this2.
  split; [exact Hnew |]. split; [exact Hget |]. split; [exact Hnew2 | exact Hget2].
Defined.

(** X11 at a sample input. *)
Lemma new_DataGenerator_other_runs_witness :
  exists this w',
    new_DataGenerator Toy.faker nat "claim-001" Toy.noAI Toy.clock Toy.world
    = Some (this, w')
    /\ files w' !! "claim-001" = Some (data this)
    /\ files w' !! "claim-002" = files Toy.world !! "claim-002".
Proof.
  destruct (new_DataGenerator_total Toy.faker nat Toy_faker_spec "claim-001" Toy.noAI
              Toy.clock Toy.world eq_refl)
    as (this & w' & Hnew).
  destruct (new_DataGenerator_other_runs Toy.faker nat "claim-001" Toy.noAI Toy.clock
              Toy.world this w' Hnew)
    as (_ & Hfile & Hothers & _).
  exists this, w'. split; [exact Hnew |]. split; [exact Hfile |].
  apply Hothers. discriminate.
Defined.


(** X17 at a sample input. *)
Lemma period_fields_on_built_dataset_witness :
  exists d,
    Toy.build "claim-001" Toy.clock = Some d
    /\ forall (this : DataGenerator nat) (w : World Toy.faker nat),
         data this = d ->
         (fst (getCalculatedValue Toy.faker nat Sample.toFixed2 this Sample.newYork (now Toy.clock)
                 "priorPFLEndYear" [] w) = VStr ""
          <-> priorPFL (checkboxes d) = false).
Proof.
  destruct (period_fields_on_built_dataset Toy.faker nat Sample.toFixed2 Toy_faker_spec
              "claim-001" (Hash.hashString "claim-001") Toy.clock
              (seed Toy.faker (Hash.hashString "claim-001")))
    as (d & Hd & Hrules).
  exists d. split; [exact Hd |].
  intros this w Hdata.
  pose proof (Hrules this Sample.newYork (now Toy.clock) w unit (fun _ _ => None) tt Hdata) as Hall.
  rewrite Forall_forall in Hall.
  specialize (Hall ("priorPFLEndYear", priorPFL)).
  cbv zeta in Hall. apply Hall.
  unfold periodRules. repeat (first [apply list_elem_of_here | apply list_elem_of_further]).
Defined.

(** X18 at a sample input. *)
Lemma union_on_built_dataset_witness :
  exists d,
    Toy.build "claim-001" Toy.clock = Some d
    /\ (data_union d = None <-> unionMember (checkboxes d) = false).
Proof.
  destruct (union_on_built_dataset Toy.faker nat Sample.toFixed2 Toy_faker_spec
              "claim-001" (Hash.hashString "claim-001") Toy.clock
              (seed Toy.faker (Hash.hashString "claim-001")))
    as (d & Hd & Hnone & _).
  exists d. split; [exact Hd | exact Hnone].
Defined.

(** X19 at a sample input. *)
Lemma phone_rules_on_built_dataset_witness :
  exists d a b c,
    Toy.build "claim-001" Toy.clock = Some d
    /\ contactPhone (employer d) = "(" +:+ a +:+ ") " +:+ b +:+ "-" +:+ c
    /\ forall (this : DataGenerator nat) (w : World Toy.faker nat),
         data this = d ->
         getCalculatedValue Toy.faker nat Sample.toFixed2 this Sample.newYork (now Toy.clock)
           "employerPhoneAreaCode" [] w = (VStr a, w).
Proof.
  destruct (phone_rules_on_built_dataset Toy.faker nat Sample.toFixed2 Toy_faker_spec
              "claim-001" (Hash.hashString "claim-001") Toy.clock
              (seed Toy.faker (Hash.hashString "claim-001")) Toy_phone_format)
    as [(d & a & b & c & Hd & Hphone & _ & _ & _ & Hrules) _].
  exists d, a, b, c. split; [exact Hd |]. split; [exact Hphone |].
  intros this w Hdata. apply (Hrules this Sample.newYork (now Toy.clock) [] w Hdata).
Defined.


(** X22 at a sample input. *)
Lemma mock_provider_asked_once_witness :
  exists this w' text this1 w1,
    new_DataGenerator Toy.faker nat "claim-001"
      (Sample.optionsWith (createAICallback MockProvider_generate))
      Toy.clock Toy.world = Some (this, w')
    /\ getAIValue Toy.faker nat this Toy.descriptionField Toy.descriptionPrompt
         "disability_description" w' = (text, this1, w1)
    /\ text = "Post-operative recovery following arthroscopic knee surgery for torn meniscus."
    /\ getAIValue Toy.faker nat this1 Toy.descriptionField Toy.descriptionPrompt
         "disability_description" w1 = (text, this1, w1).
Proof.
  destruct (new_DataGenerator_fresh_options Toy.faker Toy_faker_spec nat "claim-001"
              (Sample.optionsWith (createAICallback MockProvider_generate))
              Toy.clock Toy.world eq_refl)
    as (this & w' & Hnew & _ & Huse & Hcb & Hcontent & Hstate & _).
  assert (Hmiss : cachedContent (default ∅ (aiContent (data this)))
                    "disability_description" = None)
    by (rewrite Hcontent; reflexivity).
  destruct (mock_provider_asked_once Toy.faker this Toy.descriptionField
              Toy.descriptionPrompt "disability_description" w' Huse Hcb Hmiss)
    as (text & this1 & w1 & Hget & Htext & _ & _ & _ & Hagain).
  exists this, w', text, this1, w1.
  split; [exact Hnew |]. split; [exact Hget |].
  split; [rewrite Htext, Hstate; reflexivity | apply Hagain].
Defined.

(** X23 at a sample input. *)
Lemma failing_provider_not_cached_witness :
  exists this w' this1 w1,
    new_DataGenerator Toy.faker unit "claim-001"
      (Sample.optionsWith (createAICallback AIProvider_generate))
      Toy.clock (Sample.worldOf tt) = Some (this, w')
    /\ getAIValue Toy.faker unit this Toy.descriptionField Toy.descriptionPrompt
         "disability_description" w' = ("", this1, w1)
    /\ cachedContent (default ∅ (aiContent (data this1))) "disability_description"
       = None.
Proof.
  destruct (new_DataGenerator_fresh_options Toy.faker Toy_faker_spec unit "claim-001"
              (Sample.optionsWith (createAICallback AIProvider_generate))
              Toy.clock (Sample.worldOf tt) eq_refl)
    as (this & w' & Hnew & _ & Huse & Hcb & Hcontent & _).
  assert (Hmiss : cachedContent (default ∅ (aiContent (data this)))
                    "disability_description" = None)
    by (rewrite Hcontent; reflexivity).
  destruct (failing_provider_not_cached Toy.faker unit AIProvider_generate this
              Toy.descriptionField Toy.descriptionPrompt "disability_description" w'
              "generate() must be implemented by subclass" (backend_state w')
              Huse Hcb Hmiss eq_refl)
    as (this1 & w1 & Hget & _ & _ & _ & Hstill & _).
  exists this, w', this1, w1.
  split; [exact Hnew |]. split; [exact Hget | exact Hstill].
Defined.

(** X24 at a sample input. *)
Lemma GroqProvider_cache_witness :
  exists d p1,
    Toy.build "claim-001" Toy.clock = Some d
    /\ GroqProvider_generate nat Sample.describe Toy.descriptionPrompt d Sample.groq
       = (Resolved "Lower back strain with herniated disc L4-L5.", p1)
    /\ GroqProvider_generate nat Sample.describe continuedPrompt d p1
       = (Resolved "Pain radiates down left leg. Unable to sit for extended periods.", p1)
    /\ requests p1 = [d].
Proof.
  destruct (generateBaseData_total Toy.faker Toy_faker_spec "claim-001"
              (Hash.hashString "claim-001") Toy.clock
              (seed Toy.faker (Hash.hashString "claim-001"))) as [d Hd].
  destruct (GroqProvider_cache nat Sample.describe Toy.descriptionPrompt d Sample.groq
              _ _ eq_refl eq_refl)
    as (p1 & Hfirst & Hreq & Hcached & _).
  exists d, p1. split; [exact Hd |]. split; [exact Hfirst |].
  split; [exact (Hcached continuedPrompt d) | exact Hreq].
Defined.

(** X25 at a sample input. *)
Lemma groq_fills_both_lines_witness :
  exists this w' this1 w1 this2 w2,
    new_DataGenerator Toy.faker (Groq nat) "claim-001"
      (Sample.optionsWith (createGroqCallback nat Sample.describe))
      Toy.clock (Sample.worldOf Sample.groq) = Some (this, w')
    /\ getAIValue Toy.faker (Groq nat) this Toy.descriptionField Toy.descriptionPrompt
         "disability_description" w'
       = ("Lower back strain with herniated disc L4-L5.", this1, w1)
    /\ getAIValue Toy.faker (Groq nat) this1 continuedField continuedPrompt
         "disability_description_continued" w1
       = ("Pain radiates down left leg. Unable to sit for extended periods.", this2, w2)
    /\ List.length (requests (backend_state w2)) = 1%nat.
Proof.
  destruct (new_DataGenerator_fresh_options Toy.faker Toy_faker_spec (Groq nat)
              "claim-001" (Sample.optionsWith (createGroqCallback nat Sample.describe))
              Toy.clock (Sample.worldOf Sample.groq) eq_refl)
    as (this & w' & Hnew & _ & Huse & Hcb & Hcontent & Hstate & _).
  assert (Hcache : cachedDescription (backend_state w') = None)
    by (rewrite Hstate; reflexivity).
  destruct (groq_fills_both_lines Toy.faker nat Sample.describe this w' _ _
              Huse Hcb Hcontent Hcache eq_refl)
    as (this1 & w1 & this2 & w2 & H1 & H2 & Hreq & _).
  exists this, w', this1, w1, this2, w2.
  split; [exact Hnew |]. split; [exact H1 |]. split; [exact H2 |].
  rewrite Hreq, Hstate. reflexivity.
Defined.

(** X26 at a sample input. *)
Lemma getFakerValue_unknown_method_witness :
  exists this w',
    new_DataGenerator Toy.faker nat "claim-001" Toy.noAI Toy.clock Toy.world
    = Some (this, w')
    /\ getFakerValue Toy.faker nat this "person.middleName.first" [] w'
       = (VStr "", set_faker_state Toy.faker nat w' (seed Toy.faker (this_seed this))).
Proof.
  destruct (new_DataGenerator_total Toy.faker nat Toy_faker_spec "claim-001" Toy.noAI
              Toy.clock Toy.world eq_refl)
    as (this & w' & Hnew).
  exists this, w'. split; [exact Hnew |].
  exact (proj1 (getFakerValue_unknown_method Toy.faker nat this
                  "person.middleName.first" [] w' ["person"] "middleName" ["first"]
                  eq_refl eq_refl)).
Defined.

(** ** The description of a run *)

Section DescriptionFacts.
Context {num : Type} `{JSNumber num}.
Variable F : Faker num.

(** X27.  A generator made for a run without stored dataset seeds
    faker with [hashString] of the run id and builds; the description of
    the dataset is the sample at the index that [faker.number.int]
    returns for the bounds 0 and 4 in the state that the seeded
    generator has reached after the twenty draws before it (the days
    back, the years of employment, the birth date, the base wage and two
    draws for each of the eight weeks): [description1] and
    [description2] are the two lines of this one sample. *)
Theorem description_drawn_from_seeded_stream (HF : FakerSpec F) B rid options clk
    (w : World F B) :
  files w !! rid = None ->
  let i :=
    fst (number_int F 0 4 (stateAtDescription F clk (seed F (Hash.hashString rid)))) in
  exists this w' entry,
    new_DataGenerator F B rid options clk w = Some (this, w')
    /\ this_seed this = Hash.hashString rid
    /\ 0 <= i <= 4
    /\ sampleAt i = Some entry
    /\ In entry SampleDisabilityDescriptions
    /\ description1 (disability (data this)) = line1 entry
    /\ description2 (disability (data this)) = line2 entry.
Proof.
  intros Hnone i.
  destruct (generateBaseData_description_state F HF rid (Hash.hashString rid) clk
              (seed F (Hash.hashString rid)))
    as (d & entry & j & g0 & Hd & Hj & Hi & He & H1 & H2).
  assert (i = j) as -> by (subst i; now rewrite Hj).
  unfold new_DataGenerator. rewrite Hnone.
  destruct (generateBaseData F rid _ clk _) as [built g'].
  cbn [fst] in Hd. subst built.
  eexists _, _, entry. split; [reflexivity |].
  cbn [this_seed data]. split; [reflexivity |].
  split; [exact Hi |]. split; [exact He |].
  split; [| split; [exact H1 | exact H2]].
  unfold sampleAt in He. destruct (j <? 0); [discriminate |].
  exact (nth_error_In _ _ He).
Qed.
End DescriptionFacts.

(** X27 at the small facade: for run "claim-001" the drawn index is 2,
    while the seed modulo the number of samples is 4. *)
Lemma description_drawn_from_seeded_stream_witness :
  exists this w',
    new_DataGenerator Toy.faker nat "claim-001" Toy.noAI Toy.clock Toy.world
    = Some (this, w')
    /\ fst (number_int Toy.faker 0 4
              (stateAtDescription Toy.faker Toy.clock
                 (seed Toy.faker (Hash.hashString "claim-001")))) = 2
    /\ Hash.hashString "claim-001" mod 5 = 4
    /\ description1 (disability (data this))
       = "Post-surgical recovery following appendectomy due to acute appendicitis.".
Proof.
  destruct (description_drawn_from_seeded_stream Toy.faker Toy_faker_spec nat
              "claim-001" Toy.noAI Toy.clock Toy.world eq_refl)
    as (this & w' & entry & Hnew & _ & _ & He & _ & H1 & _).
  assert (Hi : fst (number_int Toy.faker 0 4
                      (stateAtDescription Toy.faker Toy.clock
                         (seed Toy.faker (Hash.hashString "claim-001")))) = 2)
    by (vm_compute; reflexivity).
  rewrite Hi in He. vm_compute in He. injection He as <-.
  exists this, w'. split; [exact Hnew |]. split; [exact Hi |].
  split; [vm_compute; reflexivity |]. exact H1.
Defined.
